(** * riptide_cli.lifecycle: progress reporting for service start and stop

    A shallow embedding of [src/riptide_cli/lifecycle.py] and the properties
    of its progress board, event handler and dispatcher loops.

    Conventions of the embedding:
    - a Python [str] is a [string]; [len] is counted in characters and has
      type [Z], like every Python [int];
    - the functions mutate [ctx.progress_bars], the [errors] list and the
      terminal; they are written in a state-and-exception monad over a
      [world] that holds the three, and a raised exception keeps the
      mutations made before it;
    - [tqdm], [click.echo] and the engine are collaborators outside the file:
      a progress bar is a record of the attributes the file reads and writes,
      the terminal is a log of what was drawn, the engine is the sequence of
      events its asynchronous generator yields;
    - a bar is drawn by formatting its [bar_format] with [str.format]: the
      syntax of format strings is embedded, and so are the replacement
      fields that the file itself writes; what formatting any other field
      does is an unknown of the world. *)

From Stdlib Require Import ZArith List Lia Bool Permutation.
From Stdlib Require Import Ascii String DecimalString.
Import ListNotations.

Local Open Scope string_scope.
Local Open Scope Z_scope.

(** ** Python strings *)

Module Py.

Definition len (s : string) : Z := Z.of_nat (String.length s).

Fixpoint take (k : nat) (s : string) : string :=
  match k, s with
  | O, _ => EmptyString
  | S _, EmptyString => EmptyString
  | S k', String c s' => String c (take k' s')
  end.

Fixpoint spaces (k : nat) : string :=
  match k with
  | O => EmptyString
  | S k' => String " "%char (spaces k')
  end.

(** [s[:k]]: a negative bound counts from the end of the string, and both
    ends are clamped to the string. *)
Definition slice_to (s : string) (k : Z) : string :=
  let stop := if k <? 0 then Z.max 0 (len s + k) else Z.min k (len s) in
  take (Z.to_nat stop) s.

(** [s.ljust(w)]: [s] itself when it already has [w] characters or more,
    otherwise [s] followed by spaces. *)
Definition ljust (s : string) (w : Z) : string :=
  if w <=? len s then s else s ++ spaces (Z.to_nat (w - len s)).

(** [s.rjust(w)] puts the spaces in front.  The file never calls it; it is
    here to tell the two sides of padding apart. *)
Definition rjust (s : string) (w : Z) : string :=
  if w <=? len s then s else spaces (Z.to_nat (w - len s)) ++ s.

(** [max(xs, key=len)] over a non-empty sequence: the first element of
    greatest length, a later one replacing the best so far only when it is
    strictly longer. *)
Fixpoint max_from (best : string) (xs : list string) : string :=
  match xs with
  | [] => best
  | x :: xs' => max_from (if len x >? len best then x else best) xs'
  end.

End Py.

(** ** Exceptions and results

    Only subclasses of [Exception] are modelled, which is what the
    [except Exception] clauses of the dispatchers catch. *)

Inductive exn : Type :=
| ValueError (msg : string)
| KeyError (key : string)
| AttributeError (attr : string)
| IndexError (msg : string)
| EngineError (msg : string)
| RiptideCliError (msg : string) (cause : exn).

Inductive result (A : Type) : Type :=
| Ok (a : A)
| Raise (e : exn).

Arguments Ok {A} a.
Arguments Raise {A} e.

(** The name of the class of an exception, as [type(e).__name__] gives it. *)
Definition exn_class (e : exn) : string :=
  match e with
  | ValueError _ => "ValueError"
  | KeyError _ => "KeyError"
  | AttributeError _ => "AttributeError"
  | IndexError _ => "IndexError"
  | EngineError _ => "EngineError"
  | RiptideCliError _ _ => "RiptideCliError"
  end.

(** [e.__cause__], set by [raise ... from err]. *)
Definition exn_cause (e : exn) : option exn :=
  match e with
  | RiptideCliError _ cause => Some cause
  | _ => None
  end.

(** ** Format strings

    [str.format] reads a format string from left to right: [{{] and [}}]
    stand for one brace, a single [}] is an error, and a single [{] opens a
    replacement field that runs to its closing brace, through a field name
    (in which brackets hide what they enclose), an optional conversion after
    [!] and an optional format specification after [:], in which braces
    nest.  Each field is formatted when its end is reached, so the first
    error, of syntax or of a field, is the one raised. *)

Module Format.

Inductive state : Type :=
| Text
| AfterOpen
| AfterClose
| Name (field : string)
| Index (field : string)
| Conversion (field : string)
| Converted (field : string)
| Spec (field : string) (depth : nat).

Definition snoc (s : string) (c : ascii) : string := s ++ String c EmptyString.

(** The end of a field: [check] tells what formatting the field raises. *)
Definition done (check : string -> option exn) (field : string) : state + exn :=
  match check field with
  | None => inl Text
  | Some e => inr e
  end.

Definition in_name (check : string -> option exn) (field : string) (c : ascii)
    : state + exn :=
  if Ascii.eqb c "{" then inr (ValueError "unexpected '{' in field name")
  else if Ascii.eqb c "[" then inl (Index (snoc field c))
  else if Ascii.eqb c "}" then done check field
  else if Ascii.eqb c ":" then inl (Spec (snoc field c) 1)
  else if Ascii.eqb c "!" then inl (Conversion (snoc field c))
  else inl (Name (snoc field c)).

Definition step (check : string -> option exn) (st : state) (c : ascii)
    : state + exn :=
  match st with
  | Text =>
      if Ascii.eqb c "{" then inl AfterOpen
      else if Ascii.eqb c "}" then inl AfterClose
      else inl Text
  | AfterOpen =>
      if Ascii.eqb c "{" then inl Text else in_name check EmptyString c
  | AfterClose =>
      if Ascii.eqb c "}" then inl Text
      else inr (ValueError "Single '}' encountered in format string")
  | Name field => in_name check field c
  | Index field =>
      if Ascii.eqb c "]" then inl (Name (snoc field c))
      else inl (Index (snoc field c))
  | Conversion field => inl (Converted (snoc field c))
  | Converted field =>
      if Ascii.eqb c "}" then done check field
      else if Ascii.eqb c ":" then inl (Spec (snoc field c) 1)
      else inr (ValueError "expected ':' after conversion specifier")
  | Spec field depth =>
      if Ascii.eqb c "{" then inl (Spec (snoc field c) (S depth))
      else if Ascii.eqb c "}" then
        match depth with
        | S (S d) => inl (Spec (snoc field c) (S d))
        | _ => done check field
        end
      else inl (Spec (snoc field c) depth)
  end.

(** The end of the format string. *)
Definition finish (st : state) : option exn :=
  match st with
  | Text => None
  | AfterOpen => Some (ValueError "Single '{' encountered in format string")
  | AfterClose => Some (ValueError "Single '}' encountered in format string")
  | Name _ | Index _ => Some (ValueError "expected '}' before end of string")
  | Conversion _ =>
      Some (ValueError "end of string while looking for conversion specifier")
  | Converted _ | Spec _ _ => Some (ValueError "unmatched '{' in format spec")
  end.

Fixpoint walk (check : string -> option exn) (st : state) (s : string)
    : state + exn :=
  match s with
  | EmptyString => inl st
  | String c rest =>
      match step check st c with
      | inl st' => walk check st' rest
      | inr e => inr e
      end
  end.

(** What [fmt.format(...)] raises, [None] if it returns. *)
Definition error (check : string -> option exn) (fmt : string) : option exn :=
  match walk check Text fmt with
  | inl st => finish st
  | inr e => Some e
  end.

(** No brace in the string. *)
Fixpoint brace_free (s : string) : bool :=
  match s with
  | EmptyString => true
  | String c rest =>
      negb (Ascii.eqb c "{") && negb (Ascii.eqb c "}") && brace_free rest
  end.

End Format.

(** ** Status events *)

(** Modelled from the spec: the classes of the status objects live in
    [riptide.engine.results], outside the file.  A status is either a progress
    step with the attributes [text], [current_step] and [steps] (which may be
    [None]), or a failure with the attribute [message]; the engine yields
    [None] in its place for a plain success. *)
Inductive status : Type :=
| InProgress (text : string) (current_step : Z) (steps : option Z)
| Failure (message : string).

(** One item of the engine's generator: [(service_name, status, finished)]. *)
Definition event : Type := string * option status * bool.

(** What [errors.append({"service": service_name, "error": status})] stores:
    the status object itself sits under ["error"]. *)
Record error_record : Type := {
  service : string;
  error : status
}.

(** ** Progress bars

    Of [tqdm] the model keeps the attributes that the file passes to the
    constructor, assigns or reads: [total], [position], [bar_format],
    [postfix] (a list, of which the bar format shows item 0), the counter
    [n], and the description handed to [set_description].  [closed] records
    that [close()] was called. *)

Module Tqdm.

Record t : Type := {
  total : option Z;
  position : Z;
  bar_format : string;
  postfix : list string;
  n : Z;
  description : string;
  closed : bool
}.

Definition with_total (v : option Z) (b : t) : t :=
  {| total := v; position := position b; bar_format := bar_format b;
     postfix := postfix b; n := n b; description := description b;
     closed := closed b |}.

Definition with_bar_format (v : string) (b : t) : t :=
  {| total := total b; position := position b; bar_format := v;
     postfix := postfix b; n := n b; description := description b;
     closed := closed b |}.

Definition with_postfix (v : list string) (b : t) : t :=
  {| total := total b; position := position b; bar_format := bar_format b;
     postfix := v; n := n b; description := description b;
     closed := closed b |}.

Definition with_n (v : Z) (b : t) : t :=
  {| total := total b; position := position b; bar_format := bar_format b;
     postfix := postfix b; n := v; description := description b;
     closed := closed b |}.

Definition with_description (v : string) (b : t) : t :=
  {| total := total b; position := position b; bar_format := bar_format b;
     postfix := postfix b; n := n b; description := v;
     closed := closed b |}.

Definition with_closed (v : bool) (b : t) : t :=
  {| total := total b; position := position b; bar_format := bar_format b;
     postfix := postfix b; n := n b; description := description b;
     closed := v |}.

End Tqdm.

(** ** The insertion-ordered dictionary of bars

    [OrderedDict]: assigning to a new key appends the entry, assigning to a
    key already present replaces its value where it stands. *)

Definition OrderedDict : Type := list (string * Tqdm.t).

Fixpoint od_get (k : string) (d : OrderedDict) : option Tqdm.t :=
  match d with
  | [] => None
  | (k', v) :: d' => if String.eqb k k' then Some v else od_get k d'
  end.

Fixpoint od_set (k : string) (v : Tqdm.t) (d : OrderedDict) : OrderedDict :=
  match d with
  | [] => [(k, v)]
  | (k', v') :: d' =>
      if String.eqb k k' then (k', v) :: d' else (k', v') :: od_set k v d'
  end.

Definition od_keys (d : OrderedDict) : list string := map fst d.
Definition od_values (d : OrderedDict) : list Tqdm.t := map snd d.

(** ** The world the functions act on *)

(** What reaches the terminal, oldest first.  A bar is named by its row, the
    [position] it was created with. *)
Inductive drawn : Type :=
| Created (row : Z)
| Refreshed (row : Z)
| Closed (row : Z)
| Echoed (message : string).

(** The two shares of the terminal's width that [text_width_right] and
    [text_width_error] compute, [round(columns * 0.4)] and
    [round(columns * 0.7)].  The floating-point rounding is not embedded: the
    record holds its two results. *)
Record terminal_size : Type := {
  share_right : Z;
  share_error : Z
}.

(** [tqdm_field] is what the installed tqdm does when it formats, for a bar,
    a replacement field other than those the file itself writes: the
    exception raised, or [None].  It stands for tqdm's variables and their
    values, which are not embedded. *)
Record world : Type := {
  terminal : option terminal_size;   (* [None]: [os.get_terminal_size] raises [OSError] *)
  tqdm_field : Tqdm.t -> string -> option exn;
  progress_bars : OrderedDict;       (* [ctx.progress_bars] *)
  errors : list error_record;        (* the list [errors] of the dispatcher *)
  screen : list drawn
}.

(** ** The monad of state and exceptions *)

Definition M (A : Type) : Type := world -> result A * world.

Definition ret {A : Type} (a : A) : M A := fun w => (Ok a, w).

Definition raise {A : Type} (e : exn) : M A := fun w => (Raise e, w).

Definition bind {A B : Type} (m : M A) (f : A -> M B) : M B :=
  fun w =>
    match m w with
    | (Ok a, w') => f a w'
    | (Raise e, w') => (Raise e, w')
    end.

(** [try: body / except Exception as err: handler(err)] *)
Definition try_except {A : Type} (body : M A) (handler : exn -> M A) : M A :=
  fun w =>
    match body w with
    | (Ok a, w') => (Ok a, w')
    | (Raise e, w') => handler e w'
    end.

Declare Scope monad_scope.
Delimit Scope monad_scope with monad.
Notation "x <- m ;; k" := (bind m (fun x => k))
  (at level 61, m at next level, right associativity) : monad_scope.
Notation "m ;; k" := (bind m (fun _ => k))
  (at level 61, right associativity) : monad_scope.
Local Open Scope monad_scope.

Definition put_progress_bars (d : OrderedDict) (w : world) : world :=
  {| terminal := terminal w; tqdm_field := tqdm_field w;
     progress_bars := d;
     errors := errors w; screen := screen w |}.

Definition put_errors (l : list error_record) (w : world) : world :=
  {| terminal := terminal w; tqdm_field := tqdm_field w;
     progress_bars := progress_bars w;
     errors := l; screen := screen w |}.

Definition put_drawn (d : drawn) (w : world) : world :=
  {| terminal := terminal w; tqdm_field := tqdm_field w;
     progress_bars := progress_bars w;
     errors := errors w; screen := screen w ++ [d] |}.

Definition draw (d : drawn) : M unit := fun w => (Ok tt, put_drawn d w).

Definition get_progress_bars : M OrderedDict := fun w => (Ok (progress_bars w), w).

Definition set_progress_bars (d : OrderedDict) : M unit :=
  fun w => (Ok tt, put_progress_bars d w).

Definition get_errors : M (list error_record) := fun w => (Ok (errors w), w).

Definition get_tqdm_field : M (Tqdm.t -> string -> option exn) :=
  fun w => (Ok (tqdm_field w), w).

Definition set_errors (l : list error_record) : M unit :=
  fun w => (Ok tt, put_errors l w).

(** [click.echo(message)]; [click.style] only colours the text and is the
    identity on it here. *)
Definition echo (message : string) : M unit := draw (Echoed message).

Definition style (text : string) : string := text.

(** ** tqdm's methods, as far as the file calls them *)

(** What formatting one replacement field raises for a bar.  The fields of
    the format that the file gives to the constructor are decided here:
    [desc], [n_fmt], [total_fmt] and [bar] format, and [postfix[0]] does when
    the list has an item 0.  Every other field is asked of the world. *)
Definition field_error (fields : Tqdm.t -> string -> option exn)
    (bar : Tqdm.t) (field : string) : option exn :=
  if String.eqb field "desc" || String.eqb field "n_fmt"
     || String.eqb field "total_fmt" || String.eqb field "bar"
  then None
  else if String.eqb field "postfix[0]" then
    match Tqdm.postfix bar with
    | [] => Some (IndexError "list index out of range")
    | _ :: _ => None
    end
  else fields bar field.

(** What drawing the bar raises: tqdm formats [bar_format] with
    [str.format]. *)
Definition format_error (fields : Tqdm.t -> string -> option exn)
    (bar : Tqdm.t) : option exn :=
  Format.error (field_error fields bar) (Tqdm.bar_format bar).

(** [tqdm(total=.., position=.., bar_format=.., postfix=..)]: a new bar with
    its counter at 0 and no description, drawn on its row. *)
Definition tqdm (total : option Z) (position : Z) (bar_format : string)
    (postfix : list string) : M Tqdm.t :=
  let bar := {| Tqdm.total := total; Tqdm.position := position;
                Tqdm.bar_format := bar_format; Tqdm.postfix := postfix;
                Tqdm.n := 0; Tqdm.description := ""; Tqdm.closed := false |} in
  fields <- get_tqdm_field ;;
  match format_error fields bar with
  | Some e => raise e
  | None => draw (Created position) ;; ret bar
  end.

(** [bar.refresh()] redraws the bar, and raises what formatting its
    [bar_format] raises. *)
Definition refresh (bar : Tqdm.t) : M Tqdm.t :=
  fields <- get_tqdm_field ;;
  match format_error fields bar with
  | Some e => raise e
  | None => draw (Refreshed (Tqdm.position bar)) ;; ret bar
  end.

(** [bar.set_description(desc)] stores the description and redraws. *)
Definition set_description (desc : string) (bar : Tqdm.t) : M Tqdm.t :=
  refresh (Tqdm.with_description desc bar).

(** [bar.update(delta)] adds [delta] to the counter: tqdm's update is an
    increment, not an assignment. *)
Definition update (delta : Z) (bar : Tqdm.t) : M Tqdm.t :=
  ret (Tqdm.with_n (Tqdm.n bar + delta) bar).

(** [bar.close()].  The dispatchers close a bar only after every redraw of
    it returned, and the last line that closing writes is not formatted
    anew here. *)
Definition close (bar : Tqdm.t) : M Tqdm.t :=
  draw (Closed (Tqdm.position bar)) ;; ret (Tqdm.with_closed true bar).

(** [bar.postfix[0] = text]: item assignment on a list, which raises
    [IndexError] on an empty one. *)
Definition set_postfix_0 (text : string) (bar : Tqdm.t) : M Tqdm.t :=
  match Tqdm.postfix bar with
  | [] => raise (IndexError "list assignment index out of range")
  | _ :: rest => ret (Tqdm.with_postfix (text :: rest) bar)
  end.

(** ** Attribute access on a status *)

Definition status_text (s : option status) : M string :=
  match s with
  | Some (InProgress text _ _) => ret text
  | _ => raise (AttributeError "text")
  end.

Definition status_steps (s : option status) : M (option Z) :=
  match s with
  | Some (InProgress _ _ steps) => ret steps
  | _ => raise (AttributeError "steps")
  end.

Definition status_current_step (s : option status) : M Z :=
  match s with
  | Some (InProgress _ current_step _) => ret current_step
  | _ => raise (AttributeError "current_step")
  end.

Definition status_message (s : status) : M string :=
  match s with
  | Failure message => ret message
  | _ => raise (AttributeError "message")
  end.

(** ** lifecycle.py *)

(** What [text_width_right()] returns in a world: the share of the width
    of the terminal, or the fallback 45 when the size is not available. *)
Definition right_budget (w : world) : Z :=
  match terminal w with
  | Some size => share_right size
  | None => 45
  end.

Definition error_budget (w : world) : Z :=
  match terminal w with
  | Some size => share_error size
  | None => 45
  end.

(** [text_width_right()], lines 15-20 *)
Definition text_width_right : M Z := fun w => (Ok (right_budget w), w).

(** [text_width_error()], lines 23-28 *)
Definition text_width_error : M Z := fun w => (Ok (error_budget w), w).

(** [len(max(services, key=len))], line 35; [max] raises [ValueError] on an
    empty sequence. *)
Definition longest_name_len (services : list string) : M Z :=
  match services with
  | [] => raise (ValueError "max() arg is an empty sequence")
  | first :: rest => ret (Py.len (Py.max_from first rest))
  end.

(** [progress_bars[service_name]] on a dictionary held in a local variable *)
Definition getitem (progress_bars : OrderedDict) (service_name : string) : M Tqdm.t :=
  match od_get service_name progress_bars with
  | Some bar => ret bar
  | None => raise (KeyError service_name)
  end.

(** What the assignment [progress_bars[service_name] = ...] of line 39 does
    to a bar already stored under the name: nothing refers to it any more,
    and in CPython its [__del__] runs at once and closes it. *)
Definition del_replaced (progress_bars : OrderedDict) (service_name : string)
    : M unit :=
  match od_get service_name progress_bars with
  | Some replaced => _ <- close replaced ;; ret tt
  | None => ret tt
  end.

(** The loop of lines 37-46, from counter [i] and dictionary [progress_bars]. *)
Fixpoint build_loop (services : list string) (longest_service_name_len : Z)
    (i : Z) (progress_bars : OrderedDict) : M OrderedDict :=
  match services with
  | [] => ret progress_bars
  | service_name :: rest =>
      tw <- text_width_right ;;
      bar <- tqdm (Some 1) i "{desc}{n_fmt}/{total_fmt}|{bar}| {postfix[0]}"
                  [Py.ljust "..." tw] ;;
      del_replaced progress_bars service_name ;;
      let progress_bars := od_set service_name bar progress_bars in
      let i := i + 1 in
      bar <- getitem progress_bars service_name ;;
      bar <- set_description
               (Py.ljust service_name longest_service_name_len) bar ;;
      build_loop rest longest_service_name_len i
                 (od_set service_name bar progress_bars)
  end.

(** [_build_progress_bars(services)], lines 31-47 *)
Definition _build_progress_bars (services : list string) : M OrderedDict :=
  longest_service_name_len <- longest_name_len services ;;
  build_loop services longest_service_name_len 0 [].

(** [bound]: lines 57 and 65 are the same conditional expression, once over
    [status.message] with [text_width_error()] and once over [status.text]
    with [text_width_right()]:
    [(t[:tw-3] + '...') if len(t) > tw-3 else t.ljust(tw)]. *)
Definition bound (text : string) (tw : Z) : string :=
  if Py.len text >? tw - 3
  then Py.slice_to text (tw - 3) ++ "..."
  else Py.ljust text tw.

(** [progress_bars[service_name].method(...)] and
    [progress_bars[service_name].attr = ...] on [ctx.progress_bars]: the
    lookup raises [KeyError] for a name that is not a key; the bar is
    changed where it stands. *)
Definition on_bar (service_name : string) (method : Tqdm.t -> M Tqdm.t) : M unit :=
  progress_bars <- get_progress_bars ;;
  bar <- getitem progress_bars service_name ;;
  bar <- method bar ;;
  progress_bars <- get_progress_bars ;;
  set_progress_bars (od_set service_name bar progress_bars).

(** [progress_bars[service_name].attr], read *)
Definition bar_attr {A : Type} (service_name : string) (attr : Tqdm.t -> A) : M A :=
  progress_bars <- get_progress_bars ;;
  bar <- getitem progress_bars service_name ;;
  ret (attr bar).

Definition errors_append (r : error_record) : M unit :=
  errors <- get_errors ;;
  set_errors (errors ++ [r]).

(** [status.steps != total and status.steps is not None], line 67 *)
Definition total_differs (total steps : option Z) : bool :=
  match steps with
  | None => false
  | Some s =>
      match total with
      | Some t => negb (t =? s)
      | None => true
      end
  end.

(** [_handle_progress_bar(service_name, status, finished, progress_bars, errors)],
    lines 50-71, with [progress_bars] and [errors] the two objects of the
    world. *)
Definition _handle_progress_bar (service_name : string) (status : option status)
    (finished : bool) : M unit :=
  if finished then
    match status with
    | Some st =>
        tw <- text_width_error ;;
        errors_append {| service := service_name; error := st |} ;;
        message <- status_message st ;;
        let msg := bound message tw in
        on_bar service_name (fun bar => ret (Tqdm.with_bar_format ("{desc}" ++ msg) bar)) ;;
        on_bar service_name refresh
    | None => ret tt
    end
  else
    tw <- text_width_right ;;
    text <- status_text status ;;
    let text_for_status := bound text tw in
    on_bar service_name (set_postfix_0 text_for_status) ;;
    total <- bar_attr service_name Tqdm.total ;;
    steps <- status_steps status ;;
    (if total_differs total steps
     then on_bar service_name (fun bar => ret (Tqdm.with_total steps bar))
     else ret tt) ;;
    current_step <- status_current_step status ;;
    n <- bar_attr service_name Tqdm.n ;;
    on_bar service_name (update (current_step - n)) ;;
    on_bar service_name refresh.

(** ** The engine *)

(** What an asynchronous generator of the engine does when it is iterated:
    it yields [yielded], then either ends ([raised = None]) or raises. *)
Record stream : Type := {
  yielded : list event;
  raised : option exn
}.

Record Engine : Type := {
  engine_start_project : list string -> stream;
  engine_stop_project : list string -> stream
}.

(** Of [ctx], the keys of [project["app"]["services"]] and the engine. *)
Record Context : Type := {
  project_services : list string;
  engine : Engine
}.

(** The body of the [async for] of lines 102-103 and 135-136 over the items
    the generator yields. *)
Fixpoint handle_events (items : list event) : M unit :=
  match items with
  | [] => ret tt
  | (service_name, status, finished) :: rest =>
      _handle_progress_bar service_name status finished ;;
      handle_events rest
  end.

Definition async_for (s : stream) : M unit :=
  handle_events (yielded s) ;;
  match raised s with
  | Some err => raise err
  | None => ret tt
  end.

(** [for bar in reversed(ctx.progress_bars.values()): bar.close(); echo()],
    lines 107-109 and 140-142, over the entries still to visit. *)
Fixpoint close_loop (entries : list (string * Tqdm.t)) : M unit :=
  match entries with
  | [] => ret tt
  | (service_name, _) :: rest =>
      on_bar service_name close ;;
      echo "" ;;
      close_loop rest
  end.

Definition close_bars : M unit :=
  progress_bars <- get_progress_bars ;;
  close_loop (rev progress_bars).

Section Dispatcher.

(** [riptide_cli.helpers.TAB] *)
Variable TAB : string.

(** [str(error["error"])] for the status classes of the engine *)
Variable str : status -> string.

(** [status_project(ctx)], lines 150-188: it prints the report of the
    engine's status and touches neither the bars nor the errors; what it
    prints is not part of this development. *)
Variable status_project : Context -> M unit.

(** The loop of lines 78-81 *)
Fixpoint display_each (errors : list error_record) : M unit :=
  match errors with
  | [] => ret tt
  | entry :: rest =>
      echo (TAB ++ style (service entry ++ ":")) ;;
      echo (TAB ++ style (str (error entry))) ;;
      echo "" ;;
      display_each rest
  end.

(** [_display_errors(errors)], lines 74-81 *)
Definition _display_errors (errors : list error_record) : M unit :=
  if Z.of_nat (List.length errors) >? 0 then
    echo (style "There were errors while starting some of the services: ") ;;
    display_each errors
  else ret tt.

(** [start_project(ctx, services, show_status)], lines 84-114 *)
Definition start_project (ctx : Context) (services : option (list string))
    (show_status : bool) : M unit :=
  let services :=
    match services with
    | None => project_services ctx
    | Some names => names
    end in
  echo "Starting services..." ;;
  echo "" ;;
  progress_bars <- _build_progress_bars services ;;
  set_progress_bars progress_bars ;;
  set_errors [] ;;
  try_except (async_for (engine_start_project (engine ctx) services))
    (fun err => raise (RiptideCliError "Error starting the services" err)) ;;
  close_bars ;;
  errors <- get_errors ;;
  _display_errors errors ;;
  if show_status then status_project ctx else ret tt.

(** [stop_project(ctx, services, show_status)], lines 117-147 *)
Definition stop_project (ctx : Context) (services : option (list string))
    (show_status : bool) : M unit :=
  let services :=
    match services with
    | None => project_services ctx
    | Some names => names
    end in
  echo "Stopping services..." ;;
  echo "" ;;
  progress_bars <- _build_progress_bars services ;;
  set_progress_bars progress_bars ;;
  set_errors [] ;;
  try_except (async_for (engine_stop_project (engine ctx) services))
    (fun err => raise (RiptideCliError "Error stopping the services" err)) ;;
  close_bars ;;
  errors <- get_errors ;;
  _display_errors errors ;;
  if show_status then status_project ctx else ret tt.

(** Both functions are two [echo]s followed by the same steps, which differ
    in the generator iterated and in the message of the error raised. *)
Definition run_operation (ctx : Context) (events : stream)
    (services : list string) (failure_message : string)
    (show_status : bool) : M unit :=
  progress_bars <- _build_progress_bars services ;;
  set_progress_bars progress_bars ;;
  set_errors [] ;;
  try_except (async_for events)
    (fun err => raise (RiptideCliError failure_message err)) ;;
  close_bars ;;
  errors <- get_errors ;;
  _display_errors errors ;;
  if show_status then status_project ctx else ret tt.

End Dispatcher.

(** The world a dispatcher starts in: a terminal and a tqdm, nothing drawn
    yet. *)
Definition fresh (term : option terminal_size)
    (fields : Tqdm.t -> string -> option exn) : world :=
  {| terminal := term; tqdm_field := fields;
     progress_bars := []; errors := []; screen := [] |}.

(** ** Vocabulary of the statements *)

(** The bar that one turn of the loop of [_build_progress_bars] leaves under
    [service_name]: lines 39-46 at counter [i]. *)
Definition initial_bar (tw longest_service_name_len i : Z)
    (service_name : string) : Tqdm.t :=
  {| Tqdm.total := Some 1;
     Tqdm.position := i;
     Tqdm.bar_format := "{desc}{n_fmt}/{total_fmt}|{bar}| {postfix[0]}";
     Tqdm.postfix := [Py.ljust "..." tw];
     Tqdm.n := 0;
     Tqdm.description := Py.ljust service_name longest_service_name_len;
     Tqdm.closed := false |}.

(** The dictionary the loop computes, without the drawing. *)
Fixpoint fill (tw longest : Z) (services : list string) (i : Z)
    (d : OrderedDict) : OrderedDict :=
  match services with
  | [] => d
  | service_name :: rest =>
      fill tw longest rest (i + 1)
           (od_set service_name (initial_bar tw longest i service_name) d)
  end.

(** The rows [i, i+1, ..., i+k-1]. *)
Fixpoint rows_from (i : Z) (k : nat) : list Z :=
  match k with
  | O => []
  | S k' => i :: rows_from (i + 1) k'
  end.

Definition rows (k : nat) : list Z := rows_from 0 k.

(** What the loop draws: each bar is created, the bar that it replaces in
    the dictionary, if any, is closed, and the new bar is redrawn with its
    description. *)
Fixpoint build_screen (tw longest : Z) (services : list string) (i : Z)
    (d : OrderedDict) : list drawn :=
  match services with
  | [] => []
  | service_name :: rest =>
      (Created i
       :: match od_get service_name d with
          | Some replaced => [Closed (Tqdm.position replaced)]
          | None => []
          end ++ [Refreshed i])
      ++ build_screen tw longest rest (i + 1)
           (od_set service_name (initial_bar tw longest i service_name) d)
  end%list.

(** Which service sits on which row, in the order of the dictionary. *)
Definition layout (d : OrderedDict) : list (string * Z) :=
  map (fun entry => (fst entry, Tqdm.position (snd entry))) d.

(** The rows of the bars created, and of the bars closed, in the order in
    which the terminal saw them. *)
Fixpoint created_rows (s : list drawn) : list Z :=
  match s with
  | [] => []
  | Created r :: s' => r :: created_rows s'
  | _ :: s' => created_rows s'
  end.

Fixpoint closed_rows (s : list drawn) : list Z :=
  match s with
  | [] => []
  | Closed r :: s' => r :: closed_rows s'
  | _ :: s' => closed_rows s'
  end.

(** What closing the bars of rows [rs] draws: the bar, then an empty line. *)
Definition closing (rs : list Z) : list drawn :=
  flat_map (fun r => [Closed r; Echoed ""]) rs.

(** Every bar made by [_build_progress_bars] has an item 0 in its postfix,
    the one given to the constructor on line 43. *)
Definition has_footer (bar : Tqdm.t) : bool :=
  match Tqdm.postfix bar with
  | [] => false
  | _ :: _ => true
  end.

Definition footers_ready (d : OrderedDict) : bool :=
  forallb (fun entry => has_footer (snd entry)) d.

(** [service_name] is one of the names [keys]. *)
Definition registered (service_name : string) (keys : list string) : bool :=
  existsb (String.eqb service_name) keys.

(** Events that [_handle_progress_bar] is sure to handle without raising
    when the bars are those of the services [keys], as the dispatcher built
    them: a finished event without a status; an unfinished progress step of
    a service that has a bar; a finished failure of a service that has a
    bar, when its message has no brace, so that the line made of it is a
    format string without a field of its own. *)
Definition handled (keys : list string) (ev : event) : bool :=
  match ev with
  | (_, None, true) => true
  | (service_name, Some (Failure message), true) =>
      registered service_name keys && Format.brace_free message
  | (service_name, Some (InProgress _ _ _), false) => registered service_name keys
  | _ => false
  end.

(** A bar whose format is sure to format, whatever tqdm does with the
    fields that the file does not write: the format has none of them. *)
Definition surely_formats (bar : Tqdm.t) : bool :=
  match format_error (fun _ field => Some (KeyError field)) bar with
  | None => true
  | Some _ => false
  end.

Definition formats_ready (d : OrderedDict) : bool :=
  forallb (fun entry => surely_formats (snd entry)) d.

(** Events at which [_handle_progress_bar] raises whatever the bars are: a
    status of the wrong kind for the flag [finished], or a status for a
    service without a bar. *)
Definition rejected (keys : list string) (ev : event) : bool :=
  match ev with
  | (_, None, true) => false
  | (service_name, Some (Failure _), true) => negb (registered service_name keys)
  | (service_name, Some (InProgress _ _ _), false) =>
      negb (registered service_name keys)
  | _ => true
  end.

(** A finished event for [service_name] is among [history]: the service has
    been reported as succeeded or failed. *)
Definition terminal_reached (service_name : string) (history : list event) : bool :=
  existsb (fun ev =>
             match ev with
             | (name, _, finished) => String.eqb name service_name && finished
             end) history.


(** The bar after a failure was reported with the bounded message [msg]:
    lines 58-59. *)
Definition after_failure (msg : string) (bar : Tqdm.t) : Tqdm.t :=
  Tqdm.with_bar_format ("{desc}" ++ msg) bar.

(** How a redraw ends, and what it leaves on the screen, when formatting
    the bar raises [err] or nothing. *)
Definition outcome (err : option exn) : result unit :=
  match err with
  | None => Ok tt
  | Some e => Raise e
  end.

Definition redrawn (err : option exn) (row : Z) : list drawn :=
  match err with
  | None => [Refreshed row]
  | Some _ => []
  end.

(** The bar after a progress step: lines 66-71. *)
Definition after_progress (footer : string) (steps : option Z)
    (current_step : Z) (bar : Tqdm.t) : Tqdm.t :=
  let bar1 := Tqdm.with_postfix (footer :: tl (Tqdm.postfix bar)) bar in
  let bar2 := if total_differs (Tqdm.total bar1) steps
              then Tqdm.with_total steps bar1 else bar1 in
  Tqdm.with_n (Tqdm.n bar2 + (current_step - Tqdm.n bar2)) bar2.

(** The entries the loop appends when no name occurs twice. *)
Fixpoint fresh_entries (tw longest : Z) (services : list string) (i : Z)
    : OrderedDict :=
  match services with
  | [] => []
  | service_name :: rest =>
      (service_name, initial_bar tw longest i service_name)
      :: fresh_entries tw longest rest (i + 1)
  end.

(** The services an operation works on: lines 92-93 and 125-126. *)
Definition chosen (ctx : Context) (services : option (list string)) : list string :=
  match services with
  | None => project_services ctx
  | Some names => names
  end.

(** The world in which a dispatcher enters its [try]: the bars are built and
    stored, the list of errors is empty (lines 98-99 and 131-132). *)
Definition started (services : list string) (w : world) : world :=
  match _build_progress_bars services w with
  | (Ok d, w1) => put_errors [] (put_progress_bars d w1)
  | (Raise _, w1) => w1
  end.

(** The status is the one the flag asks for: a failure on a finished event,
    a progress step on an unfinished one. *)
Definition carries_payload (status : option status) (finished : bool) : bool :=
  match status, finished with
  | Some (Failure _), true => true
  | Some (InProgress _ _ _), false => true
  | _, _ => false
  end.

(** ** Inputs of the examples *)

(** A stand-in for tqdm in the examples.  It knows the variables that the
    documentation of [bar_format] lists: a field of another name raises
    [KeyError], a field without a name or with a number raises
    [IndexError] (no positional argument is given), and a field of a known
    variable is taken to format. *)
Definition tqdm_variables : list string :=
  ["l_bar"; "bar"; "r_bar"; "n"; "n_fmt"; "total"; "total_fmt"; "percentage";
   "elapsed"; "elapsed_s"; "ncols"; "nrows"; "desc"; "unit"; "rate";
   "rate_fmt"; "rate_noinv"; "rate_noinv_fmt"; "rate_inv"; "rate_inv_fmt";
   "postfix"; "unit_divisor"; "remaining"; "remaining_s"; "eta"].

Fixpoint arg_name (field : string) : string :=
  match field with
  | EmptyString => EmptyString
  | String c rest =>
      if Ascii.eqb c "." || Ascii.eqb c "[" || Ascii.eqb c "!" || Ascii.eqb c ":"
      then EmptyString
      else String c (arg_name rest)
  end.

Fixpoint all_digits (s : string) : bool :=
  match s with
  | EmptyString => true
  | String c rest =>
      (48 <=? Z.of_nat (nat_of_ascii c)) && (Z.of_nat (nat_of_ascii c) <=? 57)
      && all_digits rest
  end.

Definition documented_tqdm (bar : Tqdm.t) (field : string) : option exn :=
  let name := arg_name field in
  if all_digits name then
    Some (IndexError
            ("Replacement index " ++ (if String.eqb name "" then "0" else name)
             ++ " out of range for positional args tuple"))
  else if existsb (String.eqb name) tqdm_variables then None
  else Some (KeyError name).

(** No terminal size ([OSError], both widths fall back to 45), and a
    terminal that reports no columns (both widths are 0). *)
Definition no_terminal : world := fresh None documented_tqdm.

Definition no_columns : world :=
  fresh (Some {| share_right := 0; share_error := 0 |}) documented_tqdm.

(** The bars of the services [web] and [db], as the dispatcher has them
    before the first event. *)
Definition web_db : world := started ["web"; "db"] no_terminal.

(** An engine whose two generators behave as [s], and a project with the
    services [web] and [db] on it. *)
Definition engine_of (s : stream) : Engine :=
  {| engine_start_project := fun _ => s; engine_stop_project := fun _ => s |}.

Definition project_on (s : stream) : Context :=
  {| project_services := ["web"; "db"]; engine := engine_of s |}.

(** Stand-ins for what the examples take from outside the file. *)
Definition four_spaces : string := "    ".

Definition str_of_status (s : status) : string :=
  match s with
  | InProgress text _ _ => text
  | Failure message => message
  end.

Definition no_report (_ : Context) : M unit := ret tt.

(** A generator that yields one step of [web] and then raises; one that
    yields a step of [web] and then a failure of [ghost], a service that is
    not part of the project; one that yields a finished event of [ghost]. *)
Definition failing_stream : stream :=
  {| yielded := [("web", Some (InProgress "starting" 0 (Some 3)), false)];
     raised := Some (EngineError "engine stopped") |}.

Definition ghost_failure_stream : stream :=
  {| yielded := [("web", Some (InProgress "starting" 0 (Some 3)), false);
                 ("ghost", Some (Failure "no such service"), true)];
     raised := None |}.

Definition ghost_success_stream : stream :=
  {| yielded := [("ghost", None, true)]; raised := None |}.

(** The world after [db] was reported as failed. *)
Definition db_failed : world :=
  snd (handle_events [("db", Some (Failure "connection refused"), true)] web_db).

(** ** The status report *)

Module Status.

(** Modelled from the spec: the classes of [riptide.engine.status] are
    outside the file.  [status_for] answers, per service and in order,
    whether it runs, its web address if any, and its additional ports, each
    with a title, the port in the container and the port on the host. *)
Record PortData : Type := {
  title : string;
  container : Z;
  host : Z
}.

Record ServiceStatus : Type := {
  running : bool;
  web : option string;
  additional_ports : list PortData
}.

(** Of [ctx.parent], what [status_project] reads: [system_config] is [None],
    or a mapping that has the key ["project"] or not ([Some true],
    [Some false]); [project_is_set_up]; and the answer of
    [status_for(project, engine, system_config)]. *)
Record Parent : Type := {
  system_config : option bool;
  project_is_set_up : bool;
  status_for : list (string * ServiceStatus)
}.

(** [str(i)] and [%d] for an [int] *)
Definition str_int (i : Z) : string := NilZero.string_of_int (Z.to_int i).

(** The line of lines 184-186 *)
Definition port_line (TAB : string) (port_data : PortData) : string :=
  TAB ++ TAB ++ TAB ++ "Port " ++ style (title port_data) ++ " ("
      ++ str_int (container port_data) ++ ") reachable on localhost:"
      ++ style (str_int (host port_data)).

(** The loop of lines 183-186 *)
Fixpoint echo_ports (TAB : string) (ports : list PortData) : M unit :=
  match ports with
  | [] => ret tt
  | port_data :: rest => echo (port_line TAB port_data) ;; echo_ports TAB rest
  end.

(** [if status.web: echo(... + status.web)], lines 179-180: [None] and the
    empty string are false. *)
Definition echo_web (TAB : string) (web : option string) : M unit :=
  match web with
  | Some (String c rest) =>
      echo (TAB ++ TAB ++ "Access via " ++ style (String c rest))
  | _ => ret tt
  end.

(** [limit_services and name not in limit_services], line 172: an empty
    list is false, as [None] is. *)
Definition skipped (limit_services : option (list string)) (name : string) : bool :=
  match limit_services with
  | None => false
  | Some [] => false
  | Some names => negb (existsb (String.eqb name) names)
  end.

(** Lines 174-188 for one service that is not skipped *)
Definition echo_service (TAB : string) (name : string) (status : ServiceStatus)
    : M unit :=
  echo (TAB ++ style (name ++ ":")) ;;
  (if negb (running status) then
     echo (TAB ++ TAB ++ "Not running.")
   else
     echo (TAB ++ TAB ++ "Running.") ;;
     echo_web TAB (web status) ;;
     (if Z.of_nat (List.length (additional_ports status)) >? 0 then
        echo (TAB ++ TAB ++ "Additional Ports:") ;;
        echo_ports TAB (additional_ports status)
      else ret tt)) ;;
  echo "".

(** The loop of lines 171-188 *)
Fixpoint echo_services (TAB : string) (limit_services : option (list string))
    (items : list (string * ServiceStatus)) : M unit :=
  match items with
  | [] => ret tt
  | (name, status) :: rest =>
      (if skipped limit_services name then ret tt
       else echo_service TAB name status) ;;
      echo_services TAB limit_services rest
  end.

(** [status_project(ctx, limit_services)], lines 150-188 *)
Definition status_project (TAB : string) (parent : Parent)
    (limit_services : option (list string)) : M unit :=
  echo "Status:" ;;
  (match system_config parent with
   | None => echo (TAB ++ style "No system configuration found.")
   | Some _ => ret tt
   end) ;;
  match system_config parent with
  | Some true =>
      if negb (project_is_set_up parent) then
        echo (TAB ++ style "Project is not yet set up. Run the setup command.")
      else
        echo_services TAB limit_services (status_for parent)
  | _ => echo (TAB ++ style "No project found.")
  end.

(** What the report writes for one service and for the services listed. *)
Definition web_lines (TAB : string) (web : option string) : list string :=
  match web with
  | Some (String c rest) => [TAB ++ TAB ++ "Access via " ++ style (String c rest)]
  | _ => []
  end.

Definition port_lines (TAB : string) (ports : list PortData) : list string :=
  match ports with
  | [] => []
  | _ :: _ => (TAB ++ TAB ++ "Additional Ports:") :: map (port_line TAB) ports
  end.

Definition service_lines (TAB : string) (name : string) (status : ServiceStatus)
    : list string :=
  (TAB ++ style (name ++ ":"))
  :: List.app
       (if negb (running status) then [TAB ++ TAB ++ "Not running."]
        else (TAB ++ TAB ++ "Running.")
             :: List.app (web_lines TAB (web status))
                         (port_lines TAB (additional_ports status)))
       [""].

Definition listed (limit_services : option (list string))
    (items : list (string * ServiceStatus)) : list (string * ServiceStatus) :=
  filter (fun item => negb (skipped limit_services (fst item))) items.

End Status.

(** ** Vocabulary of the further properties *)

(** The world with more drawn on its screen. *)
Definition put_all (ds : list drawn) (w : world) : world :=
  {| terminal := terminal w; tqdm_field := tqdm_field w;
     progress_bars := progress_bars w;
     errors := errors w; screen := screen w ++ ds |}.

(** The records that the finished failures among [items] leave, in the
    order of arrival. *)
Fixpoint failures (items : list event) : list error_record :=
  match items with
  | [] => []
  | (service_name, Some (Failure message), true) :: rest =>
      {| service := service_name; error := Failure message |} :: failures rest
  | _ :: rest => failures rest
  end.

(** What one event does to the bar of [service_name], with the two widths
    of the terminal. *)
Definition apply_event (tw_right tw_error : Z) (service_name : string)
    (bar : Tqdm.t) (ev : event) : Tqdm.t :=
  match ev with
  | (name, Some (Failure message), true) =>
      if String.eqb name service_name
      then after_failure (bound message tw_error) bar else bar
  | (name, Some (InProgress text current_step steps), false) =>
      if String.eqb name service_name
      then after_progress (bound text tw_right) steps current_step bar else bar
  | _ => bar
  end.

(** The [current_step] of the last progress step of [service_name], and the
    last [steps] that was given, from the values [n] and [total] before. *)
Definition last_step (service_name : string) (items : list event) (n : Z) : Z :=
  fold_left
    (fun n ev =>
       match ev with
       | (name, Some (InProgress _ current_step _), false) =>
           if String.eqb name service_name then current_step else n
       | _ => n
       end) items n.

Definition last_total (service_name : string) (items : list event)
    (total : option Z) : option Z :=
  fold_left
    (fun total ev =>
       match ev with
       | (name, Some (InProgress _ _ (Some steps)), false) =>
           if String.eqb name service_name then Some steps else total
       | _ => total
       end) items total.

(** What [_display_errors] writes: nothing for no error, otherwise a header
    and three lines for each error. *)
Definition error_lines (TAB : string) (str : status -> string)
    (errors : list error_record) : list drawn :=
  match errors with
  | [] => []
  | _ :: _ =>
      Echoed (style "There were errors while starting some of the services: ")
      :: flat_map (fun entry =>
                     [Echoed (TAB ++ style (service entry ++ ":"));
                      Echoed (TAB ++ style (str (error entry)));
                      Echoed ""]) errors
  end.

(** A status report for the examples: [web] runs with an address and one
    additional port, [db] does not run. *)
Definition example_parent : Status.Parent :=
  {| Status.system_config := Some true;
     Status.project_is_set_up := true;
     Status.status_for :=
       [("web", {| Status.running := true;
                   Status.web := Some "https://web.riptide.local";
                   Status.additional_ports :=
                     [{| Status.title := "debug";
                         Status.container := 9229;
                         Status.host := 19229 |}] |});
        ("db", {| Status.running := false;
                  Status.web := None;
                  Status.additional_ports := [] |})] |}.

(** A generator that yields steps of [web] and a failure of [db], and
    ends. *)
Definition mixed_stream : stream :=
  {| yielded := [("web", Some (InProgress "starting" 0 (Some 3)), false);
                 ("db", Some (Failure "connection refused"), true);
                 ("web", Some (InProgress "started" 3 (Some 3)), false);
                 ("web", None, true)];
     raised := None |}.

(** A generator that yields a failure of [db] and then an unfinished event
    of [web] without a status, which the handler cannot read; what comes
    after is never reached. *)
Definition malformed_stream : stream :=
  {| yielded := [("db", Some (Failure "connection refused"), true);
                 ("web", None, false);
                 ("web", None, true)];
     raised := Some (EngineError "engine stopped") |}.

(** A generator that yields a failure of [db] whose message has a field in
    braces, between two progress steps of [web], and then raises. *)
Definition braces_stream : stream :=
  {| yielded := [("web", Some (InProgress "starting" 1 (Some 3)), false);
                 ("db", Some (Failure "bad {x} value"), true);
                 ("web", Some (InProgress "started" 2 (Some 3)), false)];
     raised := Some (EngineError "engine stopped") |}.

(** * Properties *)

(** ** Strings *)

Module PyFacts.
Import Py.

Lemma length_append s t :
  String.length (s ++ t) = (String.length s + String.length t)%nat.
Proof. induction s as [|c s IH]; simpl; [reflexivity | now rewrite IH]. Qed.

Lemma len_append s t : len (s ++ t) = len s + len t.
Proof. unfold len. rewrite length_append. lia. Qed.

Lemma length_take k s :
  String.length (take k s) = Nat.min k (String.length s).
Proof.
  revert s. induction k as [|k IH]; intros [|c s]; simpl; auto.
Qed.

Lemma len_take k s : len (take k s) = Z.min (Z.of_nat k) (len s).
Proof. unfold len. rewrite length_take. lia. Qed.

Lemma length_spaces k : String.length (spaces k) = k.
Proof. induction k as [|k IH]; simpl; [reflexivity | now rewrite IH]. Qed.

Lemma len_spaces k : len (spaces k) = Z.of_nat k.
Proof. unfold len. now rewrite length_spaces. Qed.

Lemma take_min k s : take (Nat.min k (String.length s)) s = take k s.
Proof.
  revert s. induction k as [|k IH]; intros [|c s]; simpl; auto.
  now rewrite IH.
Qed.

(** With a bound that is not negative, [s[:k]] is the first [k]
    characters of [s]. *)
Lemma slice_to_take s k : 0 <= k -> slice_to s k = take (Z.to_nat k) s.
Proof.
  intros Hk. unfold slice_to.
  destruct (Z.ltb_spec k 0) as [Hneg|_]; [lia|].
  rewrite <- (take_min (Z.to_nat k) s). f_equal. unfold len. lia.
Qed.

Lemma ljust_short s w :
  len s <= w -> ljust s w = s ++ spaces (Z.to_nat (w - len s)).
Proof.
  intros Hw. unfold ljust. destruct (Z.leb_spec w (len s)) as [Hle|Hlt].
  - assert (w = len s) as -> by lia.
    rewrite Z.sub_diag. simpl.
    clear. induction s as [|c s IH]; simpl; [reflexivity | now rewrite <- IH].
  - reflexivity.
Qed.

Lemma len_ljust s w : len (ljust s w) = Z.max w (len s).
Proof.
  unfold ljust. destruct (Z.leb_spec w (len s)).
  - lia.
  - rewrite len_append, len_spaces. lia.
Qed.

Lemma max_from_ge_best best xs : len best <= len (max_from best xs).
Proof.
  revert best. induction xs as [|y xs IH]; intros best; simpl; [lia|].
  specialize (IH (if len y >? len best then y else best)).
  destruct (Z.gtb_spec (len y) (len best)); lia.
Qed.

(** [max_from] returns an element at least as long as every candidate. *)
Lemma max_from_upper best xs x :
  In x xs -> len x <= len (max_from best xs).
Proof.
  revert best. induction xs as [|y xs IH]; intros best Hx; simpl.
  - destruct Hx.
  - destruct Hx as [Hx|Hx]; [subst y | now apply IH].
    pose proof (max_from_ge_best (if len x >? len best then x else best) xs).
    destruct (Z.gtb_spec (len x) (len best)); lia.
Qed.

Lemma max_from_in best xs :
  max_from best xs = best \/ In (max_from best xs) xs.
Proof.
  revert best. induction xs as [|y xs IH]; intros best; simpl.
  - now left.
  - destruct (IH (if len y >? len best then y else best)) as [H|H].
    + rewrite H. destruct (len y >? len best); auto.
    + auto.
Qed.

End PyFacts.

(** ** The text-bounding expression *)

Example bound_installing : bound "Installing dependencies" 10 = "Install...".
Proof. reflexivity. Qed.

Example bound_ok : bound "ok" 10 = "ok        ".
Proof. reflexivity. Qed.

Lemma bound_long text tw :
  3 <= tw -> Py.len text > tw - 3 ->
  bound text tw = Py.take (Z.to_nat (tw - 3)) text ++ "...".
Proof.
  intros Htw Hlong. unfold bound.
  destruct (Z.gtb_spec (Py.len text) (tw - 3)) as [_|Hle]; [|lia].
  now rewrite PyFacts.slice_to_take by lia.
Qed.

Lemma bound_short text tw :
  Py.len text <= tw - 3 ->
  bound text tw = text ++ Py.spaces (Z.to_nat (tw - Py.len text)).
Proof.
  intros Hshort. unfold bound.
  destruct (Z.gtb_spec (Py.len text) (tw - 3)) as [Hgt|_]; [lia|].
  apply PyFacts.ljust_short. lia.
Qed.

(** C1, as amended.  For every text and every width of at least 3, the
    bounded text has exactly [width] characters: when the text is longer
    than [width - 3] it is the first [width - 3] characters of the text
    followed by ["..."], otherwise the text followed by spaces up to
    [width]. *)
Theorem bound_exact_width (text : string) (width : Z) (Hwidth : 3 <= width) :
  Py.len (bound text width) = width /\
  (Py.len text > width - 3 ->
   bound text width = Py.take (Z.to_nat (width - 3)) text ++ "...") /\
  (Py.len text <= width - 3 ->
   bound text width = text ++ Py.spaces (Z.to_nat (width - Py.len text))).
Proof.
  split; [|split].
  - destruct (Z.le_gt_cases (Py.len text) (width - 3)) as [Hshort|Hlong].
    + rewrite bound_short by assumption.
      rewrite PyFacts.len_append, PyFacts.len_spaces. lia.
    + rewrite bound_long by lia.
      rewrite PyFacts.len_append, PyFacts.len_take.
      change (Py.len "...") with 3. lia.
  - intros Hlong. now apply bound_long.
  - intros Hshort. now apply bound_short.
Qed.

Lemma bound_exact_width_witness :
  3 <= 10 /\
  Py.len (bound "Installing dependencies" 10) = 10 /\
  (Py.len "Installing dependencies" > 10 - 3 ->
   bound "Installing dependencies" 10
   = Py.take (Z.to_nat (10 - 3)) "Installing dependencies" ++ "...") /\
  (Py.len "Installing dependencies" <= 10 - 3 ->
   bound "Installing dependencies" 10
   = "Installing dependencies"
     ++ Py.spaces (Z.to_nat (10 - Py.len "Installing dependencies"))).
Proof.
  split; [lia | apply (bound_exact_width "Installing dependencies" 10); lia].
Defined.

(** C1 as stated fails below width 3: with a width of 0 (a terminal that
    reports no columns) the slice [text[:-3]] counts from the end and the
    three dots are added to it. *)
Lemma bound_width_0_too_long :
  bound "ok" 0 = "..." /\ Py.len (bound "ok" 0) <> 0.
Proof. split; [reflexivity | discriminate]. Qed.

(** ** The dictionary *)

Lemma od_get_set_same k v d : od_get k (od_set k v d) = Some v.
Proof.
  induction d as [|[k' v'] d IH]; simpl.
  - now rewrite String.eqb_refl.
  - destruct (String.eqb k k') eqn:E; simpl; rewrite E; auto.
Qed.

Lemma od_get_set_other k k' v d :
  k <> k' -> od_get k' (od_set k v d) = od_get k' d.
Proof.
  intros Hne. induction d as [|[k0 v0] d IH]; simpl.
  - destruct (String.eqb_spec k' k); [congruence | reflexivity].
  - destruct (String.eqb_spec k k0) as [->|Hk]; simpl.
    + destruct (String.eqb_spec k' k0); [congruence | reflexivity].
    + now rewrite IH.
Qed.

Lemma od_set_set k v1 v2 d : od_set k v2 (od_set k v1 d) = od_set k v2 d.
Proof.
  induction d as [|[k' v'] d IH]; simpl.
  - now rewrite String.eqb_refl.
  - destruct (String.eqb k k') eqn:E; simpl; rewrite E; [reflexivity|].
    now rewrite IH.
Qed.

Lemma od_get_none_keys k d : od_get k d = None <-> ~ In k (od_keys d).
Proof.
  induction d as [|[k' v'] d IH]; simpl.
  - tauto.
  - destruct (String.eqb_spec k k') as [->|Hk].
    + split; [discriminate | intros H; exfalso; apply H; now left].
    + rewrite IH. split; [intros H [E|E]; congruence | tauto].
Qed.

Lemma od_set_absent k v d :
  od_get k d = None -> od_set k v d = (d ++ [(k, v)])%list.
Proof.
  induction d as [|[k' v'] d IH]; simpl; [reflexivity|].
  destruct (String.eqb k k'); [discriminate|].
  intros H. now rewrite IH.
Qed.

(** Assigning to a key that is present keeps the entries where they are and
    changes one value. *)
Lemma od_set_present_layout k v v' d :
  od_get k d = Some v' -> Tqdm.position v = Tqdm.position v' ->
  layout (od_set k v d) = layout d.
Proof.
  intros Hget Hpos. induction d as [|[k0 v0] d IH]; simpl in *; [discriminate|].
  destruct (String.eqb k k0).
  - injection Hget as <-. unfold layout. simpl. now rewrite Hpos.
  - unfold layout in *. simpl. now rewrite IH.
Qed.

Lemma od_set_present_footers k v v' d :
  od_get k d = Some v' -> has_footer v = true ->
  footers_ready d = true -> footers_ready (od_set k v d) = true.
Proof.
  intros Hget Hv. induction d as [|[k0 v0] d IH]; simpl in *; [discriminate|].
  intros Hd. apply andb_true_iff in Hd as [H0 Hd].
  destruct (String.eqb k k0); simpl.
  - now rewrite Hv, Hd.
  - rewrite H0. now apply IH.
Qed.

Lemma od_get_footer k v d :
  footers_ready d = true -> od_get k d = Some v -> has_footer v = true.
Proof.
  induction d as [|[k0 v0] d IH]; simpl; [discriminate|].
  intros Hd. apply andb_true_iff in Hd as [H0 Hd].
  destruct (String.eqb k k0); [now intros [= <-] | now apply IH].
Qed.

Lemma layout_keys d : map fst (layout d) = od_keys d.
Proof. unfold layout, od_keys. rewrite map_map. reflexivity. Qed.

Lemma layout_rows d : map snd (layout d) = map Tqdm.position (od_values d).
Proof. unfold layout, od_values. now rewrite !map_map. Qed.

Lemma registered_in k keys : registered k keys = true <-> In k keys.
Proof.
  unfold registered. rewrite existsb_exists. split.
  - intros (x & Hx & E). apply String.eqb_eq in E. now subst.
  - intros H. exists k. split; [assumption | apply String.eqb_refl].
Qed.

Lemma registered_get k d :
  registered k (od_keys d) = true <-> exists bar, od_get k d = Some bar.
Proof.
  rewrite registered_in. destruct (od_get k d) as [bar|] eqn:E.
  - split; [eauto|]. intros _.
    destruct (in_dec string_dec k (od_keys d)) as [H|H]; [assumption|].
    apply od_get_none_keys in H. congruence.
  - apply od_get_none_keys in E. split; [contradiction|].
    intros [bar H]. discriminate.
Qed.

Lemma registered_same k keys keys' :
  (forall x, In x keys <-> In x keys') -> registered k keys = registered k keys'.
Proof.
  intros H. destruct (registered k keys) eqn:E, (registered k keys') eqn:E';
    try reflexivity; exfalso.
  - apply registered_in, H, registered_in in E. congruence.
  - apply registered_in, H, registered_in in E'. congruence.
Qed.

Lemma handled_same keys keys' ev :
  (forall x, In x keys <-> In x keys') -> handled keys ev = handled keys' ev.
Proof.
  intros H. destruct ev as [[name [[t c s|m]|]] [|]]; simpl; auto;
    now rewrite (registered_same name keys keys' H).
Qed.

Lemma all_handled_same keys keys' items :
  (forall x, In x keys <-> In x keys') ->
  forallb (handled keys) items = forallb (handled keys') items.
Proof.
  intros H. induction items as [|ev items IH]; simpl; [reflexivity|].
  now rewrite IH, (handled_same keys keys' ev H).
Qed.

(** ** The event handler, case by case *)

Lemma on_bar_run service_name method w bar bar' w2 :
  od_get service_name (progress_bars w) = Some bar ->
  method bar w = (Ok bar', w2) ->
  on_bar service_name method w
  = (Ok tt, put_progress_bars (od_set service_name bar' (progress_bars w2)) w2).
Proof.
  intros Hget Hrun. unfold on_bar, bind, get_progress_bars, getitem.
  rewrite Hget. unfold ret. now rewrite Hrun.
Qed.

Lemma on_bar_missing service_name method w :
  od_get service_name (progress_bars w) = None ->
  on_bar service_name method w = (Raise (KeyError service_name), w).
Proof.
  intros Hget. unfold on_bar, bind, get_progress_bars, getitem.
  now rewrite Hget.
Qed.

(** A finished event without a status: line 62, nothing happens. *)
Lemma handle_success service_name w :
  _handle_progress_bar service_name None true w = (Ok tt, w).
Proof. reflexivity. Qed.

Lemma on_bar_raises service_name method w bar e w2 :
  od_get service_name (progress_bars w) = Some bar ->
  method bar w = (Raise e, w2) ->
  on_bar service_name method w = (Raise e, w2).
Proof.
  intros Hget Hrun. unfold on_bar, bind, get_progress_bars, getitem.
  rewrite Hget. unfold ret. now rewrite Hrun.
Qed.

Lemma refresh_run bar w :
  refresh bar w
  = match format_error (tqdm_field w) bar with
    | None => (Ok bar, put_drawn (Refreshed (Tqdm.position bar)) w)
    | Some e => (Raise e, w)
    end.
Proof.
  unfold refresh, bind, get_tqdm_field.
  now destruct (format_error (tqdm_field w) bar).
Qed.

(** [on_bar service_name refresh], line 59 and line 71. *)
Lemma on_bar_refresh service_name w bar :
  od_get service_name (progress_bars w) = Some bar ->
  on_bar service_name refresh w
  = (outcome (format_error (tqdm_field w) bar),
     {| terminal := terminal w;
        tqdm_field := tqdm_field w;
        progress_bars := od_set service_name bar (progress_bars w);
        errors := errors w;
        screen := screen w
                  ++ redrawn (format_error (tqdm_field w) bar)
                             (Tqdm.position bar) |}).
Proof.
  intros Hget. pose proof (refresh_run bar w) as Hrun.
  destruct (format_error (tqdm_field w) bar) as [e|].
  - rewrite (on_bar_raises _ _ _ _ _ _ Hget Hrun). cbn [outcome redrawn].
    destruct w as [term fields d errs scr]. cbn in *. rewrite app_nil_r.
    f_equal. f_equal. clear Hrun.
    induction d as [|[k v] d IH]; cbn in *; [discriminate|].
    destruct (String.eqb service_name k); [now injection Hget as -> |].
    f_equal. now apply IH.
  - rewrite (on_bar_run _ _ _ _ _ _ Hget Hrun). reflexivity.
Qed.

(** A finished failure of a service that has a bar, lines 55-59: the record
    is appended and the line of the bar is set; the redraw of line 59 ends
    the handler, by returning or by raising what the new line raises. *)
Lemma handle_failure service_name message w bar :
  od_get service_name (progress_bars w) = Some bar ->
  _handle_progress_bar service_name (Some (Failure message)) true w
  = (outcome (format_error (tqdm_field w)
                (after_failure (bound message (error_budget w)) bar)),
     {| terminal := terminal w;
        tqdm_field := tqdm_field w;
        progress_bars :=
          od_set service_name
            (after_failure (bound message (error_budget w)) bar)
            (progress_bars w);
        errors := errors w ++ [{| service := service_name;
                                  error := Failure message |}];
        screen := screen w
                  ++ redrawn (format_error (tqdm_field w)
                                (after_failure (bound message (error_budget w))
                                               bar))
                             (Tqdm.position bar) |}).
Proof.
  intros Hget. unfold _handle_progress_bar, bind at 1 2 3.
  unfold text_width_error, errors_append, bind at 1, get_errors, set_errors,
    status_message, ret at 1.
  unfold bind.
  erewrite on_bar_run; [| simpl; exact Hget | reflexivity].
  erewrite on_bar_refresh; [| simpl; apply od_get_set_same].
  unfold put_progress_bars, put_errors. cbn.
  now rewrite od_set_set.
Qed.

(** A finished failure of a service without a bar: the record is appended
    on line 56, then line 58 raises. *)
Lemma handle_failure_unregistered service_name message w :
  od_get service_name (progress_bars w) = None ->
  _handle_progress_bar service_name (Some (Failure message)) true w
  = (Raise (KeyError service_name),
     put_errors (errors w ++ [{| service := service_name;
                                 error := Failure message |}]) w).
Proof.
  intros Hget. unfold _handle_progress_bar, bind at 1 2 3.
  unfold text_width_error, errors_append, bind at 1, get_errors, set_errors,
    status_message, ret at 1.
  unfold bind. now rewrite on_bar_missing by exact Hget.
Qed.

(** A finished event whose status is a progress step: the record is appended
    on line 56, then [status.message] on line 57 raises. *)
Lemma handle_finished_step service_name text current_step steps w :
  _handle_progress_bar service_name
    (Some (InProgress text current_step steps)) true w
  = (Raise (AttributeError "message"),
     put_errors (errors w ++ [{| service := service_name;
                                 error := InProgress text current_step steps |}]) w).
Proof. reflexivity. Qed.

(** An unfinished event whose status has no [text]: line 65 raises. *)
Lemma handle_unfinished_none service_name w :
  _handle_progress_bar service_name None false w
  = (Raise (AttributeError "text"), w).
Proof. reflexivity. Qed.

Lemma handle_unfinished_failure service_name message w :
  _handle_progress_bar service_name (Some (Failure message)) false w
  = (Raise (AttributeError "text"), w).
Proof. reflexivity. Qed.

(** A progress step of a service without a bar: line 66 raises. *)
Lemma handle_progress_unregistered service_name text current_step steps w :
  od_get service_name (progress_bars w) = None ->
  _handle_progress_bar service_name
    (Some (InProgress text current_step steps)) false w
  = (Raise (KeyError service_name), w).
Proof.
  intros Hget. unfold _handle_progress_bar, bind at 1 2 3.
  unfold text_width_right, status_text, ret at 1.
  now rewrite on_bar_missing by exact Hget.
Qed.

(** A progress step of a service whose bar has no item 0 in its postfix:
    the assignment of line 66 raises. *)
Lemma handle_progress_no_footer service_name text current_step steps w bar :
  od_get service_name (progress_bars w) = Some bar ->
  has_footer bar = false ->
  _handle_progress_bar service_name
    (Some (InProgress text current_step steps)) false w
  = (Raise (IndexError "list assignment index out of range"), w).
Proof.
  intros Hget Hfoot. unfold _handle_progress_bar, bind at 1 2 3.
  unfold text_width_right, status_text, ret at 1.
  unfold on_bar, bind, get_progress_bars, getitem. rewrite Hget.
  unfold ret, set_postfix_0. unfold has_footer in Hfoot.
  destruct (Tqdm.postfix bar); [reflexivity | discriminate].
Qed.

Lemma od_set_same_bar k v d : od_get k d = Some v -> od_set k v d = d.
Proof.
  induction d as [|[k0 v0] d IH]; cbn; [discriminate|].
  destruct (String.eqb k k0); [now intros [= ->] |].
  intros H. now rewrite IH.
Qed.

(** A progress step of a service that has a bar, lines 64-71: the footer,
    the total and the counter are set; the redraw of line 71 ends the
    handler, by returning or by raising what the format of the bar
    raises. *)
Lemma handle_progress service_name text current_step steps w bar :
  od_get service_name (progress_bars w) = Some bar ->
  has_footer bar = true ->
  _handle_progress_bar service_name
    (Some (InProgress text current_step steps)) false w
  = (outcome (format_error (tqdm_field w)
                (after_progress (bound text (right_budget w)) steps
                                current_step bar)),
     {| terminal := terminal w;
        tqdm_field := tqdm_field w;
        progress_bars :=
          od_set service_name
            (after_progress (bound text (right_budget w)) steps current_step bar)
            (progress_bars w);
        errors := errors w;
        screen := screen w
                  ++ redrawn (format_error (tqdm_field w)
                                (after_progress (bound text (right_budget w))
                                                steps current_step bar))
                             (Tqdm.position bar) |}).
Proof.
  intros Hget Hfoot. unfold has_footer in Hfoot.
  destruct (Tqdm.postfix bar) as [|footer rest] eqn:Hpost; [discriminate|].
  unfold _handle_progress_bar, bind at 1 2 3.
  unfold text_width_right, status_text, ret at 1.
  erewrite on_bar_run;
    [| exact Hget | unfold set_postfix_0; rewrite Hpost; reflexivity].
  unfold bind at 1, bar_attr, bind at 1, get_progress_bars, bind at 1, getitem.
  cbn [progress_bars put_progress_bars]. rewrite od_get_set_same.
  unfold ret at 1 2. unfold bind at 1. unfold status_steps, ret at 1.
  assert (Tqdm.position
            (after_progress (bound text (right_budget w)) steps current_step bar)
          = Tqdm.position bar) as Hrow.
  { unfold after_progress. cbv zeta. destruct (total_differs _ _); reflexivity. }
  rewrite <- Hrow.
  unfold after_progress. rewrite Hpost. cbn [tl].
  set (bar1 := Tqdm.with_postfix (bound text (right_budget w) :: rest) bar).
  cbv zeta.
  destruct (total_differs (Tqdm.total bar1) steps) eqn:Hdiff.
  - unfold bind at 1.
    erewrite on_bar_run;
      [| cbn [progress_bars]; apply od_get_set_same | reflexivity].
    unfold bind, status_current_step, ret, get_progress_bars, getitem.
    cbn [progress_bars put_progress_bars]. rewrite !od_get_set_same.
    erewrite on_bar_run;
      [| cbn [progress_bars]; apply od_get_set_same | reflexivity].
    erewrite on_bar_refresh;
      [| cbn [progress_bars put_progress_bars]; apply od_get_set_same].
    unfold put_progress_bars. cbn.
    now rewrite !od_set_set.
  - unfold bind, status_current_step, ret, get_progress_bars, getitem.
    cbn [progress_bars put_progress_bars]. rewrite !od_get_set_same.
    erewrite on_bar_run;
      [| cbn [progress_bars]; apply od_get_set_same | reflexivity].
    erewrite on_bar_refresh;
      [| cbn [progress_bars put_progress_bars]; apply od_get_set_same].
    unfold put_progress_bars. cbn.
    now rewrite !od_set_set.
Qed.

(** ** Formatting the bars *)

Lemma done_mono check check' field st :
  (forall f, check f = None -> check' f = None) ->
  Format.done check field = inl st -> Format.done check' field = inl st.
Proof.
  intros Hmono. unfold Format.done.
  destruct (check field) eqn:Hc; [discriminate|].
  now rewrite (Hmono _ Hc).
Qed.

Lemma in_name_mono check check' field c st :
  (forall f, check f = None -> check' f = None) ->
  Format.in_name check field c = inl st ->
  Format.in_name check' field c = inl st.
Proof.
  intros Hmono. unfold Format.in_name.
  repeat (destruct (Ascii.eqb c _); [solve [auto | apply done_mono; auto]|]).
  auto.
Qed.

Lemma step_mono check check' st c st' :
  (forall f, check f = None -> check' f = None) ->
  Format.step check st c = inl st' -> Format.step check' st c = inl st'.
Proof.
  intros Hmono.
  destruct st as [| | |field|field|field|field|field depth]; cbn [Format.step];
    auto.
  - destruct (Ascii.eqb c "{"); [auto|]. now apply in_name_mono.
  - now apply in_name_mono.
  - destruct (Ascii.eqb c "}"); [now apply done_mono|]. auto.
  - destruct (Ascii.eqb c "{"); [auto|].
    destruct (Ascii.eqb c "}"); [|auto].
    destruct depth as [|[|d]]; auto; now apply done_mono.
Qed.

(** A format string that formats with one reading of the fields formats
    with every reading that raises for no more fields. *)
Lemma walk_mono check check' s :
  (forall f, check f = None -> check' f = None) ->
  forall st st', Format.walk check st s = inl st' ->
                 Format.walk check' st s = inl st'.
Proof.
  intros Hmono. induction s as [|c s IH]; intros st st'; cbn [Format.walk].
  - auto.
  - destruct (Format.step check st c) as [st1|e] eqn:Hstep; [|discriminate].
    rewrite (step_mono _ _ _ _ _ Hmono Hstep). apply IH.
Qed.

Lemma error_mono check check' fmt :
  (forall f, check f = None -> check' f = None) ->
  Format.error check fmt = None -> Format.error check' fmt = None.
Proof.
  intros Hmono. unfold Format.error.
  destruct (Format.walk check Format.Text fmt) as [st|e] eqn:Hwalk;
    [|discriminate].
  now rewrite (walk_mono _ _ _ Hmono _ _ Hwalk).
Qed.

Lemma walk_app check s t : forall st,
  Format.walk check st (s ++ t)
  = match Format.walk check st s with
    | inl st' => Format.walk check st' t
    | inr e => inr e
    end.
Proof.
  induction s as [|c s IH]; intros st; cbn [Format.walk String.append].
  - reflexivity.
  - destruct (Format.step check st c); [apply IH | reflexivity].
Qed.

(** Text without a brace has neither a field nor an error of syntax. *)
Lemma walk_brace_free check s :
  Format.brace_free s = true ->
  Format.walk check Format.Text s = inl Format.Text.
Proof.
  induction s as [|c s IH]; cbn [Format.walk Format.brace_free Format.step].
  - reflexivity.
  - intros H. apply andb_true_iff in H as [H Hs].
    apply andb_true_iff in H as [Ho Hc].
    apply negb_true_iff in Ho, Hc. rewrite Ho, Hc. now apply IH.
Qed.

Lemma brace_free_app s t :
  Format.brace_free (s ++ t) = Format.brace_free s && Format.brace_free t.
Proof.
  induction s as [|c s IH]; cbn [Format.brace_free String.append].
  - reflexivity.
  - rewrite IH. now rewrite !andb_assoc.
Qed.

Lemma brace_free_take k : forall s,
  Format.brace_free s = true -> Format.brace_free (Py.take k s) = true.
Proof.
  induction k as [|k IH]; intros [|c s]; cbn [Py.take Format.brace_free]; auto.
  intros H. apply andb_true_iff in H as [H Hs]. rewrite H. now apply IH.
Qed.

Lemma brace_free_spaces k : Format.brace_free (Py.spaces k) = true.
Proof. induction k as [|k IH]; [reflexivity|]. exact IH. Qed.

(** Cutting and padding bring no brace into a text. *)
Lemma brace_free_bound text tw :
  Format.brace_free text = true -> Format.brace_free (bound text tw) = true.
Proof.
  intros H. unfold bound, Py.slice_to, Py.ljust.
  destruct (Py.len text >? tw - 3).
  - rewrite brace_free_app. now rewrite brace_free_take.
  - destruct (tw <=? Py.len text); [assumption|].
    rewrite brace_free_app, H. apply brace_free_spaces.
Qed.

(** The five fields of the format given to the constructor are the only
    ones that are sure to format. *)
Lemma field_error_sure fields bar bar' field :
  (has_footer bar = true -> has_footer bar' = true) ->
  field_error (fun _ f => Some (KeyError f)) bar field = None ->
  field_error fields bar' field = None.
Proof.
  intros Hfoot. unfold field_error.
  destruct (String.eqb field "desc" || String.eqb field "n_fmt"
            || String.eqb field "total_fmt" || String.eqb field "bar");
    [reflexivity|].
  destruct (String.eqb field "postfix[0]"); [|discriminate].
  unfold has_footer in Hfoot.
  destruct (Tqdm.postfix bar); [discriminate|].
  destruct (Tqdm.postfix bar'); [|reflexivity].
  intros _. now specialize (Hfoot eq_refl).
Qed.

(** A bar that is sure to format does format, whatever tqdm does with the
    other fields. *)
Lemma surely_formats_sound fields bar :
  surely_formats bar = true -> format_error fields bar = None.
Proof.
  unfold surely_formats, format_error. intros H.
  destruct (Format.error _ (Tqdm.bar_format bar)) eqn:Herr; [discriminate|].
  apply error_mono with (2 := Herr). intros f.
  now apply field_error_sure.
Qed.

Lemma surely_formats_same bar bar' :
  Tqdm.bar_format bar' = Tqdm.bar_format bar ->
  (has_footer bar = true -> has_footer bar' = true) ->
  surely_formats bar = true -> surely_formats bar' = true.
Proof.
  unfold surely_formats, format_error. intros -> Hfoot H.
  destruct (Format.error (field_error _ bar) _) eqn:Herr; [discriminate|].
  rewrite (error_mono _ (field_error (fun _ f => Some (KeyError f)) bar') _
             (fun f => field_error_sure _ bar bar' f Hfoot) Herr).
  reflexivity.
Qed.

Lemma bar_format_after_progress footer steps current_step bar :
  Tqdm.bar_format (after_progress footer steps current_step bar)
  = Tqdm.bar_format bar.
Proof.
  unfold after_progress. cbv zeta.
  destruct (total_differs _ steps); reflexivity.
Qed.

(** A progress step leaves the format as it is. *)
Lemma surely_formats_after_progress footer steps current_step bar :
  surely_formats bar = true ->
  surely_formats (after_progress footer steps current_step bar) = true.
Proof.
  apply surely_formats_same.
  - apply bar_format_after_progress.
  - intros _. unfold after_progress. cbv zeta.
    destruct (total_differs _ steps); reflexivity.
Qed.

(** The line of a failure whose message has no brace has the one field
    [desc]. *)
Lemma surely_formats_after_failure message tw bar :
  Format.brace_free message = true ->
  surely_formats (after_failure (bound message tw) bar) = true.
Proof.
  intros H. unfold surely_formats, format_error, after_failure, Format.error.
  cbn [Tqdm.bar_format Tqdm.with_bar_format].
  rewrite walk_app.
  change (Format.walk _ Format.Text "{desc}") with (@inl Format.state exn Format.Text).
  cbv beta iota.
  now rewrite (walk_brace_free _ _ (brace_free_bound _ tw H)).
Qed.

(** The bar that the loop of [_build_progress_bars] makes formats. *)
Lemma surely_formats_initial tw longest i service_name :
  surely_formats (initial_bar tw longest i service_name) = true.
Proof. reflexivity. Qed.

Lemma od_get_formats k v d :
  formats_ready d = true -> od_get k d = Some v -> surely_formats v = true.
Proof.
  induction d as [|[k0 v0] d IH]; cbn; [discriminate|].
  intros H. apply andb_true_iff in H as [H0 H].
  destruct (String.eqb k k0); [now intros [= <-] | now apply IH].
Qed.

Lemma od_set_formats k v d :
  formats_ready d = true -> surely_formats v = true ->
  formats_ready (od_set k v d) = true.
Proof.
  intros Hd Hv. induction d as [|[k0 v0] d IH]; cbn.
  - now rewrite Hv.
  - cbn in Hd. apply andb_true_iff in Hd as [H0 Hd].
    destruct (String.eqb k k0); cbn.
    + now rewrite Hv.
    + rewrite H0. now apply IH.
Qed.

(** ** What the handler never changes *)

Lemma closed_rows_app s t : closed_rows (s ++ t) = (closed_rows s ++ closed_rows t)%list.
Proof.
  induction s as [|[r|r|r|m] s IH]; simpl; auto. now rewrite IH.
Qed.

Lemma created_rows_app s t :
  created_rows (s ++ t) = (created_rows s ++ created_rows t)%list.
Proof.
  induction s as [|[r|r|r|m] s IH]; simpl; auto. now rewrite IH.
Qed.

Lemma closed_rows_redrawn err row s :
  closed_rows (s ++ redrawn err row) = closed_rows s.
Proof.
  rewrite closed_rows_app. destruct err; simpl; now rewrite app_nil_r.
Qed.

Lemma has_footer_after_progress footer steps current_step bar :
  has_footer (after_progress footer steps current_step bar) = true.
Proof.
  unfold after_progress. cbv zeta.
  destruct (total_differs _ steps); reflexivity.
Qed.

Lemma position_after_progress footer steps current_step bar :
  Tqdm.position (after_progress footer steps current_step bar)
  = Tqdm.position bar.
Proof.
  unfold after_progress. cbv zeta.
  destruct (total_differs _ steps); reflexivity.
Qed.

Lemma total_after_progress footer steps current_step bar :
  Tqdm.total (after_progress footer steps current_step bar)
  = if total_differs (Tqdm.total bar) steps then steps else Tqdm.total bar.
Proof.
  unfold after_progress. cbv zeta.
  change (Tqdm.total (Tqdm.with_postfix _ bar)) with (Tqdm.total bar).
  destruct (total_differs (Tqdm.total bar) steps); reflexivity.
Qed.

Lemma n_after_progress footer steps current_step bar :
  Tqdm.n (after_progress footer steps current_step bar)
  = Tqdm.n bar + (current_step - Tqdm.n bar).
Proof.
  unfold after_progress. cbv zeta.
  destruct (total_differs _ steps); reflexivity.
Qed.

Lemma postfix_after_progress footer steps current_step bar :
  Tqdm.postfix (after_progress footer steps current_step bar)
  = footer :: tl (Tqdm.postfix bar).
Proof.
  unfold after_progress. cbv zeta.
  destruct (total_differs _ steps); reflexivity.
Qed.

(** The frame of [_handle_progress_bar], whatever the event and whether it
    raises or not: the terminal and tqdm are the same, every service keeps
    its entry and its row, every bar keeps a footer, no bar is closed and
    the list of errors only grows at its end. *)
Record frame (w w' : world) : Prop := {
  frame_terminal : terminal w' = terminal w;
  frame_fields : tqdm_field w' = tqdm_field w;
  frame_layout : layout (progress_bars w') = layout (progress_bars w);
  frame_footers : footers_ready (progress_bars w') = true;
  frame_closed : closed_rows (screen w') = closed_rows (screen w);
  frame_errors : exists more, errors w' = (errors w ++ more)%list
}.

Lemma frame_refl w : footers_ready (progress_bars w) = true -> frame w w.
Proof.
  intros H. split; auto. exists []. now rewrite app_nil_r.
Qed.

Lemma frame_trans w1 w2 w3 : frame w1 w2 -> frame w2 w3 -> frame w1 w3.
Proof.
  intros [T1 Q1 L1 F1 C1 [m1 E1]] [T2 Q2 L2 F2 C2 [m2 E2]]. split.
  - congruence.
  - congruence.
  - congruence.
  - assumption.
  - congruence.
  - exists (m1 ++ m2)%list. rewrite E2, E1. now rewrite app_assoc.
Qed.

Lemma handle_frame service_name status finished w :
  footers_ready (progress_bars w) = true ->
  frame w (snd (_handle_progress_bar service_name status finished w)).
Proof.
  intros Hfoot.
  destruct finished, status as [[text current_step steps|message]|].
  - rewrite handle_finished_step. split; simpl; eauto.
  - destruct (od_get service_name (progress_bars w)) as [bar|] eqn:Hget.
    + rewrite (handle_failure _ _ _ _ Hget). split; simpl; eauto.
      * now apply od_set_present_layout with (v' := bar).
      * apply od_set_present_footers with (v' := bar); auto.
        exact (od_get_footer _ _ _ Hfoot Hget).
      * apply closed_rows_redrawn.
    + rewrite (handle_failure_unregistered _ _ _ Hget). split; simpl; eauto.
  - rewrite handle_success. now apply frame_refl.
  - destruct (od_get service_name (progress_bars w)) as [bar|] eqn:Hget.
    + rewrite (handle_progress _ _ _ _ _ _ Hget (od_get_footer _ _ _ Hfoot Hget)).
      split; simpl.
      * reflexivity.
      * reflexivity.
      * apply od_set_present_layout with (v' := bar); auto.
        apply position_after_progress.
      * apply od_set_present_footers with (v' := bar); auto.
        apply has_footer_after_progress.
      * apply closed_rows_redrawn.
      * exists []. now rewrite app_nil_r.
    + rewrite (handle_progress_unregistered _ _ _ _ _ Hget).
      now apply frame_refl.
  - rewrite handle_unfinished_failure. now apply frame_refl.
  - rewrite handle_unfinished_none. now apply frame_refl.
Qed.

(** On bars that format and have their footers, the handler returns for
    the events of [handled], and leaves bars that format. *)
Lemma handled_returns w service_name status finished :
  footers_ready (progress_bars w) = true ->
  formats_ready (progress_bars w) = true ->
  handled (od_keys (progress_bars w)) (service_name, status, finished) = true ->
  fst (_handle_progress_bar service_name status finished w) = Ok tt.
Proof.
  intros Hfoot Hfmt Hh. unfold handled in Hh.
  destruct finished, status as [[text current_step steps|message]|];
    try discriminate; try reflexivity.
  - apply andb_true_iff in Hh as [Hh Hfree].
    apply registered_get in Hh as [bar Hget].
    rewrite (handle_failure _ _ _ _ Hget). cbn [fst].
    now rewrite (surely_formats_sound _ _
                   (surely_formats_after_failure message _ bar Hfree)).
  - apply registered_get in Hh as [bar Hget].
    rewrite (handle_progress _ _ _ _ _ _ Hget (od_get_footer _ _ _ Hfoot Hget)).
    cbn [fst].
    now rewrite (surely_formats_sound _ _
                   (surely_formats_after_progress _ _ _ _
                      (od_get_formats _ _ _ Hfmt Hget))).
Qed.

Lemma handled_formats w service_name status finished :
  footers_ready (progress_bars w) = true ->
  formats_ready (progress_bars w) = true ->
  handled (od_keys (progress_bars w)) (service_name, status, finished) = true ->
  formats_ready
    (progress_bars (snd (_handle_progress_bar service_name status finished w)))
  = true.
Proof.
  intros Hfoot Hfmt Hh. unfold handled in Hh.
  destruct finished, status as [[text current_step steps|message]|];
    try discriminate; try assumption.
  - apply andb_true_iff in Hh as [Hh Hfree].
    apply registered_get in Hh as [bar Hget].
    rewrite (handle_failure _ _ _ _ Hget). cbn [snd progress_bars].
    apply od_set_formats; [assumption|].
    now apply surely_formats_after_failure.
  - apply registered_get in Hh as [bar Hget].
    rewrite (handle_progress _ _ _ _ _ _ Hget (od_get_footer _ _ _ Hfoot Hget)).
    cbn [snd progress_bars].
    apply od_set_formats; [assumption|].
    apply surely_formats_after_progress.
    exact (od_get_formats _ _ _ Hfmt Hget).
Qed.

(** The events of [rejected] raise, whatever the bars are. *)
Lemma rejected_raises w service_name status finished :
  rejected (od_keys (progress_bars w)) (service_name, status, finished) = true ->
  exists e, fst (_handle_progress_bar service_name status finished w) = Raise e.
Proof.
  intros Hh. unfold rejected in Hh.
  destruct finished, status as [[text current_step steps|message]|];
    try discriminate; try (eexists; reflexivity);
    apply negb_true_iff in Hh;
    (destruct (od_get service_name (progress_bars w)) as [bar|] eqn:Hget;
     [ assert (registered service_name (od_keys (progress_bars w)) = true)
         by (apply registered_get; eauto); congruence |]).
  - rewrite (handle_failure_unregistered _ _ _ Hget). eexists; reflexivity.
  - rewrite (handle_progress_unregistered _ _ _ _ _ Hget). eexists; reflexivity.
Qed.

Lemma frame_keys w w' :
  frame w w' -> od_keys (progress_bars w') = od_keys (progress_bars w).
Proof. intros H. rewrite <- !layout_keys. now rewrite (frame_layout _ _ H). Qed.

(** ** The loop over the events *)

Lemma handle_events_app pre post w :
  handle_events (pre ++ post) w
  = match handle_events pre w with
    | (Ok _, w1) => handle_events post w1
    | (Raise e, w1) => (Raise e, w1)
    end.
Proof.
  revert w. induction pre as [|[[name st] fin] pre IH]; intros w; simpl.
  - reflexivity.
  - unfold bind. destruct (_handle_progress_bar name st fin w) as [[[]|e] w1].
    + apply IH.
    + reflexivity.
Qed.

Lemma handle_events_frame items w :
  footers_ready (progress_bars w) = true ->
  frame w (snd (handle_events items w)).
Proof.
  revert w. induction items as [|[[name st] fin] items IH]; intros w Hfoot; simpl.
  - now apply frame_refl.
  - pose proof (handle_frame name st fin w Hfoot) as Hf.
    unfold bind. destruct (_handle_progress_bar name st fin w) as [[[]|e] w1];
      simpl in Hf.
    + apply frame_trans with w1; [assumption|].
      apply IH. apply Hf.
    + assumption.
Qed.

(** A run of events of [handled] on bars that format returns, and leaves
    bars that format. *)
Lemma handle_events_returns items w :
  footers_ready (progress_bars w) = true ->
  formats_ready (progress_bars w) = true ->
  forallb (handled (od_keys (progress_bars w))) items = true ->
  fst (handle_events items w) = Ok tt
  /\ formats_ready (progress_bars (snd (handle_events items w))) = true.
Proof.
  revert w.
  induction items as [|[[name st] fin] items IH]; intros w Hfoot Hfmt Hall;
    simpl in *.
  - now split.
  - apply andb_true_iff in Hall as [Hev Hall].
    pose proof (handle_frame name st fin w Hfoot) as Hf.
    pose proof (handled_returns w name st fin Hfoot Hfmt Hev) as Hr.
    pose proof (handled_formats w name st fin Hfoot Hfmt Hev) as Hm.
    unfold bind. destruct (_handle_progress_bar name st fin w) as [r w1];
      simpl in *. subst r.
    apply IH; [apply Hf | assumption |].
    now rewrite (frame_keys _ _ Hf).
Qed.

(** ** Building the bars *)

Lemma put_all_nil w : put_all [] w = w.
Proof. destruct w. unfold put_all. cbn. now rewrite app_nil_r. Qed.

Lemma put_all_app ds ds' w : put_all ds' (put_all ds w) = put_all (ds ++ ds') w.
Proof. unfold put_all. cbn. now rewrite app_assoc. Qed.

(** The loop never raises: the format of line 41 has the five fields that
    format, and the postfix of line 43 has its item 0.  It draws what
    [build_screen] tells, a replaced bar being closed as soon as the
    dictionary drops it. *)
Lemma build_loop_run services longest i d w :
  build_loop services longest i d w
  = (Ok (fill (right_budget w) longest services i d),
     put_all (build_screen (right_budget w) longest services i d) w).
Proof.
  revert i d w. induction services as [|name rest IH]; intros i d w.
  - cbn [build_loop build_screen fill]. now rewrite put_all_nil.
  - cbn [build_loop build_screen fill]. unfold bind at 1, text_width_right.
    unfold bind at 1, tqdm, bind at 1, get_tqdm_field.
    change (format_error (tqdm_field w) _) with (@None exn).
    cbv beta iota. unfold bind at 1, draw, ret at 1.
    unfold bind at 1, del_replaced.
    destruct (od_get name d) as [replaced|] eqn:Hget.
    + unfold bind at 1, close, bind at 1, draw, ret at 1 2.
      unfold bind at 1, getitem. rewrite od_get_set_same.
      unfold ret at 1, bind at 1, set_description, refresh, bind at 1,
        get_tqdm_field.
      change (format_error _ _) with (@None exn).
      cbv beta iota. unfold bind at 1, draw, ret at 1.
      rewrite od_set_set, IH. unfold put_all, put_drawn. cbn.
      now rewrite <- !app_assoc.
    + unfold ret at 1.
      unfold bind at 1, getitem. rewrite od_get_set_same.
      unfold ret at 1, bind at 1, set_description, refresh, bind at 1,
        get_tqdm_field.
      change (format_error _ _) with (@None exn).
      cbv beta iota. unfold bind at 1, draw, ret at 1.
      rewrite od_set_set, IH. unfold put_all, put_drawn. cbn.
      now rewrite <- !app_assoc.
Qed.

(** An empty sequence: [max] raises on line 35, before the loop. *)
Lemma build_empty w :
  _build_progress_bars [] w
  = (Raise (ValueError "max() arg is an empty sequence"), w).
Proof. reflexivity. Qed.

Lemma build_nonempty first rest w :
  _build_progress_bars (first :: rest) w
  = (Ok (fill (right_budget w) (Py.len (Py.max_from first rest))
              (first :: rest) 0 []),
     put_all (build_screen (right_budget w) (Py.len (Py.max_from first rest))
                           (first :: rest) 0 []) w).
Proof.
  unfold _build_progress_bars, bind, longest_name_len, ret.
  now rewrite build_loop_run.
Qed.

(** One bar is created per name, on the rows from [i] on, in order. *)
Lemma created_rows_build_screen tw longest services i d :
  created_rows (build_screen tw longest services i d)
  = rows_from i (List.length services).
Proof.
  revert i d. induction services as [|name rest IH]; intros i d;
    cbn [build_screen rows_from List.length]; [reflexivity|].
  cbn [app created_rows]. rewrite created_rows_app, IH.
  destruct (od_get name d); reflexivity.
Qed.

(** When no name occurs twice nothing is replaced, and the loop draws each
    bar twice: created, and redrawn with its description. *)
Lemma build_screen_fresh tw longest services i d :
  NoDup services ->
  (forall name, In name services -> od_get name d = None) ->
  build_screen tw longest services i d
  = flat_map (fun r => [Created r; Refreshed r])
             (rows_from i (List.length services)).
Proof.
  revert i d. induction services as [|x rest IH]; intros i d Hnd Hnew;
    cbn [build_screen rows_from List.length flat_map]; [reflexivity|].
  inversion Hnd as [|? ? Hx Hrest]; subst.
  rewrite (Hnew x) by now left.
  rewrite IH; [reflexivity | assumption |].
  intros name Hin.
  rewrite od_get_set_other by (intros ->; contradiction).
  apply Hnew. now right.
Qed.

Lemma created_rows_drawing rs :
  created_rows (flat_map (fun r => [Created r; Refreshed r]) rs) = rs.
Proof. induction rs as [|r rs IH]; simpl; [reflexivity | now rewrite IH]. Qed.

Lemma closed_rows_drawing rs :
  closed_rows (flat_map (fun r => [Created r; Refreshed r]) rs) = [].
Proof. induction rs as [|r rs IH]; simpl; auto. Qed.

Lemma fill_get_other tw longest services name i d :
  ~ In name services ->
  od_get name (fill tw longest services i d) = od_get name d.
Proof.
  revert i d. induction services as [|x rest IH]; intros i d Hnot; simpl.
  - reflexivity.
  - rewrite IH by (intros H; apply Hnot; now right).
    apply od_get_set_other. intros ->. apply Hnot. now left.
Qed.

(** The bar under a name is the one made at the last place the name has in
    the sequence. *)
Lemma fill_get_at tw longest services k name i d :
  nth_error services k = Some name ->
  ~ In name (skipn (S k) services) ->
  od_get name (fill tw longest services i d)
  = Some (initial_bar tw longest (i + Z.of_nat k) name).
Proof.
  revert k i d. induction services as [|x rest IH]; intros k i d Hnth Hlast.
  - destruct k; discriminate.
  - destruct k as [|k]; simpl in Hnth.
    + injection Hnth as ->. simpl in Hlast. simpl.
      rewrite fill_get_other by assumption.
      rewrite od_get_set_same. now rewrite Z.add_0_r.
    + simpl. rewrite (IH k) by assumption.
      do 2 f_equal. lia.
Qed.

Lemma fill_fresh tw longest services i d :
  NoDup services ->
  (forall name, In name services -> od_get name d = None) ->
  fill tw longest services i d = (d ++ fresh_entries tw longest services i)%list.
Proof.
  revert i d. induction services as [|x rest IH]; intros i d Hnd Hnew; simpl.
  - now rewrite app_nil_r.
  - inversion Hnd as [|? ? Hx Hrest]; subst.
    rewrite od_set_absent by (apply Hnew; now left).
    rewrite IH; [now rewrite <- app_assoc | assumption |].
    intros name Hin.
    assert (name <> x) by (intros ->; contradiction).
    rewrite <- (od_set_absent x (initial_bar tw longest i x) d)
      by (apply Hnew; now left).
    rewrite od_get_set_other by congruence.
    apply Hnew. now right.
Qed.

Lemma fresh_entries_keys tw longest services i :
  od_keys (fresh_entries tw longest services i) = services.
Proof.
  revert i. induction services as [|x rest IH]; intros i; simpl;
    [reflexivity | now rewrite IH].
Qed.

Lemma fresh_entries_rows tw longest services i :
  map Tqdm.position (od_values (fresh_entries tw longest services i))
  = rows_from i (List.length services).
Proof.
  revert i. induction services as [|x rest IH]; intros i; simpl;
    [reflexivity | now rewrite IH].
Qed.

Lemma fill_footers tw longest services i d :
  footers_ready d = true -> footers_ready (fill tw longest services i d) = true.
Proof.
  revert i d. induction services as [|x rest IH]; intros i d Hd; simpl; auto.
  apply IH. clear IH.
  induction d as [|[k v] d IHd]; simpl in *; [reflexivity|].
  apply andb_true_iff in Hd as [Hv Hd].
  destruct (String.eqb x k); simpl.
  - now rewrite Hd.
  - rewrite Hv. now apply IHd.
Qed.

(** ** Closing the bars *)

Lemma od_get_in k v d : NoDup (od_keys d) -> In (k, v) d -> od_get k d = Some v.
Proof.
  induction d as [|[k0 v0] d IH]; simpl; intros Hnd Hin; [destruct Hin|].
  inversion Hnd as [|? ? Hk0 Hd]; subst.
  destruct Hin as [[= -> ->]|Hin].
  - now rewrite String.eqb_refl.
  - destruct (String.eqb_spec k k0) as [->|_]; [|now apply IH].
    exfalso. apply Hk0. change k0 with (fst (k0, v)). now apply in_map.
Qed.

Lemma od_get_some_in k v d : od_get k d = Some v -> In (k, v) d.
Proof.
  induction d as [|[k0 v0] d IH]; simpl; [discriminate|].
  destruct (String.eqb_spec k k0) as [->|_].
  - intros [= ->]. now left.
  - intros H. right. now apply IH.
Qed.

Lemma on_bar_close service_name w bar :
  od_get service_name (progress_bars w) = Some bar ->
  on_bar service_name close w
  = (Ok tt,
     {| terminal := terminal w;
        tqdm_field := tqdm_field w;
        progress_bars :=
          od_set service_name (Tqdm.with_closed true bar) (progress_bars w);
        errors := errors w;
        screen := screen w ++ [Closed (Tqdm.position bar)] |}).
Proof.
  intros Hget. erewrite on_bar_run; [| exact Hget | reflexivity]. reflexivity.
Qed.

(** The loop closes the bars of the entries it is given, in their order,
    draws an empty line after each, and changes nothing else. *)
Lemma close_loop_run entries w :
  NoDup (map fst entries) ->
  (forall name bar, In (name, bar) entries ->
     exists bar', od_get name (progress_bars w) = Some bar' /\
                  Tqdm.position bar' = Tqdm.position bar) ->
  exists w',
    close_loop entries w = (Ok tt, w') /\
    screen w'
    = (screen w ++ closing (map (fun e => Tqdm.position (snd e)) entries))%list /\
    layout (progress_bars w') = layout (progress_bars w) /\
    errors w' = errors w /\
    terminal w' = terminal w /\
    (forall k,
       od_get k (progress_bars w')
       = if existsb (String.eqb k) (map fst entries)
         then option_map (Tqdm.with_closed true) (od_get k (progress_bars w))
         else od_get k (progress_bars w)).
Proof.
  revert w. induction entries as [|[name bar] rest IH]; intros w Hnd Hpos.
  - exists w. simpl. rewrite app_nil_r. auto 7.
  - inversion Hnd as [|? ? Hname Hrest]; subst.
    destruct (Hpos name bar) as (bar0 & Hget & Hrow); [now left|].
    cbn [close_loop]. unfold bind at 1. rewrite (on_bar_close _ _ _ Hget).
    unfold bind at 1, echo, draw.
    set (w1 := put_drawn _ _).
    destruct (IH w1 Hrest) as (w' & Hrun & Hscr & Hlay & Herr & Hterm & Hget').
    { intros name' bar' Hin.
      destruct (Hpos name' bar') as (b & Hb & Hr); [now right|].
      exists b. split; [|assumption].
      subst w1. cbn [progress_bars put_drawn].
      rewrite od_get_set_other; [assumption|].
      intros ->. apply Hname. change name' with (fst (name', bar')).
      now apply in_map. }
    exists w'. split; [assumption|]. split; [|split; [|split; [|split]]].
    + rewrite Hscr. subst w1. cbn. rewrite Hrow.
      now rewrite <- !app_assoc.
    + rewrite Hlay. subst w1. cbn [progress_bars put_drawn].
      now apply od_set_present_layout with (v' := bar0).
    + now rewrite Herr.
    + now rewrite Hterm.
    + intros k. rewrite Hget'. subst w1. cbn [progress_bars put_drawn map fst existsb].
      destruct (String.eqb_spec k name) as [->|Hk].
      * rewrite od_get_set_same, Hget. cbn [orb option_map].
        destruct (existsb (String.eqb name) (map fst rest)) eqn:E; [|reflexivity].
        exfalso. apply Hname. apply existsb_exists in E as (x & Hx & Ex).
        apply String.eqb_eq in Ex. now subst x.
      * rewrite od_get_set_other by congruence. reflexivity.
Qed.

(** [close_bars] on a dictionary with one entry per key: every bar is closed
    once, last entry first, with an empty line after each. *)
Lemma close_bars_run w :
  NoDup (od_keys (progress_bars w)) ->
  exists w',
    close_bars w = (Ok tt, w') /\
    screen w'
    = (screen w
       ++ closing (rev (map Tqdm.position (od_values (progress_bars w)))))%list /\
    layout (progress_bars w') = layout (progress_bars w) /\
    errors w' = errors w /\
    terminal w' = terminal w /\
    (forall k bar, od_get k (progress_bars w') = Some bar ->
                   Tqdm.closed bar = true).
Proof.
  intros Hnd. unfold close_bars, bind, get_progress_bars.
  destruct (close_loop_run (rev (progress_bars w)) w)
    as (w' & Hrun & Hscr & Hlay & Herr & Hterm & Hget).
  - rewrite map_rev. apply NoDup_rev. exact Hnd.
  - intros name bar Hin. exists bar. split; [|reflexivity].
    apply od_get_in; [assumption|]. now apply in_rev.
  - exists w'. split; [assumption|]. split; [|split; [|split; [|split]]]; auto.
    + rewrite Hscr. unfold od_values. now rewrite map_rev, map_map.
    + intros k bar Hk. rewrite Hget in Hk.
      destruct (existsb (String.eqb k) (map fst (rev (progress_bars w)))) eqn:E.
      * destruct (od_get k (progress_bars w)); simpl in Hk; [|discriminate].
        injection Hk as <-. reflexivity.
      * exfalso. apply od_get_some_in in Hk.
        assert (existsb (String.eqb k) (map fst (rev (progress_bars w))) = true)
          as E'; [|congruence].
        apply existsb_exists. exists k. split; [|apply String.eqb_refl].
        change k with (fst (k, bar)). apply in_map.
        apply -> in_rev. exact Hk.
Qed.

(** ** The world at the start of the loop over the events *)

Lemma od_set_keys_in x k v d :
  In x (od_keys (od_set k v d)) <-> x = k \/ In x (od_keys d).
Proof.
  induction d as [|[k0 v0] d IH]; simpl.
  - split; [intros [H|[]]; auto | intros [H|[]]; auto].
  - destruct (String.eqb_spec k k0) as [->|Hk]; simpl.
    + intuition.
    + rewrite IH. intuition.
Qed.

Lemma fill_keys_in tw longest services i d x :
  In x (od_keys (fill tw longest services i d))
  <-> In x services \/ In x (od_keys d).
Proof.
  revert i d. induction services as [|name rest IH]; intros i d; simpl.
  - tauto.
  - rewrite IH, od_set_keys_in. intuition.
Qed.

Lemma started_nonempty first rest w :
  started (first :: rest) w
  = {| terminal := terminal w;
       tqdm_field := tqdm_field w;
       progress_bars :=
         fill (right_budget w) (Py.len (Py.max_from first rest))
              (first :: rest) 0 [];
       errors := [];
       screen := screen w
                 ++ build_screen (right_budget w)
                      (Py.len (Py.max_from first rest)) (first :: rest) 0 [] |}.
Proof.
  unfold started. rewrite build_nonempty. reflexivity.
Qed.

Lemma started_keys services w x :
  services <> [] ->
  In x (od_keys (progress_bars (started services w))) <-> In x services.
Proof.
  destruct services as [|first rest]; [congruence|]. intros _.
  rewrite started_nonempty. cbn [progress_bars].
  rewrite fill_keys_in. simpl. tauto.
Qed.

Lemma started_footers services w :
  services <> [] -> footers_ready (progress_bars (started services w)) = true.
Proof.
  destruct services as [|first rest]; [congruence|]. intros _.
  rewrite started_nonempty. cbn [progress_bars]. now apply fill_footers.
Qed.

Lemma fill_formats tw longest services i d :
  formats_ready d = true -> formats_ready (fill tw longest services i d) = true.
Proof.
  revert i d. induction services as [|x rest IH]; intros i d Hd; simpl; auto.
  apply IH. apply od_set_formats; [assumption|].
  apply surely_formats_initial.
Qed.

(** Every bar that the dispatcher builds formats. *)
Lemma started_formats services w :
  services <> [] -> formats_ready (progress_bars (started services w)) = true.
Proof.
  destruct services as [|first rest]; [congruence|]. intros _.
  rewrite started_nonempty. cbn [progress_bars]. now apply fill_formats.
Qed.

Lemma started_fields services w :
  tqdm_field (started services w) = tqdm_field w.
Proof.
  destruct services as [|first rest]; [reflexivity|].
  now rewrite started_nonempty.
Qed.

Lemma started_screen_fresh services w :
  NoDup services ->
  screen (started services w)
  = (screen w ++ flat_map (fun r => [Created r; Refreshed r])
                          (rows (List.length services)))%list.
Proof.
  intros Hnd. destruct services as [|first rest].
  - cbn. now rewrite app_nil_r.
  - rewrite started_nonempty. cbn [screen].
    now rewrite build_screen_fresh by (assumption || reflexivity).
Qed.

Lemma started_closed_rows services w :
  NoDup services ->
  closed_rows (screen (started services w)) = closed_rows (screen w).
Proof.
  intros Hnd. rewrite started_screen_fresh by assumption.
  now rewrite closed_rows_app, closed_rows_drawing, app_nil_r.
Qed.

(** Events that are all handled leave the loop without an exception, in a
    world that differs from the first by the frame and whose bars format. *)
Lemma handle_events_started services items w :
  services <> [] ->
  forallb (handled services) items = true ->
  exists w',
    handle_events items (started services w) = (Ok tt, w') /\
    frame (started services w) w' /\
    formats_ready (progress_bars w') = true.
Proof.
  intros Hne Hall.
  pose proof (started_footers services w Hne) as Hfoot.
  pose proof (started_formats services w Hne) as Hfmt.
  pose proof (handle_events_frame items _ Hfoot) as Hframe.
  pose proof (handle_events_returns items _ Hfoot Hfmt) as Hret.
  rewrite (all_handled_same _ services) in Hret
    by (intros x; now apply started_keys).
  destruct (Hret Hall) as [Hok Hready].
  destruct (handle_events items (started services w)) as [r w'].
  simpl in *. subst r. eauto.
Qed.

(** ** Rows *)

Lemma rows_from_bounds i k x : In x (rows_from i k) -> i <= x < i + Z.of_nat k.
Proof.
  revert i. induction k as [|k IH]; intros i; simpl; [tauto|].
  intros [<-|H]; [lia|]. apply IH in H. lia.
Qed.

Lemma rows_from_NoDup i k : NoDup (rows_from i k).
Proof.
  revert i. induction k as [|k IH]; intros i; simpl; constructor.
  - intros H. apply rows_from_bounds in H. lia.
  - apply IH.
Qed.

Lemma closed_rows_closing rs : closed_rows (closing rs) = rs.
Proof. induction rs as [|r rs IH]; simpl; [reflexivity | now rewrite IH]. Qed.

(** ** The claims about the event handler *)

(** C2.  An unfinished event with a progress step, for a service that has a
    bar: item 0 of the bar's postfix, the footer, is the text bounded to
    what [text_width_right()] gives; the total becomes [steps] when [steps]
    is given and differs from the total, and stays as it is otherwise; the
    counter is advanced by [current_step - n] and so equals [current_step].
    The handler ends as the redraw of line 71 ends, and returns whenever the
    format of the bar is one that is sure to format, as the format of every
    bar that the dispatchers build is. *)
Theorem progress_step_updates_bar
    (service_name text : string) (current_step : Z) (steps : option Z)
    (w : world) (bar : Tqdm.t)
    (Hboard : footers_ready (progress_bars w) = true)
    (Hreg : od_get service_name (progress_bars w) = Some bar) :
  exists r w' bar',
    _handle_progress_bar service_name
      (Some (InProgress text current_step steps)) false w = (r, w') /\
    r = outcome (format_error (tqdm_field w) bar') /\
    (surely_formats bar = true -> r = Ok tt) /\
    od_get service_name (progress_bars w') = Some bar' /\
    nth_error (Tqdm.postfix bar') 0 = Some (bound text (right_budget w)) /\
    (forall s, steps = Some s -> Tqdm.total bar <> Some s ->
               Tqdm.total bar' = Some s) /\
    (steps = None \/ steps = Tqdm.total bar ->
     Tqdm.total bar' = Tqdm.total bar) /\
    Tqdm.n bar' = Tqdm.n bar + (current_step - Tqdm.n bar) /\
    Tqdm.n bar' = current_step.
Proof.
  pose proof (od_get_footer _ _ _ Hboard Hreg) as Hfoot.
  eexists. eexists.
  exists (after_progress (bound text (right_budget w)) steps current_step bar).
  split; [apply (handle_progress _ _ _ _ _ _ Hreg Hfoot)|].
  split; [reflexivity|]. split.
  { intros Hsure.
    now rewrite (surely_formats_sound _ _
                   (surely_formats_after_progress _ _ _ _ Hsure)). }
  cbn [progress_bars]. split; [apply od_get_set_same|].
  rewrite postfix_after_progress, total_after_progress, n_after_progress.
  split; [reflexivity|]. split; [|split; [|split; [reflexivity | lia]]].
  - intros s -> Hs. unfold total_differs.
    destruct (Tqdm.total bar) as [t|]; [|reflexivity].
    destruct (Z.eqb_spec t s); [congruence | reflexivity].
  - intros [-> | ->]; [reflexivity|].
    unfold total_differs. destruct (Tqdm.total bar) as [t|]; [|reflexivity].
    now rewrite Z.eqb_refl.
Qed.

(** C4.  The handler splices the message of a failure into the format of
    the bar and redraws the bar, so a message with a brace is read as a
    format: for the services [web] and [db] and the finished event of [db]
    failing with [unexpected '}' in docker-compose.yml], the record is
    appended and the line is set to the message bounded by
    [text_width_error()], and then the redraw of line 59 raises
    [ValueError], whatever tqdm does with the fields of a format.  The
    dispatcher wraps the exception and the operation ends there. *)
Theorem failure_message_with_brace_raises
    (fields : Tqdm.t -> string -> option exn) :
  let message := "unexpected '}' in docker-compose.yml" in
  let w := started ["web"; "db"] (fresh None fields) in
  let w' := snd (_handle_progress_bar "db" (Some (Failure message)) true w) in
  fst (_handle_progress_bar "db" (Some (Failure message)) true w)
  = Raise (ValueError "Single '}' encountered in format string") /\
  errors w' = [{| service := "db"; error := Failure message |}] /\
  option_map Tqdm.bar_format (od_get "db" (progress_bars w'))
  = Some ("{desc}" ++ bound message 45) /\
  error_budget w = 45 /\
  screen w' = screen w /\
  fst (start_project four_spaces str_of_status no_report
         (project_on {| yielded := [("db", Some (Failure message), true)];
                        raised := None |})
         None false (fresh None fields))
  = Raise (RiptideCliError "Error starting the services"
             (ValueError "Single '}' encountered in format string")).
Proof.
  cbv zeta. repeat split; reflexivity.
Qed.

(** C8, as amended.  After an event for a service that has a bar, the
    counter of the bar is the [current_step] of the status when the event is
    an unfinished progress step, and is what it was otherwise; so it is not
    below its former value provided the [current_step] of a progress step is
    not below the counter. *)
Theorem counter_follows_current_step
    (service_name : string) (status : option status) (finished : bool)
    (w : world) (bar : Tqdm.t)
    (Hboard : footers_ready (progress_bars w) = true)
    (Hreg : od_get service_name (progress_bars w) = Some bar) :
  exists bar',
    od_get service_name
      (progress_bars (snd (_handle_progress_bar service_name status finished w)))
    = Some bar' /\
    Tqdm.n bar' = match status, finished with
                  | Some (InProgress _ current_step _), false => current_step
                  | _, _ => Tqdm.n bar
                  end /\
    ((forall text current_step steps,
        finished = false -> status = Some (InProgress text current_step steps) ->
        Tqdm.n bar <= current_step) ->
     Tqdm.n bar <= Tqdm.n bar').
Proof.
  pose proof (od_get_footer _ _ _ Hboard Hreg) as Hfoot.
  destruct finished, status as [[text current_step steps|message]|].
  - rewrite handle_finished_step. exists bar. cbn. split; [assumption|].
    split; [reflexivity | lia].
  - rewrite (handle_failure _ _ _ _ Hreg). eexists. cbn [snd progress_bars].
    split; [apply od_get_set_same|]. cbn. split; [reflexivity | lia].
  - rewrite handle_success. exists bar. cbn. split; [assumption|].
    split; [reflexivity | lia].
  - rewrite (handle_progress _ _ _ _ _ _ Hreg Hfoot). eexists.
    cbn [snd progress_bars]. split; [apply od_get_set_same|].
    assert (Tqdm.n (after_progress (bound text (right_budget w)) steps
                                   current_step bar) = current_step) as ->
      by (rewrite n_after_progress; lia).
    split; [reflexivity|]. intros H. now apply (H text current_step steps).
  - rewrite handle_unfinished_failure. exists bar. cbn. split; [assumption|].
    split; [reflexivity | lia].
  - rewrite handle_unfinished_none. exists bar. cbn. split; [assumption|].
    split; [reflexivity | lia].
Qed.

(** C9, as amended.  The handler keeps no record of a service having
    finished.  In a world reached by events among which [service_name] was
    reported as finished, a further event for it is handled like any other:
    a finished event without a status changes nothing and returns; a
    further failure appends one more record and rewrites the line of the
    bar, and returns when its message has no brace; a further progress step
    sets the footer, the total and the counter, and returns when the format
    of the bar is sure to format, which it is when the events before were
    all among those of [handled]. *)
Theorem event_after_finish_is_applied
    (services : list string) (history : list event) (service_name : string)
    (w0 w : world) (bar : Tqdm.t)
    (Hne : services <> [])
    (Hrun : handle_events history (started services w0) = (Ok tt, w))
    (Hterm : terminal_reached service_name history = true)
    (Hreg : od_get service_name (progress_bars w) = Some bar) :
  _handle_progress_bar service_name None true w = (Ok tt, w) /\
  (forall message, exists r w',
      _handle_progress_bar service_name (Some (Failure message)) true w
      = (r, w') /\
      (Format.brace_free message = true -> r = Ok tt) /\
      errors w' = (errors w ++ [{| service := service_name;
                                   error := Failure message |}])%list /\
      od_get service_name (progress_bars w')
      = Some (after_failure (bound message (error_budget w)) bar)) /\
  (forall text current_step steps, exists r w',
      _handle_progress_bar service_name
        (Some (InProgress text current_step steps)) false w = (r, w') /\
      (surely_formats bar = true -> r = Ok tt) /\
      errors w' = errors w /\
      od_get service_name (progress_bars w')
      = Some (after_progress (bound text (right_budget w)) steps
                             current_step bar)) /\
  (forallb (handled services) history = true -> surely_formats bar = true).
Proof.
  assert (footers_ready (progress_bars w) = true) as Hboard.
  { pose proof (handle_events_frame history _ (started_footers services w0 Hne))
      as Hf.
    rewrite Hrun in Hf. apply Hf. }
  pose proof (od_get_footer _ _ _ Hboard Hreg) as Hfoot.
  split; [reflexivity|]. split; [|split].
  - intros message. eexists. eexists.
    split; [apply (handle_failure _ _ _ _ Hreg)|]. split.
    { intros Hfree.
      now rewrite (surely_formats_sound _ _
                     (surely_formats_after_failure message _ bar Hfree)). }
    cbn [errors progress_bars]. split; [reflexivity | apply od_get_set_same].
  - intros text current_step steps. eexists. eexists.
    split; [apply (handle_progress _ _ _ _ _ _ Hreg Hfoot)|]. split.
    { intros Hsure.
      now rewrite (surely_formats_sound _ _
                     (surely_formats_after_progress _ _ _ _ Hsure)). }
    cbn [errors progress_bars]. split; [reflexivity | apply od_get_set_same].
  - intros Hall.
    destruct (handle_events_started services history w0 Hne Hall)
      as (w1 & Hrun1 & _ & Hready).
    rewrite Hrun in Hrun1. injection Hrun1 as <-.
    exact (od_get_formats _ _ _ Hready Hreg).
Qed.

(** ** The claims about the bars *)

(** C3, as amended.  Building the bars of an empty sequence of names fails
    with the [ValueError] that [max] raises on line 35, the computation of
    the longest name itself; there is no test for emptiness before it.  The
    world is left as it was: no bar is created and nothing is drawn. *)
Theorem build_empty_raises_ValueError (w : world) :
  _build_progress_bars [] w
  = (Raise (ValueError "max() arg is an empty sequence"), w) /\
  longest_name_len [] w
  = (Raise (ValueError "max() arg is an empty sequence"), w).
Proof. split; reflexivity. Qed.

(** C7, as amended.  After the bars are built, the bar of the name at index
    [k] of the sequence (its last index, if the name occurs more than once)
    has position [k], total 1, counter 0, as description the name followed
    by spaces up to the length of the longest name, and as footer the
    placeholder ["..."] followed by spaces up to what [text_width_right()]
    gives. *)
Theorem build_initial_bar
    (services : list string) (w : world) (k : nat) (service_name : string)
    (Hnth : nth_error services k = Some service_name)
    (Hlast : ~ In service_name (skipn (S k) services)) :
  exists d w' longest,
    _build_progress_bars services w = (Ok d, w') /\
    (forall name, In name services -> Py.len name <= longest) /\
    (exists name, In name services /\ Py.len name = longest) /\
    od_get service_name d
    = Some {| Tqdm.total := Some 1;
              Tqdm.position := Z.of_nat k;
              Tqdm.bar_format := "{desc}{n_fmt}/{total_fmt}|{bar}| {postfix[0]}";
              Tqdm.postfix := [Py.ljust "..." (right_budget w)];
              Tqdm.n := 0;
              Tqdm.description := Py.ljust service_name longest;
              Tqdm.closed := false |}.
Proof.
  destruct services as [|first rest]; [destruct k; discriminate|].
  eexists. eexists. exists (Py.len (Py.max_from first rest)).
  split; [apply build_nonempty|]. split; [|split].
  - intros name [<-|Hin].
    + apply PyFacts.max_from_ge_best.
    + now apply PyFacts.max_from_upper.
  - exists (Py.max_from first rest). split; [|reflexivity].
    destruct (PyFacts.max_from_in first rest) as [->|H]; [now left | now right].
  - rewrite (fill_get_at _ _ _ k service_name) by assumption.
    reflexivity.
Qed.

(** C6.  For a non-empty sequence of names, each occurring once as the
    names of the services of one operation do, the bars are created in the
    order of the sequence, the bar of the name at index [i] on row [i]; and
    in every world whose bars have that layout, closing the bars closes
    each of them once, from the last row to the first, with an empty line
    after each. *)
Theorem bars_in_order_closed_in_reverse
    (services : list string) (w : world)
    (Hne : services <> []) (Hdistinct : NoDup services) :
  exists d w1,
    _build_progress_bars services w = (Ok d, w1) /\
    od_keys d = services /\
    map Tqdm.position (od_values d) = rows (List.length services) /\
    created_rows (screen w1)
    = (created_rows (screen w) ++ rows (List.length services))%list /\
    forall w2, layout (progress_bars w2) = layout d ->
      exists w3,
        close_bars w2 = (Ok tt, w3) /\
        screen w3
        = (screen w2 ++ closing (rev (rows (List.length services))))%list /\
        closed_rows (screen w3)
        = (closed_rows (screen w2) ++ rev (rows (List.length services)))%list /\
        NoDup (rev (rows (List.length services))) /\
        (forall name bar, od_get name (progress_bars w3) = Some bar ->
                          Tqdm.closed bar = true).
Proof.
  destruct services as [|first rest]; [congruence|].
  set (services := first :: rest) in *.
  set (tw := right_budget w). set (longest := Py.len (Py.max_from first rest)).
  assert (fill tw longest services 0 [] = fresh_entries tw longest services 0)
    as Hfill by (rewrite fill_fresh; auto).
  exists (fresh_entries tw longest services 0).
  eexists. split; [|split; [|split; [|split]]].
  - subst services. rewrite build_nonempty. fold tw longest. now rewrite Hfill.
  - apply fresh_entries_keys.
  - apply fresh_entries_rows.
  - unfold put_all. cbn [screen]. rewrite created_rows_app.
    now rewrite created_rows_build_screen.
  - intros w2 Hlayout.
    destruct (close_bars_run w2) as (w3 & Hrun & Hscr & _ & _ & _ & Hclosed).
    { rewrite <- layout_keys, Hlayout, layout_keys, fresh_entries_keys.
      assumption. }
    exists w3. split; [assumption|].
    assert (map Tqdm.position (od_values (progress_bars w2))
            = rows (List.length services)) as Hrows.
    { rewrite <- layout_rows, Hlayout, layout_rows. apply fresh_entries_rows. }
    rewrite Hrows in Hscr.
    split; [assumption|]. split; [|split; [|assumption]].
    + rewrite Hscr, closed_rows_app. now rewrite closed_rows_closing.
    + apply NoDup_rev. apply rows_from_NoDup.
Qed.

(** ** The dispatchers *)

Section DispatcherFacts.

Variable TAB : string.
Variable str : status -> string.
Variable status_project : Context -> M unit.

Lemma start_project_run ctx services show_status w :
  start_project TAB str status_project ctx services show_status w
  = run_operation TAB str status_project ctx
      (engine_start_project (engine ctx) (chosen ctx services))
      (chosen ctx services) "Error starting the services" show_status
      (put_drawn (Echoed "") (put_drawn (Echoed "Starting services...") w)).
Proof. reflexivity. Qed.

Lemma stop_project_run ctx services show_status w :
  stop_project TAB str status_project ctx services show_status w
  = run_operation TAB str status_project ctx
      (engine_stop_project (engine ctx) (chosen ctx services))
      (chosen ctx services) "Error stopping the services" show_status
      (put_drawn (Echoed "") (put_drawn (Echoed "Stopping services...") w)).
Proof. reflexivity. Qed.

(** With no service to work on, the [ValueError] of the construction of
    the bars leaves the function as it is: line 98 and line 131 stand
    before the [try]. *)
Lemma run_operation_empty ctx events failure_message show_status w :
  run_operation TAB str status_project ctx events [] failure_message
                show_status w
  = (Raise (ValueError "max() arg is an empty sequence"), w).
Proof. reflexivity. Qed.

(** Whatever the loop over the events raises is wrapped, and nothing after
    the [try] statement runs. *)
Lemma run_operation_raises ctx events services failure_message show_status
    w e w' :
  services <> [] ->
  async_for events (started services w) = (Raise e, w') ->
  run_operation TAB str status_project ctx events services failure_message
                show_status w
  = (Raise (RiptideCliError failure_message e), w').
Proof.
  intros Hne Hloop. destruct services as [|first rest]; [congruence|].
  unfold started in Hloop. rewrite build_nonempty in Hloop.
  unfold run_operation. unfold bind at 1. rewrite build_nonempty.
  unfold bind at 1, set_progress_bars. unfold bind at 1, set_errors.
  unfold bind at 1, try_except. now rewrite Hloop.
Qed.

Lemma run_operation_stream_failure ctx events services failure_message
    show_status w err :
  services <> [] ->
  raised events = Some err ->
  forallb (handled services) (yielded events) = true ->
  exists w',
    run_operation TAB str status_project ctx events services failure_message
                  show_status w
    = (Raise (RiptideCliError failure_message err), w') /\
    closed_rows (screen w') = closed_rows (screen (started services w)).
Proof.
  intros Hne Hraised Hall.
  destruct (handle_events_started services (yielded events) w Hne Hall)
    as (w' & Hrun & Hframe & _).
  exists w'. split.
  - apply run_operation_raises; [assumption|].
    unfold async_for, bind. now rewrite Hrun, Hraised.
  - apply (frame_closed _ _ Hframe).
Qed.

Lemma run_operation_unregistered ctx events services failure_message
    show_status w service_name status finished pre post :
  services <> [] ->
  registered service_name services = false ->
  carries_payload status finished = true ->
  yielded events = (pre ++ (service_name, status, finished) :: post)%list ->
  forallb (handled services) pre = true ->
  exists w',
    run_operation TAB str status_project ctx events services failure_message
                  show_status w
    = (Raise (RiptideCliError failure_message (KeyError service_name)), w') /\
    closed_rows (screen w') = closed_rows (screen (started services w)).
Proof.
  intros Hne Hun Hpay Hyield Hall.
  destruct (handle_events_started services pre w Hne Hall)
    as (w1 & Hrun & Hframe & _).
  assert (od_get service_name (progress_bars w1) = None) as Hget.
  { apply od_get_none_keys. rewrite (frame_keys _ _ Hframe).
    intros Hin. apply started_keys in Hin; [|assumption].
    apply registered_in in Hin. congruence. }
  assert (exists w',
             _handle_progress_bar service_name status finished w1
             = (Raise (KeyError service_name), w') /\
             screen w' = screen w1) as (w' & Hev & Hscr).
  { destruct status as [[text current_step steps|message]|], finished;
      try discriminate.
    - eexists. split; [now apply handle_progress_unregistered | reflexivity].
    - eexists. split; [now apply handle_failure_unregistered | reflexivity]. }
  exists w'. split.
  - apply run_operation_raises; [assumption|].
    unfold async_for, bind. rewrite Hyield, handle_events_app, Hrun.
    cbn [handle_events]. unfold bind. now rewrite Hev.
  - rewrite Hscr. apply (frame_closed _ _ Hframe).
Qed.

(** The two lines that a dispatcher writes before it builds the bars close
    no bar. *)
Lemma closed_rows_announced services message w :
  NoDup services ->
  closed_rows
    (screen (started services
               (put_drawn (Echoed "") (put_drawn (Echoed message) w))))
  = closed_rows (screen w).
Proof.
  intros Hnd. rewrite started_closed_rows by assumption.
  cbn. now rewrite !closed_rows_app, !app_nil_r.
Qed.

(** C5.  When the generator of the engine raises, after events that were
    all handled, [start_project] and [stop_project] raise a
    [RiptideCliError] that carries their message and has the exception of
    the generator as its cause; the functions do not return, and no bar is
    closed from the moment the bars are built: the rows closed are those of
    the world in which the [try] statement is entered, which are those of
    the world of the call when no name is given twice. *)
Theorem stream_failure_raises_cli_error
    (ctx : Context) (services : option (list string)) (show_status : bool)
    (w : world) (err : exn)
    (Hne : chosen ctx services <> []) :
  (raised (engine_start_project (engine ctx) (chosen ctx services)) = Some err ->
   forallb (handled (chosen ctx services))
     (yielded (engine_start_project (engine ctx) (chosen ctx services))) = true ->
   exists e w',
     start_project TAB str status_project ctx services show_status w
     = (Raise e, w') /\
     e = RiptideCliError "Error starting the services" err /\
     exn_cause e = Some err /\
     closed_rows (screen w')
     = closed_rows
         (screen (started (chosen ctx services)
                    (put_drawn (Echoed "")
                       (put_drawn (Echoed "Starting services...") w)))) /\
     (NoDup (chosen ctx services) ->
      closed_rows (screen w') = closed_rows (screen w))) /\
  (raised (engine_stop_project (engine ctx) (chosen ctx services)) = Some err ->
   forallb (handled (chosen ctx services))
     (yielded (engine_stop_project (engine ctx) (chosen ctx services))) = true ->
   exists e w',
     stop_project TAB str status_project ctx services show_status w
     = (Raise e, w') /\
     e = RiptideCliError "Error stopping the services" err /\
     exn_cause e = Some err /\
     closed_rows (screen w')
     = closed_rows
         (screen (started (chosen ctx services)
                    (put_drawn (Echoed "")
                       (put_drawn (Echoed "Stopping services...") w)))) /\
     (NoDup (chosen ctx services) ->
      closed_rows (screen w') = closed_rows (screen w))).
Proof.
  split; intros Hraised Hall.
  - rewrite start_project_run.
    destruct (run_operation_stream_failure ctx _ _
                "Error starting the services" show_status
                (put_drawn (Echoed "") (put_drawn (Echoed "Starting services...") w))
                err Hne Hraised Hall) as (w' & Hrun & Hclosed).
    exists (RiptideCliError "Error starting the services" err), w'.
    split; [assumption|]. split; [reflexivity|]. split; [reflexivity|].
    split; [assumption|]. intros Hnd.
    rewrite Hclosed. now apply closed_rows_announced.
  - rewrite stop_project_run.
    destruct (run_operation_stream_failure ctx _ _
                "Error stopping the services" show_status
                (put_drawn (Echoed "") (put_drawn (Echoed "Stopping services...") w))
                err Hne Hraised Hall) as (w' & Hrun & Hclosed).
    exists (RiptideCliError "Error stopping the services" err), w'.
    split; [assumption|]. split; [reflexivity|]. split; [reflexivity|].
    split; [assumption|]. intros Hnd.
    rewrite Hclosed. now apply closed_rows_announced.
Qed.

(** C10, as amended.  An event for a service that has no bar, when it
    carries the status its flag asks for (a failure if finished, a progress
    step if not), makes the handler raise [KeyError] where it looks the bar
    up; [start_project] and [stop_project] wrap it in their
    [RiptideCliError], so the operation is aborted, and no bar is closed
    from the moment the bars are built.  A finished event without a status
    is not concerned: the handler returns without looking any bar up. *)
Theorem unregistered_event_aborts
    (ctx : Context) (services : option (list string)) (show_status : bool)
    (w : world) (service_name : string) (status : option status)
    (finished : bool) (pre post : list event)
    (Hne : chosen ctx services <> [])
    (Hun : registered service_name (chosen ctx services) = false)
    (Hpayload : carries_payload status finished = true)
    (Hpre : forallb (handled (chosen ctx services)) pre = true) :
  (forall w1, od_get service_name (progress_bars w1) = None ->
     fst (_handle_progress_bar service_name status finished w1)
     = Raise (KeyError service_name)) /\
  (forall w1, _handle_progress_bar service_name None true w1 = (Ok tt, w1)) /\
  (yielded (engine_start_project (engine ctx) (chosen ctx services))
   = (pre ++ (service_name, status, finished) :: post)%list ->
   exists w',
     start_project TAB str status_project ctx services show_status w
     = (Raise (RiptideCliError "Error starting the services"
                               (KeyError service_name)), w') /\
     closed_rows (screen w')
     = closed_rows
         (screen (started (chosen ctx services)
                    (put_drawn (Echoed "")
                       (put_drawn (Echoed "Starting services...") w)))) /\
     (NoDup (chosen ctx services) ->
      closed_rows (screen w') = closed_rows (screen w))) /\
  (yielded (engine_stop_project (engine ctx) (chosen ctx services))
   = (pre ++ (service_name, status, finished) :: post)%list ->
   exists w',
     stop_project TAB str status_project ctx services show_status w
     = (Raise (RiptideCliError "Error stopping the services"
                               (KeyError service_name)), w') /\
     closed_rows (screen w')
     = closed_rows
         (screen (started (chosen ctx services)
                    (put_drawn (Echoed "")
                       (put_drawn (Echoed "Stopping services...") w)))) /\
     (NoDup (chosen ctx services) ->
      closed_rows (screen w') = closed_rows (screen w))).
Proof.
  split; [|split; [|split]].
  - intros w1 Hget.
    destruct status as [[text current_step steps|message]|], finished;
      try discriminate.
    + now rewrite handle_progress_unregistered.
    + now rewrite handle_failure_unregistered.
  - reflexivity.
  - intros Hyield. rewrite start_project_run.
    destruct (run_operation_unregistered ctx _ _
                "Error starting the services" show_status
                (put_drawn (Echoed "") (put_drawn (Echoed "Starting services...") w))
                _ _ _ _ _ Hne Hun Hpayload Hyield Hpre) as (w' & Hrun & Hclosed).
    exists w'. split; [assumption|]. split; [assumption|]. intros Hnd.
    rewrite Hclosed. now apply closed_rows_announced.
  - intros Hyield. rewrite stop_project_run.
    destruct (run_operation_unregistered ctx _ _
                "Error stopping the services" show_status
                (put_drawn (Echoed "") (put_drawn (Echoed "Stopping services...") w))
                _ _ _ _ _ Hne Hun Hpayload Hyield Hpre) as (w' & Hrun & Hclosed).
    exists w'. split; [assumption|]. split; [assumption|]. intros Hnd.
    rewrite Hclosed. now apply closed_rows_announced.
Qed.

End DispatcherFacts.

(** ** The example sequences of events *)

(** A conjunction of equations between closed terms, by evaluation. *)
Ltac by_evaluation := vm_compute; reflexivity.

Ltac evaluate :=
  repeat match goal with |- _ /\ _ => split end; by_evaluation.

(** Two progress steps and a finished event for [web]: total 3, counter 3,
    no error. *)
Example web_succeeds :
  exists w bar,
    handle_events
      [("web", Some (InProgress "starting" 0 (Some 3)), false);
       ("web", Some (InProgress "started" 3 (Some 3)), false);
       ("web", None, true)] web_db = (Ok tt, w) /\
    od_get "web" (progress_bars w) = Some bar /\
    Tqdm.total bar = Some 3 /\ Tqdm.n bar = 3 /\ errors w = [].
Proof.
  exists (snd (handle_events
                 [("web", Some (InProgress "starting" 0 (Some 3)), false);
                  ("web", Some (InProgress "started" 3 (Some 3)), false);
                  ("web", None, true)] web_db)).
  exists (after_progress (bound "started" 45) (Some 3) 3
            (after_progress (bound "starting" 45) (Some 3) 0
               (initial_bar 45 3 0 "web"))).
  evaluate.
Qed.

(** A failure of [db]: one record, the line bounded to the width for
    errors. *)
Example db_fails :
  exists w bar,
    handle_events [("db", Some (Failure "connection refused"), true)] web_db
    = (Ok tt, w) /\
    errors w = [{| service := "db"; error := Failure "connection refused" |}] /\
    od_get "db" (progress_bars w) = Some bar /\
    Tqdm.bar_format bar = "{desc}" ++ bound "connection refused" 45.
Proof.
  exists db_failed.
  exists (after_failure (bound "connection refused" 45)
            (initial_bar 45 3 1 "db")).
  evaluate.
Qed.

(** ** The theorems at concrete inputs *)

Lemma progress_step_updates_bar_witness :
  footers_ready (progress_bars web_db) = true /\
  od_get "web" (progress_bars web_db) = Some (initial_bar 45 3 0 "web") /\
  exists r w' bar',
    _handle_progress_bar "web" (Some (InProgress "starting" 2 (Some 3))) false
      web_db = (r, w') /\
    r = outcome (format_error (tqdm_field web_db) bar') /\
    (surely_formats (initial_bar 45 3 0 "web") = true -> r = Ok tt) /\
    od_get "web" (progress_bars w') = Some bar' /\
    nth_error (Tqdm.postfix bar') 0
    = Some (bound "starting" (right_budget web_db)) /\
    (forall s, Some 3 = Some s ->
               Tqdm.total (initial_bar 45 3 0 "web") <> Some s ->
               Tqdm.total bar' = Some s) /\
    (Some 3 = None \/ Some 3 = Tqdm.total (initial_bar 45 3 0 "web") ->
     Tqdm.total bar' = Tqdm.total (initial_bar 45 3 0 "web")) /\
    Tqdm.n bar'
    = Tqdm.n (initial_bar 45 3 0 "web")
      + (2 - Tqdm.n (initial_bar 45 3 0 "web")) /\
    Tqdm.n bar' = 2.
Proof.
  split; [by_evaluation|]. split; [by_evaluation|].
  apply (progress_step_updates_bar "web" "starting" 2 (Some 3) web_db
           (initial_bar 45 3 0 "web")); by_evaluation.
Defined.

Lemma counter_follows_current_step_witness :
  footers_ready (progress_bars web_db) = true /\
  od_get "web" (progress_bars web_db) = Some (initial_bar 45 3 0 "web") /\
  exists bar',
    od_get "web"
      (progress_bars
         (snd (_handle_progress_bar "web"
                 (Some (InProgress "starting" 2 (Some 3))) false web_db)))
    = Some bar' /\
    Tqdm.n bar' = 2 /\
    ((forall text current_step steps,
        false = false ->
        Some (InProgress "starting" 2 (Some 3))
        = Some (InProgress text current_step steps) ->
        Tqdm.n (initial_bar 45 3 0 "web") <= current_step) ->
     Tqdm.n (initial_bar 45 3 0 "web") <= Tqdm.n bar').
Proof.
  split; [by_evaluation|]. split; [by_evaluation|].
  apply (counter_follows_current_step "web"
           (Some (InProgress "starting" 2 (Some 3))) false web_db
           (initial_bar 45 3 0 "web")); by_evaluation.
Defined.

Lemma event_after_finish_is_applied_witness :
  ["web"; "db"] <> [] /\
  handle_events [("db", Some (Failure "connection refused"), true)]
    (started ["web"; "db"] no_terminal) = (Ok tt, db_failed) /\
  terminal_reached "db" [("db", Some (Failure "connection refused"), true)]
  = true /\
  od_get "db" (progress_bars db_failed)
  = Some (after_failure (bound "connection refused" 45)
                        (initial_bar 45 3 1 "db")) /\
  _handle_progress_bar "db" None true db_failed = (Ok tt, db_failed) /\
  (forall message, exists r w',
      _handle_progress_bar "db" (Some (Failure message)) true db_failed
      = (r, w') /\
      (Format.brace_free message = true -> r = Ok tt) /\
      errors w' = (errors db_failed ++ [{| service := "db";
                                           error := Failure message |}])%list /\
      od_get "db" (progress_bars w')
      = Some (after_failure (bound message (error_budget db_failed))
                (after_failure (bound "connection refused" 45)
                               (initial_bar 45 3 1 "db")))) /\
  (forall text current_step steps, exists r w',
      _handle_progress_bar "db"
        (Some (InProgress text current_step steps)) false db_failed
      = (r, w') /\
      (surely_formats (after_failure (bound "connection refused" 45)
                                     (initial_bar 45 3 1 "db")) = true ->
       r = Ok tt) /\
      errors w' = errors db_failed /\
      od_get "db" (progress_bars w')
      = Some (after_progress (bound text (right_budget db_failed)) steps
                current_step
                (after_failure (bound "connection refused" 45)
                               (initial_bar 45 3 1 "db")))) /\
  (forallb (handled ["web"; "db"])
     [("db", Some (Failure "connection refused"), true)] = true ->
   surely_formats (after_failure (bound "connection refused" 45)
                                 (initial_bar 45 3 1 "db")) = true).
Proof.
  split; [discriminate|]. split; [by_evaluation|]. split; [by_evaluation|].
  split; [by_evaluation|].
  apply (event_after_finish_is_applied ["web"; "db"]
           [("db", Some (Failure "connection refused"), true)] "db"
           no_terminal db_failed
           (after_failure (bound "connection refused" 45)
                          (initial_bar 45 3 1 "db")));
    try by_evaluation; discriminate.
Defined.

Lemma build_initial_bar_witness :
  nth_error ["a"; "bcd"] 0 = Some "a" /\
  ~ In "a" (skipn 1 ["a"; "bcd"]) /\
  exists d w' longest,
    _build_progress_bars ["a"; "bcd"] no_terminal = (Ok d, w') /\
    (forall name, In name ["a"; "bcd"] -> Py.len name <= longest) /\
    (exists name, In name ["a"; "bcd"] /\ Py.len name = longest) /\
    od_get "a" d
    = Some {| Tqdm.total := Some 1;
              Tqdm.position := Z.of_nat 0;
              Tqdm.bar_format := "{desc}{n_fmt}/{total_fmt}|{bar}| {postfix[0]}";
              Tqdm.postfix := [Py.ljust "..." (right_budget no_terminal)];
              Tqdm.n := 0;
              Tqdm.description := Py.ljust "a" longest;
              Tqdm.closed := false |}.
Proof.
  assert (~ In "a" (skipn 1 ["a"; "bcd"])) as Hlast
    by (simpl; intros [H|[]]; discriminate).
  split; [by_evaluation|]. split; [exact Hlast|].
  apply (build_initial_bar ["a"; "bcd"] no_terminal 0 "a");
    [by_evaluation | exact Hlast].
Defined.

Lemma bars_in_order_closed_in_reverse_witness :
  ["web"; "db"] <> [] /\ NoDup ["web"; "db"] /\
  exists d w1,
    _build_progress_bars ["web"; "db"] no_terminal = (Ok d, w1) /\
    od_keys d = ["web"; "db"] /\
    map Tqdm.position (od_values d) = rows 2 /\
    created_rows (screen w1) = (created_rows (screen no_terminal) ++ rows 2)%list /\
    forall w2, layout (progress_bars w2) = layout d ->
      exists w3,
        close_bars w2 = (Ok tt, w3) /\
        screen w3 = (screen w2 ++ closing (rev (rows 2)))%list /\
        closed_rows (screen w3) = (closed_rows (screen w2) ++ rev (rows 2))%list /\
        NoDup (rev (rows 2)) /\
        (forall name bar, od_get name (progress_bars w3) = Some bar ->
                          Tqdm.closed bar = true).
Proof.
  assert (NoDup ["web"; "db"]) as Hdistinct.
  { constructor; [simpl; intros [H|[]]; discriminate|].
    constructor; [simpl; tauto | constructor]. }
  split; [discriminate|]. split; [exact Hdistinct|].
  apply (bars_in_order_closed_in_reverse ["web"; "db"] no_terminal);
    [discriminate | exact Hdistinct].
Defined.

Lemma stream_failure_raises_cli_error_witness :
  chosen (project_on failing_stream) None <> [] /\
  raised failing_stream = Some (EngineError "engine stopped") /\
  forallb (handled ["web"; "db"]) (yielded failing_stream) = true /\
  (exists e w',
      start_project four_spaces str_of_status no_report
        (project_on failing_stream) None true no_terminal = (Raise e, w') /\
      e = RiptideCliError "Error starting the services"
            (EngineError "engine stopped") /\
      exn_cause e = Some (EngineError "engine stopped") /\
      closed_rows (screen w')
      = closed_rows
          (screen (started ["web"; "db"]
                     (put_drawn (Echoed "")
                        (put_drawn (Echoed "Starting services...")
                                   no_terminal)))) /\
      (NoDup ["web"; "db"] ->
       closed_rows (screen w') = closed_rows (screen no_terminal))) /\
  (exists e w',
      stop_project four_spaces str_of_status no_report
        (project_on failing_stream) None true no_terminal = (Raise e, w') /\
      e = RiptideCliError "Error stopping the services"
            (EngineError "engine stopped") /\
      exn_cause e = Some (EngineError "engine stopped") /\
      closed_rows (screen w')
      = closed_rows
          (screen (started ["web"; "db"]
                     (put_drawn (Echoed "")
                        (put_drawn (Echoed "Stopping services...")
                                   no_terminal)))) /\
      (NoDup ["web"; "db"] ->
       closed_rows (screen w') = closed_rows (screen no_terminal))).
Proof.
  assert (chosen (project_on failing_stream) None <> []) as Hne
    by discriminate.
  split; [exact Hne|]. split; [by_evaluation|]. split; [by_evaluation|].
  destruct (stream_failure_raises_cli_error four_spaces str_of_status no_report
              (project_on failing_stream) None true no_terminal
              (EngineError "engine stopped") Hne) as [Hstart Hstop].
  split; [apply Hstart | apply Hstop]; by_evaluation.
Defined.

Lemma unregistered_event_aborts_witness :
  chosen (project_on ghost_failure_stream) None <> [] /\
  registered "ghost" ["web"; "db"] = false /\
  carries_payload (Some (Failure "no such service")) true = true /\
  forallb (handled ["web"; "db"])
    [("web", Some (InProgress "starting" 0 (Some 3)), false)] = true /\
  (forall w1, od_get "ghost" (progress_bars w1) = None ->
     fst (_handle_progress_bar "ghost" (Some (Failure "no such service")) true w1)
     = Raise (KeyError "ghost")) /\
  (forall w1, _handle_progress_bar "ghost" None true w1 = (Ok tt, w1)) /\
  (exists w',
      start_project four_spaces str_of_status no_report
        (project_on ghost_failure_stream) None true no_terminal
      = (Raise (RiptideCliError "Error starting the services"
                                (KeyError "ghost")), w') /\
      closed_rows (screen w')
      = closed_rows
          (screen (started ["web"; "db"]
                     (put_drawn (Echoed "")
                        (put_drawn (Echoed "Starting services...")
                                   no_terminal)))) /\
      (NoDup ["web"; "db"] ->
       closed_rows (screen w') = closed_rows (screen no_terminal))) /\
  (exists w',
      stop_project four_spaces str_of_status no_report
        (project_on ghost_failure_stream) None true no_terminal
      = (Raise (RiptideCliError "Error stopping the services"
                                (KeyError "ghost")), w') /\
      closed_rows (screen w')
      = closed_rows
          (screen (started ["web"; "db"]
                     (put_drawn (Echoed "")
                        (put_drawn (Echoed "Stopping services...")
                                   no_terminal)))) /\
      (NoDup ["web"; "db"] ->
       closed_rows (screen w') = closed_rows (screen no_terminal))).
Proof.
  assert (chosen (project_on ghost_failure_stream) None <> []) as Hne
    by discriminate.
  split; [exact Hne|]. split; [by_evaluation|]. split; [by_evaluation|].
  split; [by_evaluation|].
  destruct (unregistered_event_aborts four_spaces str_of_status no_report
              (project_on ghost_failure_stream) None true no_terminal
              "ghost" (Some (Failure "no such service")) true
              [("web", Some (InProgress "starting" 0 (Some 3)), false)] []
              Hne eq_refl eq_refl eq_refl)
    as (Hhandler & Hsuccess & Hstart & Hstop).
  split; [exact Hhandler|]. split; [exact Hsuccess|].
  split; [apply Hstart | apply Hstop]; by_evaluation.
Defined.

(** ** Where the claims as stated fail *)

(** C3: the exception of an empty sequence is the [ValueError] of [max],
    raised by the computation of the longest name; no class of the name
    [ConfigurationError] is involved. *)
Lemma build_empty_not_ConfigurationError :
  exists e,
    fst (_build_progress_bars [] no_terminal) = Raise e /\
    fst (longest_name_len [] no_terminal) = Raise e /\
    exn_class e = "ValueError" /\
    exn_class e <> "ConfigurationError".
Proof.
  exists (ValueError "max() arg is an empty sequence").
  repeat (split; [by_evaluation|]). discriminate.
Qed.

(** C7: on a terminal without columns and with the names [a, bcd, a], the
    bar of [a] has total 1 and not an unknown total; its description is [a]
    followed by two spaces, not preceded by them; its position is 2 though
    [a] is at index 0; its footer is the three dots, longer than the width
    of 0. *)
Lemma initial_bar_differs :
  exists d w' bar,
    _build_progress_bars ["a"; "bcd"; "a"] no_columns = (Ok d, w') /\
    od_get "a" d = Some bar /\
    Tqdm.total bar = Some 1 /\ Tqdm.total bar <> None /\
    Tqdm.description bar = "a  " /\ Tqdm.description bar <> Py.rjust "a" 3 /\
    nth_error ["a"; "bcd"; "a"] 0 = Some "a" /\ Tqdm.position bar = 2 /\
    Tqdm.postfix bar = ["..."] /\ right_budget no_columns = 0 /\
    Py.len "..." <> right_budget no_columns.
Proof.
  exists (fill 0 3 ["a"; "bcd"; "a"] 0 []).
  exists (snd (_build_progress_bars ["a"; "bcd"; "a"] no_columns)).
  exists (initial_bar 0 3 2 "a").
  split; [by_evaluation|]. split; [by_evaluation|]. split; [by_evaluation|].
  split; [discriminate|]. split; [by_evaluation|].
  split; [vm_compute; discriminate|].
  split; [by_evaluation|]. split; [by_evaluation|]. split; [by_evaluation|].
  split; [by_evaluation | vm_compute; discriminate].
Qed.

(** C8: a progress step with [current_step] 3 followed by one with
    [current_step] 1 takes the counter of [web] from 3 back to 1. *)
Lemma counter_regresses :
  exists w1 w2 bar1 bar2,
    _handle_progress_bar "web" (Some (InProgress "pulling" 3 (Some 3))) false
      web_db = (Ok tt, w1) /\
    _handle_progress_bar "web" (Some (InProgress "starting" 1 (Some 3))) false
      w1 = (Ok tt, w2) /\
    od_get "web" (progress_bars w1) = Some bar1 /\
    od_get "web" (progress_bars w2) = Some bar2 /\
    Tqdm.n bar1 = 3 /\ Tqdm.n bar2 = 1 /\ Tqdm.n bar2 < Tqdm.n bar1.
Proof.
  exists (snd (handle_events
                 [("web", Some (InProgress "pulling" 3 (Some 3)), false)]
                 web_db)).
  exists (snd (handle_events
                 [("web", Some (InProgress "pulling" 3 (Some 3)), false);
                  ("web", Some (InProgress "starting" 1 (Some 3)), false)]
                 web_db)).
  exists (after_progress (bound "pulling" 45) (Some 3) 3
            (initial_bar 45 3 0 "web")).
  exists (after_progress (bound "starting" 45) (Some 3) 1
            (after_progress (bound "pulling" 45) (Some 3) 3
               (initial_bar 45 3 0 "web"))).
  repeat (split; [by_evaluation|]). by_evaluation.
Qed.

(** C9: after [db] was reported as failed, a second failure of [db] is not
    ignored: the errors go from one record to two and the line of the bar
    changes. *)
Lemma event_after_failure_not_ignored :
  exists w' bar bar',
    terminal_reached "db" [("db", Some (Failure "connection refused"), true)]
    = true /\
    _handle_progress_bar "db" (Some (Failure "again")) true db_failed
    = (Ok tt, w') /\
    List.length (errors db_failed) = 1%nat /\
    List.length (errors w') = 2%nat /\
    od_get "db" (progress_bars db_failed) = Some bar /\
    od_get "db" (progress_bars w') = Some bar' /\
    bar' <> bar.
Proof.
  exists (snd (_handle_progress_bar "db" (Some (Failure "again")) true
                 db_failed)).
  exists (after_failure (bound "connection refused" 45)
            (initial_bar 45 3 1 "db")).
  exists (after_failure (bound "again" 45)
            (after_failure (bound "connection refused" 45)
               (initial_bar 45 3 1 "db"))).
  repeat (split; [by_evaluation|]). vm_compute. discriminate.
Qed.

(** C10: a finished event without a status for [ghost], a service without a
    bar, raises nothing: the handler returns, and [start_project] runs to
    its end and closes the bars. *)
Lemma unregistered_success_is_ignored :
  od_get "ghost" (progress_bars web_db) = None /\
  _handle_progress_bar "ghost" None true web_db = (Ok tt, web_db) /\
  exists w',
    start_project four_spaces str_of_status no_report
      (project_on ghost_success_stream) None false no_terminal = (Ok tt, w') /\
    closed_rows (screen w') = [1; 0].
Proof.
  split; [by_evaluation|]. split; [by_evaluation|].
  exists (snd (start_project four_spaces str_of_status no_report
                 (project_on ghost_success_stream) None false no_terminal)).
  split; by_evaluation.
Qed.

(** * Further properties *)

(** ** The text-bounding expression at any width *)

(** X1.  At every width, negative ones included, the bounded text has
    [width] characters when the width is at least 3; below that it has
    three characters, or the length of the text plus the width when that is
    more: it is never shorter than the three dots. *)
Theorem bound_length_any_width (text : string) (width : Z) :
  Py.len (bound text width)
  = if 3 <=? width then width else Z.max 3 (Py.len text + width).
Proof.
  destruct (Z.leb_spec 3 width) as [Hwide|Hnarrow].
  - destruct (Z.le_gt_cases (Py.len text) (width - 3)) as [Hshort|Hlong].
    + rewrite bound_short by assumption.
      rewrite PyFacts.len_append, PyFacts.len_spaces. lia.
    + rewrite bound_long by lia.
      rewrite PyFacts.len_append, PyFacts.len_take.
      change (Py.len "...") with 3. lia.
  - unfold bound.
    pose proof (Nat2Z.is_nonneg (String.length text)) as Hlen.
    fold (Py.len text) in Hlen.
    destruct (Z.gtb_spec (Py.len text) (width - 3)) as [_|Hle]; [|lia].
    rewrite PyFacts.len_append. change (Py.len "...") with 3.
    unfold Py.slice_to.
    destruct (Z.ltb_spec (width - 3) 0) as [_|Hge]; [|lia].
    rewrite PyFacts.len_take. lia.
Qed.

(** ** One event *)

(** X2.  Whatever the event, and whether the handler returns or raises, on
    bars that have their footers: the widths of the terminal stay, every
    service keeps its entry and its row, every bar keeps a footer, no bar is
    closed, and the list of errors only grows at its end. *)
Theorem handler_keeps_the_board
    (service_name : string) (status : option status) (finished : bool)
    (w : world)
    (Hboard : footers_ready (progress_bars w) = true) :
  terminal (snd (_handle_progress_bar service_name status finished w))
  = terminal w /\
  layout (progress_bars (snd (_handle_progress_bar service_name status finished w)))
  = layout (progress_bars w) /\
  footers_ready
    (progress_bars (snd (_handle_progress_bar service_name status finished w)))
  = true /\
  closed_rows (screen (snd (_handle_progress_bar service_name status finished w)))
  = closed_rows (screen w) /\
  exists more,
    errors (snd (_handle_progress_bar service_name status finished w))
    = (errors w ++ more)%list.
Proof.
  destruct (handle_frame service_name status finished w Hboard)
    as [Hterm Hfields Hlay Hfoot Hclosed Herr].
  auto.
Qed.

Lemma outcome_ok err : outcome err = Ok tt <-> err = None.
Proof. destruct err; cbn; split; intros H; congruence. Qed.

(** X3.  On bars that have their footers the handler returns in three
    cases and raises in every other: for a finished event without a status;
    for a finished failure of a service that has a bar, when the line made
    of the bounded message formats; for an unfinished progress step of a
    service that has a bar, when the bar formats with its new footer.  The
    events of [handled] are among them when every bar is sure to format. *)
Theorem handler_returns_iff
    (service_name : string) (status : option status) (finished : bool)
    (w : world)
    (Hboard : footers_ready (progress_bars w) = true) :
  (fst (_handle_progress_bar service_name status finished w) = Ok tt
   <-> (status = None /\ finished = true)
       \/ (exists message bar,
              status = Some (Failure message) /\ finished = true /\
              od_get service_name (progress_bars w) = Some bar /\
              format_error (tqdm_field w)
                (after_failure (bound message (error_budget w)) bar) = None)
       \/ (exists text current_step steps bar,
              status = Some (InProgress text current_step steps) /\
              finished = false /\
              od_get service_name (progress_bars w) = Some bar /\
              format_error (tqdm_field w)
                (after_progress (bound text (right_budget w)) steps
                                current_step bar) = None)) /\
  (formats_ready (progress_bars w) = true ->
   handled (od_keys (progress_bars w)) (service_name, status, finished) = true ->
   fst (_handle_progress_bar service_name status finished w) = Ok tt) /\
  (rejected (od_keys (progress_bars w)) (service_name, status, finished) = true ->
   exists e,
     fst (_handle_progress_bar service_name status finished w) = Raise e).
Proof.
  split; [|split].
  - destruct finished, status as [[text current_step steps|message]|].
    + rewrite handle_finished_step. cbn [fst]. split; [discriminate|].
      intros [[H _]|[(m & b & H & _)|(t & c & s & b & _ & H & _)]];
        discriminate.
    + destruct (od_get service_name (progress_bars w)) as [bar|] eqn:Hget.
      * rewrite (handle_failure _ _ _ _ Hget). cbn [fst].
        rewrite outcome_ok. split.
        -- intros Hfmt. right. left. exists message, bar. auto.
        -- intros [[H _]|[(m & b & H & _ & Hb & Hfmt)|(t & c & s & b & H & _)]];
             try discriminate.
           injection H as <-. injection Hb as <-. exact Hfmt.
      * rewrite (handle_failure_unregistered _ _ _ Hget). cbn [fst].
        split; [discriminate|].
        intros [[H _]|[(m & b & _ & _ & Hb & _)|(t & c & s & b & H & _)]];
          discriminate.
    + rewrite handle_success. cbn [fst]. split; [auto | reflexivity].
    + destruct (od_get service_name (progress_bars w)) as [bar|] eqn:Hget.
      * rewrite (handle_progress _ _ _ _ _ _ Hget
                   (od_get_footer _ _ _ Hboard Hget)). cbn [fst].
        rewrite outcome_ok. split.
        -- intros Hfmt. right. right.
           exists text, current_step, steps, bar. auto.
        -- intros [[H _]|[(m & b & H & _)|(t & c & s & b & H & _ & Hb & Hfmt)]];
             try discriminate.
           injection H as <- <- <-. injection Hb as <-. exact Hfmt.
      * rewrite (handle_progress_unregistered _ _ _ _ _ Hget). cbn [fst].
        split; [discriminate|].
        intros [[H _]|[(m & b & H & _)|(t & c & s & b & _ & _ & Hb & _)]];
          discriminate.
    + rewrite handle_unfinished_failure. cbn [fst]. split; [discriminate|].
      intros [[_ H]|[(m & b & _ & H & _)|(t & c & s & b & H & _)]];
        discriminate.
    + rewrite handle_unfinished_none. cbn [fst]. split; [discriminate|].
      intros [[_ H]|[(m & b & H & _)|(t & c & s & b & H & _)]];
        discriminate.
  - intros Hfmt Hh. now apply handled_returns.
  - apply rejected_raises.
Qed.

(** X4.  An event on which the handler raises draws nothing, and when the
    event is finished and has a status its record is in the list of errors
    all the same, appended before the exception.  Either no bar is changed
    and the exception is a [KeyError] with the name of the service or an
    [AttributeError]; or the service has a bar, the event carries the status
    that its flag asks for, the bar was changed as for an event that
    returns, and the exception is the one that formatting the changed bar
    raises. *)
Theorem raising_event_leaves_the_screen
    (service_name : string) (status : option status) (finished : bool)
    (w : world) (e : exn)
    (Hboard : footers_ready (progress_bars w) = true)
    (Hraise : fst (_handle_progress_bar service_name status finished w) = Raise e) :
  screen (snd (_handle_progress_bar service_name status finished w)) = screen w /\
  errors (snd (_handle_progress_bar service_name status finished w))
  = (errors w ++ match status, finished with
                 | Some st, true => [{| service := service_name; error := st |}]
                 | _, _ => []
                 end)%list /\
  ((progress_bars (snd (_handle_progress_bar service_name status finished w))
    = progress_bars w /\
    (e = KeyError service_name \/ exists attr, e = AttributeError attr))
   \/ exists bar bar',
        od_get service_name (progress_bars w) = Some bar /\
        carries_payload status finished = true /\
        progress_bars (snd (_handle_progress_bar service_name status finished w))
        = od_set service_name bar' (progress_bars w) /\
        bar' = match status with
               | Some (Failure message) =>
                   after_failure (bound message (error_budget w)) bar
               | Some (InProgress text current_step steps) =>
                   after_progress (bound text (right_budget w)) steps
                                  current_step bar
               | None => bar
               end /\
        format_error (tqdm_field w) bar' = Some e).
Proof.
  destruct finished, status as [[text current_step steps|message]|].
  - rewrite handle_finished_step in *. cbn in *. injection Hraise as <-.
    repeat split; eauto.
  - destruct (od_get service_name (progress_bars w)) as [bar|] eqn:Hget.
    + rewrite (handle_failure _ _ _ _ Hget) in *. cbn [fst snd] in *.
      destruct (format_error (tqdm_field w) _) as [e'|] eqn:Hfmt;
        [|discriminate].
      cbn in Hraise. injection Hraise as <-.
      cbn [screen errors progress_bars redrawn]. rewrite app_nil_r.
      split; [reflexivity|]. split; [reflexivity|]. right.
      exists bar. eexists. repeat split; eauto.
    + rewrite (handle_failure_unregistered _ _ _ Hget) in *. cbn in *.
      injection Hraise as <-. repeat split; auto.
  - rewrite handle_success in Hraise. discriminate.
  - destruct (od_get service_name (progress_bars w)) as [bar|] eqn:Hget.
    + rewrite (handle_progress _ _ _ _ _ _ Hget (od_get_footer _ _ _ Hboard Hget))
        in *. cbn [fst snd] in *.
      destruct (format_error (tqdm_field w) _) as [e'|] eqn:Hfmt;
        [|discriminate].
      cbn in Hraise. injection Hraise as <-.
      cbn [screen errors progress_bars redrawn]. rewrite !app_nil_r.
      split; [reflexivity|]. split; [reflexivity|]. right.
      exists bar. eexists. repeat split; eauto.
    + rewrite (handle_progress_unregistered _ _ _ _ _ Hget) in *. cbn in *.
      injection Hraise as <-. rewrite app_nil_r. repeat split; auto.
  - rewrite handle_unfinished_failure in *. cbn in *. injection Hraise as <-.
    rewrite app_nil_r. repeat split; eauto.
  - rewrite handle_unfinished_none in *. cbn in *. injection Hraise as <-.
    rewrite app_nil_r. repeat split; eauto.
Qed.

(** X16.  A finished event with a failure, for a service that has a bar,
    lines 52-59: whether the handler returns or raises, one record is
    appended to the errors and the line of the bar becomes the message
    bounded to what [text_width_error()] gives; the handler ends as the
    redraw of line 59 ends, and it returns when the message has no
    brace. *)
Theorem failure_event_appends_record
    (service_name message : string) (w : world) (bar : Tqdm.t)
    (Hreg : od_get service_name (progress_bars w) = Some bar) :
  exists r w',
    _handle_progress_bar service_name (Some (Failure message)) true w
    = (r, w') /\
    r = outcome (format_error (tqdm_field w)
                   (after_failure (bound message (error_budget w)) bar)) /\
    (Format.brace_free message = true -> r = Ok tt) /\
    errors w' = (errors w ++ [{| service := service_name;
                                 error := Failure message |}])%list /\
    od_get service_name (progress_bars w')
    = Some (after_failure (bound message (error_budget w)) bar) /\
    Tqdm.bar_format (after_failure (bound message (error_budget w)) bar)
    = "{desc}" ++ bound message (error_budget w).
Proof.
  eexists. eexists.
  split; [apply (handle_failure _ _ _ _ Hreg)|].
  split; [reflexivity|]. split.
  { intros Hfree.
    now rewrite (surely_formats_sound _ _
                   (surely_formats_after_failure message _ bar Hfree)). }
  cbn [errors progress_bars]. split; [reflexivity|].
  split; [apply od_get_set_same | reflexivity].
Qed.

(** ** A run of events *)

Lemma budgets_frame w w' :
  frame w w' ->
  right_budget w' = right_budget w /\ error_budget w' = error_budget w.
Proof.
  intros H. unfold right_budget, error_budget.
  now rewrite (frame_terminal _ _ H).
Qed.

(** What one handled event does to the bar of any service. *)
Lemma handled_event_bar service_name status finished w name :
  footers_ready (progress_bars w) = true ->
  handled (od_keys (progress_bars w)) (service_name, status, finished) = true ->
  od_get name
    (progress_bars (snd (_handle_progress_bar service_name status finished w)))
  = option_map
      (fun bar => apply_event (right_budget w) (error_budget w) name bar
                    (service_name, status, finished))
      (od_get name (progress_bars w)).
Proof.
  intros Hboard Hh. unfold handled in Hh.
  destruct finished, status as [[text current_step steps|message]|];
    try discriminate.
  - apply andb_true_iff in Hh as [Hh _].
    apply registered_get in Hh as [bar Hget].
    rewrite (handle_failure _ _ _ _ Hget). cbn [snd progress_bars apply_event].
    destruct (String.eqb_spec service_name name) as [->|Hne].
    + now rewrite od_get_set_same, Hget.
    + rewrite od_get_set_other by assumption.
      now destruct (od_get name (progress_bars w)).
  - rewrite handle_success. cbn [snd apply_event].
    now destruct (od_get name (progress_bars w)).
  - apply registered_get in Hh as [bar Hget].
    rewrite (handle_progress _ _ _ _ _ _ Hget (od_get_footer _ _ _ Hboard Hget)).
    cbn [snd progress_bars apply_event].
    destruct (String.eqb_spec service_name name) as [->|Hne].
    + now rewrite od_get_set_same, Hget.
    + rewrite od_get_set_other by assumption.
      now destruct (od_get name (progress_bars w)).
Qed.

(** What one handled event does to the list of errors. *)
Lemma handled_event_errors service_name status finished w :
  footers_ready (progress_bars w) = true ->
  handled (od_keys (progress_bars w)) (service_name, status, finished) = true ->
  errors (snd (_handle_progress_bar service_name status finished w))
  = (errors w ++ failures [(service_name, status, finished)])%list.
Proof.
  intros Hboard Hh. unfold handled in Hh.
  destruct finished, status as [[text current_step steps|message]|];
    try discriminate.
  - apply andb_true_iff in Hh as [Hh _].
    apply registered_get in Hh as [bar Hget].
    now rewrite (handle_failure _ _ _ _ Hget).
  - rewrite handle_success. cbn. now rewrite app_nil_r.
  - apply registered_get in Hh as [bar Hget].
    rewrite (handle_progress _ _ _ _ _ _ Hget (od_get_footer _ _ _ Hboard Hget)).
    cbn. now rewrite app_nil_r.
Qed.

Lemma handle_events_cons_handled service_name status finished rest w :
  footers_ready (progress_bars w) = true ->
  formats_ready (progress_bars w) = true ->
  handled (od_keys (progress_bars w)) (service_name, status, finished) = true ->
  handle_events ((service_name, status, finished) :: rest) w
  = handle_events rest
      (snd (_handle_progress_bar service_name status finished w)).
Proof.
  intros Hboard Hfmt Hh. cbn [handle_events]. unfold bind.
  pose proof (handled_returns w service_name status finished Hboard Hfmt Hh)
    as Hok.
  destruct (_handle_progress_bar service_name status finished w) as [r w1].
  cbn in *. now subst r.
Qed.

Lemma failures_cons ev rest :
  failures (ev :: rest) = (failures [ev] ++ failures rest)%list.
Proof.
  destruct ev as [[name [[text current_step steps|message]|]] [|]]; reflexivity.
Qed.

Lemma bar_after_events_run items w service_name :
  footers_ready (progress_bars w) = true ->
  formats_ready (progress_bars w) = true ->
  forallb (handled (od_keys (progress_bars w))) items = true ->
  od_get service_name (progress_bars (snd (handle_events items w)))
  = option_map
      (fun bar =>
         fold_left (apply_event (right_budget w) (error_budget w) service_name)
                   items bar)
      (od_get service_name (progress_bars w)).
Proof.
  revert w.
  induction items as [|[[name status] finished] rest IH];
    intros w Hboard Hfmt Hall.
  - cbn. now destruct (od_get service_name (progress_bars w)).
  - cbn [forallb] in Hall. apply andb_true_iff in Hall as [Hev Hrest].
    rewrite (handle_events_cons_handled _ _ _ _ _ Hboard Hfmt Hev).
    pose proof (handle_frame name status finished w Hboard) as Hframe.
    destruct (budgets_frame _ _ Hframe) as [Hright Herror].
    rewrite IH.
    + rewrite Hright, Herror.
      rewrite (handled_event_bar _ _ _ _ service_name Hboard Hev).
      now destruct (od_get service_name (progress_bars w)).
    + apply Hframe.
    + now apply handled_formats.
    + now rewrite (frame_keys _ _ Hframe).
Qed.

Lemma total_after_progress_given footer steps current_step bar :
  Tqdm.total (after_progress footer steps current_step bar)
  = match steps with
    | Some s => Some s
    | None => Tqdm.total bar
    end.
Proof.
  rewrite total_after_progress. unfold total_differs.
  destruct steps as [s|]; [|reflexivity].
  destruct (Tqdm.total bar) as [t|]; [|reflexivity].
  destruct (Z.eqb_spec t s); [now subst | reflexivity].
Qed.

Lemma apply_event_bar tw_right tw_error service_name bar ev :
  Tqdm.n (apply_event tw_right tw_error service_name bar ev)
  = last_step service_name [ev] (Tqdm.n bar) /\
  Tqdm.total (apply_event tw_right tw_error service_name bar ev)
  = last_total service_name [ev] (Tqdm.total bar) /\
  Tqdm.position (apply_event tw_right tw_error service_name bar ev)
  = Tqdm.position bar /\
  Tqdm.description (apply_event tw_right tw_error service_name bar ev)
  = Tqdm.description bar.
Proof.
  destruct ev as [[name status] finished].
  unfold apply_event, last_step, last_total. cbn [fold_left].
  destruct status as [[text current_step steps|message]|], finished;
    try (repeat split; reflexivity);
    destruct (String.eqb name service_name);
    try (repeat split; reflexivity);
    try (destruct steps; repeat split; reflexivity).
  rewrite n_after_progress, total_after_progress_given,
    position_after_progress.
  split; [lia|]. split; [reflexivity|]. split; [reflexivity|].
  unfold after_progress. cbv zeta. destruct (total_differs _ _); reflexivity.
Qed.

Lemma replayed_bar tw_right tw_error service_name items bar :
  Tqdm.n (fold_left (apply_event tw_right tw_error service_name) items bar)
  = last_step service_name items (Tqdm.n bar) /\
  Tqdm.total (fold_left (apply_event tw_right tw_error service_name) items bar)
  = last_total service_name items (Tqdm.total bar) /\
  Tqdm.position (fold_left (apply_event tw_right tw_error service_name) items bar)
  = Tqdm.position bar /\
  Tqdm.description (fold_left (apply_event tw_right tw_error service_name) items bar)
  = Tqdm.description bar.
Proof.
  revert bar. induction items as [|ev rest IH]; intros bar.
  - cbn. auto.
  - cbn [fold_left].
    destruct (IH (apply_event tw_right tw_error service_name bar ev))
      as (Hn & Ht & Hp & Hd).
    destruct (apply_event_bar tw_right tw_error service_name bar ev)
      as (Hn1 & Ht1 & Hp1 & Hd1).
    rewrite Hn, Ht, Hp, Hd, Hn1, Ht1, Hp1, Hd1.
    repeat split; reflexivity.
Qed.

(** X6.  After a run of events of [handled], on bars that format, the
    counter of a service is the [current_step] of its last progress step,
    and its total the last [steps] that a progress step of it gave (both as
    before the run if there was none); its row and its description are as
    before. *)
Theorem counter_after_events
    (items : list event) (w : world) (service_name : string) (bar : Tqdm.t)
    (Hboard : footers_ready (progress_bars w) = true)
    (Hformats : formats_ready (progress_bars w) = true)
    (Hall : forallb (handled (od_keys (progress_bars w))) items = true)
    (Hreg : od_get service_name (progress_bars w) = Some bar) :
  fst (handle_events items w) = Ok tt /\
  exists bar',
    od_get service_name (progress_bars (snd (handle_events items w)))
    = Some bar' /\
    Tqdm.n bar' = last_step service_name items (Tqdm.n bar) /\
    Tqdm.total bar' = last_total service_name items (Tqdm.total bar) /\
    Tqdm.position bar' = Tqdm.position bar /\
    Tqdm.description bar' = Tqdm.description bar.
Proof.
  split; [now apply handle_events_returns|].
  eexists. split.
  - rewrite (bar_after_events_run items w service_name Hboard Hformats Hall),
      Hreg.
    reflexivity.
  - apply replayed_bar.
Qed.

Lemma errors_after_events_run items w :
  footers_ready (progress_bars w) = true ->
  formats_ready (progress_bars w) = true ->
  forallb (handled (od_keys (progress_bars w))) items = true ->
  errors (snd (handle_events items w)) = (errors w ++ failures items)%list.
Proof.
  revert w.
  induction items as [|[[name status] finished] rest IH];
    intros w Hboard Hfmt Hall.
  - cbn. now rewrite app_nil_r.
  - cbn [forallb] in Hall. apply andb_true_iff in Hall as [Hev Hrest].
    rewrite (handle_events_cons_handled _ _ _ _ _ Hboard Hfmt Hev).
    pose proof (handle_frame name status finished w Hboard) as Hframe.
    rewrite IH;
      [| apply Hframe | now apply handled_formats
       | now rewrite (frame_keys _ _ Hframe)].
    rewrite (handled_event_errors _ _ _ _ Hboard Hev).
    rewrite (failures_cons _ rest). now rewrite app_assoc.
Qed.

(** X7.  After a run of events of [handled], on bars that format, the
    handler has raised for none of them and the list of errors is the list
    before, followed by one record for each finished failure of the run, in
    the order in which the failures arrived; progress steps and finished
    events without a status add nothing. *)
Theorem errors_after_events
    (items : list event) (w : world)
    (Hboard : footers_ready (progress_bars w) = true)
    (Hformats : formats_ready (progress_bars w) = true)
    (Hall : forallb (handled (od_keys (progress_bars w))) items = true) :
  fst (handle_events items w) = Ok tt /\
  errors (snd (handle_events items w)) = (errors w ++ failures items)%list.
Proof.
  split; [now apply handle_events_returns|].
  revert w Hboard Hformats Hall.
  induction items as [|[[name status] finished] rest IH];
    intros w Hboard Hfmt Hall.
  - cbn. now rewrite app_nil_r.
  - cbn [forallb] in Hall. apply andb_true_iff in Hall as [Hev Hrest].
    rewrite (handle_events_cons_handled _ _ _ _ _ Hboard Hfmt Hev).
    pose proof (handle_frame name status finished w Hboard) as Hframe.
    rewrite IH;
      [| apply Hframe | now apply handled_formats
       | now rewrite (frame_keys _ _ Hframe)].
    rewrite (handled_event_errors _ _ _ _ Hboard Hev).
    rewrite (failures_cons _ rest). now rewrite app_assoc.
Qed.

(** ** The bars of any sequence of names *)

Lemma od_set_keys_NoDup k v d :
  NoDup (od_keys d) -> NoDup (od_keys (od_set k v d)).
Proof.
  induction d as [|[k0 v0] d IH]; simpl; intros Hnd.
  - constructor; [intros [] | constructor].
  - inversion Hnd as [|? ? Hk0 Hd]; subst.
    destruct (String.eqb_spec k k0) as [->|Hk]; simpl.
    + now constructor.
    + constructor; [|now apply IH].
      intros Hin. apply od_set_keys_in in Hin as [->|Hin]; [congruence|].
      contradiction.
Qed.

Lemma fill_keys_NoDup tw longest services i d :
  NoDup (od_keys d) -> NoDup (od_keys (fill tw longest services i d)).
Proof.
  revert i d. induction services as [|name rest IH]; intros i d Hnd; simpl.
  - assumption.
  - apply IH. now apply od_set_keys_NoDup.
Qed.

(** Assigning to a key that is present exchanges one bar for another. *)
Lemma od_set_values_replaced k v old d :
  od_get k d = Some old ->
  Permutation (old :: od_values (od_set k v d)) (v :: od_values d).
Proof.
  unfold od_values.
  induction d as [|[k0 v0] d IH]; cbn [od_get od_set map snd]; [discriminate|].
  destruct (String.eqb k k0).
  - intros [= ->]. cbn [map snd]. apply perm_swap.
  - intros Hget. cbn [map snd].
    apply perm_trans with (v0 :: old :: map snd (od_set k v d));
      [apply perm_swap|].
    apply perm_trans with (v0 :: v :: map snd d);
      [apply perm_skip; now apply IH | apply perm_swap].
Qed.

(** The bars that the loop closes are those that it drops from the
    dictionary: the rows closed and the rows kept are together the rows of
    the dictionary before and the rows of the bars created. *)
Lemma build_closed_rows tw longest services : forall i d,
  Permutation
    (closed_rows (build_screen tw longest services i d)
     ++ map Tqdm.position (od_values (fill tw longest services i d)))
    (map Tqdm.position (od_values d)
     ++ rows_from i (List.length services)).
Proof.
  induction services as [|name rest IH]; intros i d;
    cbn [build_screen fill rows_from List.length].
  - cbn. now rewrite app_nil_r.
  - specialize (IH (i + 1) (od_set name (initial_bar tw longest i name) d)).
    cbn [app closed_rows]. rewrite !closed_rows_app.
    destruct (od_get name d) as [replaced|] eqn:Hget.
    + cbn [closed_rows app].
      apply perm_trans
        with (Tqdm.position replaced
              :: map Tqdm.position
                   (od_values (od_set name (initial_bar tw longest i name) d))
                 ++ rows_from (i + 1) (List.length rest))%list;
        [now apply perm_skip|].
      rewrite app_comm_cons.
      apply perm_trans
        with ((i :: map Tqdm.position (od_values d))
              ++ rows_from (i + 1) (List.length rest))%list.
      * apply Permutation_app_tail.
        change (Tqdm.position replaced
                :: map Tqdm.position
                     (od_values (od_set name (initial_bar tw longest i name) d)))
          with (map Tqdm.position
                  (replaced
                   :: od_values (od_set name (initial_bar tw longest i name) d))).
        change (i :: map Tqdm.position (od_values d))
          with (map Tqdm.position
                  (initial_bar tw longest i name :: od_values d)).
        apply Permutation_map. now apply od_set_values_replaced.
      * cbn [app]. apply Permutation_middle.
    + cbn [closed_rows app].
      rewrite (od_set_absent _ _ _ Hget) in IH |- *.
      unfold od_values in IH |- *. rewrite !map_app in IH.
      cbn [map snd] in IH. rewrite <- app_assoc in IH. exact IH.
Qed.

(** X8.  For every non-empty sequence of names, repeated names included,
    [_build_progress_bars] returns a dictionary whose keys are the names of
    the sequence, each once, and in which every bar has its footer and is
    sure to format; it creates one bar for each element of the sequence, on
    the rows 0, 1, ... in order; the bars that it closes on the way are
    those that a repeated name drops from the dictionary, so that the rows
    closed and the rows of the dictionary are together the rows created,
    each once; when no name is repeated it closes nothing and draws each
    bar twice, created and redrawn; and it changes neither the stored bars
    nor the errors. *)
Theorem build_any_sequence
    (services : list string) (w : world)
    (Hne : services <> []) :
  exists d w' closed,
    _build_progress_bars services w = (Ok d, w') /\
    NoDup (od_keys d) /\
    (forall name, In name (od_keys d) <-> In name services) /\
    footers_ready d = true /\
    formats_ready d = true /\
    created_rows (screen w')
    = (created_rows (screen w) ++ rows (List.length services))%list /\
    closed_rows (screen w') = (closed_rows (screen w) ++ closed)%list /\
    Permutation (closed ++ map Tqdm.position (od_values d))
                (rows (List.length services)) /\
    (NoDup services ->
     screen w'
     = (screen w ++ flat_map (fun r => [Created r; Refreshed r])
                             (rows (List.length services)))%list) /\
    terminal w' = terminal w /\
    progress_bars w' = progress_bars w /\
    errors w' = errors w.
Proof.
  destruct services as [|first rest]; [congruence|].
  eexists. eexists.
  exists (closed_rows
            (build_screen (right_budget w) (Py.len (Py.max_from first rest))
                          (first :: rest) 0 [])).
  split; [apply build_nonempty|].
  split; [apply fill_keys_NoDup; constructor|].
  split.
  { intros name. rewrite fill_keys_in. simpl. tauto. }
  split; [now apply fill_footers|].
  split; [now apply fill_formats|].
  unfold put_all. cbn [screen terminal progress_bars errors].
  split; [now rewrite created_rows_app, created_rows_build_screen|].
  split; [apply closed_rows_app|].
  split; [apply (build_closed_rows _ _ (first :: rest) 0 [])|].
  split; [|auto].
  intros Hnd. now rewrite build_screen_fresh by (assumption || reflexivity).
Qed.

(** ** The summary of the errors *)

Lemma put_all_drawn d ds w : put_all ds (put_drawn d w) = put_all (d :: ds) w.
Proof.
  unfold put_all, put_drawn. cbn. now rewrite <- app_assoc.
Qed.

Lemma display_each_run TAB str errs w :
  display_each TAB str errs w
  = (Ok tt,
     put_all (flat_map (fun entry =>
                          [Echoed (TAB ++ style (service entry ++ ":"));
                           Echoed (TAB ++ style (str (error entry)));
                           Echoed ""]) errs) w).
Proof.
  revert w. induction errs as [|entry rest IH]; intros w.
  - cbn. now rewrite put_all_nil.
  - cbn [display_each flat_map]. unfold bind, echo, draw. rewrite IH.
    now rewrite !put_all_drawn.
Qed.

Lemma display_errors_run TAB str errs w :
  _display_errors TAB str errs w = (Ok tt, put_all (error_lines TAB str errs) w).
Proof.
  destruct errs as [|entry rest].
  - cbn. now rewrite put_all_nil.
  - unfold _display_errors.
    replace (Z.of_nat (List.length (entry :: rest)) >? 0) with true
      by (symmetry; apply Z.gtb_lt; cbn [List.length]; lia).
    unfold bind, echo, draw. rewrite display_each_run.
    now rewrite put_all_drawn.
Qed.

Lemma error_lines_cons TAB str entry rest :
  error_lines TAB str (entry :: rest)
  = Echoed (style "There were errors while starting some of the services: ")
    :: flat_map (fun entry =>
                   [Echoed (TAB ++ style (service entry ++ ":"));
                    Echoed (TAB ++ style (str (error entry)));
                    Echoed ""]) (entry :: rest).
Proof. reflexivity. Qed.

Lemma three_lines_length {A : Type} (f g h : A -> drawn) (l : list A) :
  List.length (flat_map (fun x => [f x; g x; h x]) l) = (3 * List.length l)%nat.
Proof.
  induction l as [|x l IH]; [reflexivity|].
  cbn [flat_map List.length app]. rewrite IH. lia.
Qed.

Lemma three_lines_nth {A : Type} (f g h : A -> drawn) (l : list A) k x :
  nth_error l k = Some x ->
  nth_error (flat_map (fun x => [f x; g x; h x]) l) (3 * k) = Some (f x) /\
  nth_error (flat_map (fun x => [f x; g x; h x]) l) (1 + 3 * k) = Some (g x) /\
  nth_error (flat_map (fun x => [f x; g x; h x]) l) (2 + 3 * k) = Some (h x).
Proof.
  revert k. induction l as [|y l IH]; intros k Hnth; [destruct k; discriminate|].
  destruct k as [|k].
  - injection Hnth as ->. repeat split; reflexivity.
  - cbn [nth_error] in Hnth. specialize (IH k Hnth).
    replace (3 * S k)%nat with (3 + 3 * k)%nat by lia.
    replace (1 + (3 + 3 * k))%nat with (3 + (1 + 3 * k))%nat by lia.
    replace (2 + (3 + 3 * k))%nat with (3 + (2 + 3 * k))%nat by lia.
    cbn [flat_map app]. exact IH.
Qed.

(** X9.  [_display_errors] never raises and only writes: nothing at all for
    an empty list; otherwise the header followed, for each error in the
    order of the list, by the line of the service, the line of the error
    and an empty line, which makes one line plus three for each error. *)
Theorem display_errors_output
    (TAB : string) (str : status -> string) (errs : list error_record)
    (w : world) :
  _display_errors TAB str errs w = (Ok tt, put_all (error_lines TAB str errs) w) /\
  (errs = [] -> error_lines TAB str errs = []) /\
  (errs <> [] ->
   List.length (error_lines TAB str errs) = (1 + 3 * List.length errs)%nat) /\
  (forall k entry, nth_error errs k = Some entry ->
     nth_error (error_lines TAB str errs) (1 + 3 * k)
     = Some (Echoed (TAB ++ style (service entry ++ ":"))) /\
     nth_error (error_lines TAB str errs) (2 + 3 * k)
     = Some (Echoed (TAB ++ style (str (error entry)))) /\
     nth_error (error_lines TAB str errs) (3 + 3 * k) = Some (Echoed "")).
Proof.
  split; [apply display_errors_run|]. split; [now intros ->|]. split.
  - intros Hne. destruct errs as [|entry rest]; [congruence|].
    rewrite error_lines_cons. cbn [List.length plus].
    now rewrite three_lines_length.
  - intros k entry Hnth.
    destruct errs as [|first rest]; [destruct k; discriminate|].
    rewrite error_lines_cons.
    change (1 + 3 * k)%nat with (S (3 * k)).
    change (2 + 3 * k)%nat with (S (1 + 3 * k)).
    change (3 + 3 * k)%nat with (S (2 + 3 * k)).
    cbn [nth_error].
    exact (three_lines_nth _ _ _ _ k entry Hnth).
Qed.

(** ** The status report *)

Lemma put_all_one d w : put_drawn d w = put_all [d] w.
Proof. reflexivity. Qed.

(** Two worlds that differ by how the same screen is written. *)
Ltac same_screen :=
  unfold put_all, put_drawn;
  cbn [terminal progress_bars errors screen];
  repeat first [rewrite map_app | rewrite <- app_assoc | progress cbn [map app]];
  reflexivity.

Lemma echo_ports_run TAB ports w :
  Status.echo_ports TAB ports w
  = (Ok tt, put_all (map Echoed (map (Status.port_line TAB) ports)) w).
Proof.
  revert w. induction ports as [|port_data rest IH]; intros w.
  - cbn. now rewrite put_all_nil.
  - cbn [Status.echo_ports map]. unfold bind, echo, draw. rewrite IH.
    now rewrite put_all_drawn.
Qed.

Lemma echo_web_run TAB web w :
  Status.echo_web TAB web w
  = (Ok tt, put_all (map Echoed (Status.web_lines TAB web)) w).
Proof.
  destruct web as [[|c rest]|]; cbn; now rewrite ?put_all_nil.
Qed.

Lemma echo_port_block_run TAB ports w :
  (if Z.of_nat (List.length ports) >? 0
   then (echo (TAB ++ TAB ++ "Additional Ports:") ;; Status.echo_ports TAB ports)
   else ret tt) w
  = (Ok tt, put_all (map Echoed (Status.port_lines TAB ports)) w).
Proof.
  destruct ports as [|port_data rest].
  - cbn. now rewrite put_all_nil.
  - replace (Z.of_nat (List.length (port_data :: rest)) >? 0) with true
      by (symmetry; apply Z.gtb_lt; cbn [List.length]; lia).
    unfold bind, echo, draw. rewrite echo_ports_run.
    now rewrite put_all_drawn.
Qed.

Lemma echo_service_run TAB name status w :
  Status.echo_service TAB name status w
  = (Ok tt, put_all (map Echoed (Status.service_lines TAB name status)) w).
Proof.
  unfold Status.echo_service, Status.service_lines.
  destruct (Status.running status); cbn [negb].
  - unfold bind at 1, echo at 1, draw. unfold bind at 1.
    unfold bind at 1, echo at 1, draw. unfold bind at 1.
    rewrite echo_web_run. cbv beta iota. rewrite echo_port_block_run.
    unfold echo, draw. same_screen.
  - unfold bind, echo, draw. same_screen.
Qed.

Lemma echo_services_run TAB limit_services items w :
  Status.echo_services TAB limit_services items w
  = (Ok tt,
     put_all (map Echoed
                (flat_map (fun item =>
                             Status.service_lines TAB (fst item) (snd item))
                          (Status.listed limit_services items))) w).
Proof.
  revert w. induction items as [|[name status] rest IH]; intros w.
  - cbn. now rewrite put_all_nil.
  - cbn [Status.echo_services Status.listed filter fst].
    fold (Status.listed limit_services rest).
    unfold bind at 1.
    destruct (Status.skipped limit_services name); cbn [negb].
    + unfold ret at 1. apply IH.
    + rewrite echo_service_run, IH, put_all_app.
      cbn [flat_map fst snd]. now rewrite map_app.
Qed.

Lemma filter_all {A : Type} (f : A -> bool) (l : list A) :
  (forall x, f x = true) -> filter f l = l.
Proof.
  intros Hf. induction l as [|x l IH]; cbn; [reflexivity|].
  now rewrite Hf, IH.
Qed.

Lemma listed_no_limit items : Status.listed None items = items.
Proof. unfold Status.listed. now apply filter_all. Qed.

Lemma listed_empty_limit items : Status.listed (Some []) items = items.
Proof. unfold Status.listed. now apply filter_all. Qed.

(** X10.  Without a project ([system_config] is [None] or has no project)
    and for a project that is not set up, [status_project] writes its
    heading and the one or two lines that say so, and stops: whatever the
    engine would answer and whatever the limit, no service is listed. *)
Theorem status_report_stops_early
    (TAB : string) (parent : Status.Parent)
    (limit_services : option (list string)) (w : world)
    (Hearly : Status.system_config parent <> Some true \/
              Status.project_is_set_up parent = false) :
  Status.status_project TAB parent limit_services w
  = (Ok tt,
     put_all
       (match Status.system_config parent with
        | None =>
            [Echoed "Status:";
             Echoed (TAB ++ "No system configuration found.");
             Echoed (TAB ++ "No project found.")]
        | Some false =>
            [Echoed "Status:"; Echoed (TAB ++ "No project found.")]
        | Some true =>
            [Echoed "Status:";
             Echoed (TAB ++ "Project is not yet set up. Run the setup command.")]
        end) w).
Proof.
  unfold Status.status_project, bind, echo, draw, ret, style.
  destruct (Status.system_config parent) as [[|]|] eqn:Hconfig.
  - destruct Hearly as [Hno|Hsetup]; [congruence|].
    rewrite Hsetup. cbn [negb]. same_screen.
  - same_screen.
  - same_screen.
Qed.

(** X11.  For a project that is set up, [status_project] never raises and
    only writes: its heading, then, for the services that the engine
    answers for, in its order and leaving out those that the limit skips,
    the lines of each service, which end with an empty line. *)
Theorem status_report_lists_services
    (TAB : string) (parent : Status.Parent)
    (limit_services : option (list string)) (w : world)
    (Hproject : Status.system_config parent = Some true)
    (Hsetup : Status.project_is_set_up parent = true) :
  Status.status_project TAB parent limit_services w
  = (Ok tt,
     put_all
       (Echoed "Status:"
        :: map Echoed
             (flat_map (fun item =>
                          Status.service_lines TAB (fst item) (snd item))
                       (Status.listed limit_services (Status.status_for parent))))
       w).
Proof.
  unfold Status.status_project. rewrite Hproject, Hsetup. cbn [negb].
  unfold bind at 1, echo at 1, draw. unfold bind at 1, ret at 1.
  rewrite echo_services_run. now rewrite put_all_drawn.
Qed.

(** X12.  A limit only filters: the report with a limit is the report
    without a limit of an engine that answers for the services not skipped
    alone; and an empty list of names limits nothing, like [None]. *)
Theorem status_report_limit_filters
    (TAB : string) (parent : Status.Parent)
    (limit_services : option (list string)) (w : world) :
  Status.status_project TAB parent limit_services w
  = Status.status_project TAB
      {| Status.system_config := Status.system_config parent;
         Status.project_is_set_up := Status.project_is_set_up parent;
         Status.status_for :=
           Status.listed limit_services (Status.status_for parent) |}
      None w /\
  Status.status_project TAB parent (Some []) w
  = Status.status_project TAB parent None w.
Proof.
  unfold Status.status_project.
  cbn [Status.system_config Status.project_is_set_up Status.status_for].
  destruct (Status.system_config parent) as [[|]|];
    try (split; reflexivity).
  destruct (Status.project_is_set_up parent); cbn [negb];
    try (split; reflexivity).
  unfold bind at 1 3 5 7, echo at 1 2 3 4, draw.
  unfold bind at 1 2 3 4, ret at 1 2 3 4.
  rewrite !echo_services_run.
  now rewrite !listed_no_limit, listed_empty_limit.
Qed.

(** ** Whole operations *)

Lemma closed_rows_error_lines TAB str errs :
  closed_rows (error_lines TAB str errs) = [].
Proof.
  destruct errs as [|entry rest]; [reflexivity|].
  rewrite error_lines_cons. cbn [closed_rows].
  generalize (entry :: rest). intros l.
  induction l as [|x l IH]; [reflexivity | exact IH].
Qed.

Lemma started_errors services w :
  services <> [] -> errors (started services w) = [].
Proof.
  destruct services as [|first rest]; [congruence|]. intros _.
  now rewrite started_nonempty.
Qed.

Section DispatcherRuns.

Variable TAB : string.
Variable str : status -> string.
Variable status_project : Context -> M unit.

Lemma run_operation_completes ctx events services failure_message show_status w :
  services <> [] ->
  raised events = None ->
  forallb (handled services) (yielded events) = true ->
  exists w',
    run_operation TAB str status_project ctx events services failure_message
                  show_status w
    = (if show_status then status_project ctx w' else (Ok tt, w')) /\
    errors w' = failures (yielded events) /\
    (forall name, In name (od_keys (progress_bars w')) <-> In name services) /\
    (forall name bar, od_get name (progress_bars w') = Some bar ->
                      Tqdm.closed bar = true) /\
    closed_rows (screen w')
    = (closed_rows (screen (started services w))
       ++ rev (map Tqdm.position (od_values (progress_bars w'))))%list /\
    exists before,
      screen w'
      = (before
         ++ closing (rev (map Tqdm.position (od_values (progress_bars w'))))
         ++ error_lines TAB str (failures (yielded events)))%list.
Proof.
  intros Hne Hraised Hall.
  destruct (handle_events_started services (yielded events) w Hne Hall)
    as (w1 & Hrun & Hframe & _).
  pose proof (started_footers services w Hne) as Hboard.
  pose proof (started_formats services w Hne) as Hformats.
  assert (errors w1 = failures (yielded events)) as Herrors.
  { pose proof (errors_after_events_run (yielded events) _ Hboard Hformats)
      as He.
    rewrite Hrun, (started_errors services w Hne) in He. apply He.
    rewrite (all_handled_same _ services); [assumption|].
    intros x. now apply started_keys. }
  assert (forall x, In x (od_keys (progress_bars w1)) <-> In x services) as Hkeys.
  { intros x. rewrite (frame_keys _ _ Hframe). now apply started_keys. }
  assert (NoDup (od_keys (progress_bars w1))) as Hnd.
  { rewrite (frame_keys _ _ Hframe).
    destruct services as [|first rest]; [congruence|].
    rewrite started_nonempty. cbn [progress_bars].
    apply fill_keys_NoDup. constructor. }
  destruct (close_bars_run w1 Hnd)
    as (w2 & Hclose & Hscreen & Hlayout & Herr2 & _ & Hclosed).
  assert (map Tqdm.position (od_values (progress_bars w2))
          = map Tqdm.position (od_values (progress_bars w1))) as Hrows
    by (rewrite <- !layout_rows; now rewrite Hlayout).
  exists (put_all (error_lines TAB str (errors w2)) w2).
  cbn [errors progress_bars screen put_all].
  split; [|split; [|split; [|split; [|split]]]].
  - destruct services as [|first rest]; [congruence|].
    unfold started in Hrun. rewrite build_nonempty in Hrun.
    unfold run_operation. unfold bind at 1. rewrite build_nonempty.
    unfold bind at 1, set_progress_bars. unfold bind at 1, set_errors.
    unfold bind at 1, try_except, async_for. unfold bind at 1.
    rewrite Hrun, Hraised. unfold ret at 1.
    unfold bind at 1. rewrite Hclose.
    unfold bind at 1, get_errors. unfold bind at 1.
    rewrite display_errors_run. now destruct show_status.
  - congruence.
  - intros name. rewrite <- Hkeys, <- !layout_keys. now rewrite Hlayout.
  - exact Hclosed.
  - rewrite Hscreen, !closed_rows_app, closed_rows_closing,
      closed_rows_error_lines, app_nil_r, Hrows.
    now rewrite (frame_closed _ _ Hframe).
  - exists (screen w1). rewrite Hscreen, Hrows, Herr2, Herrors.
    now rewrite <- app_assoc.
Qed.

(** X13.  With no service to work on, [start_project] and [stop_project]
    write their two first lines and raise the [ValueError] of [max] as it
    is: the construction of the bars stands before the [try], so the error
    is not wrapped in a [RiptideCliError]; the engine is not asked for
    anything, and no bar, error or status is written. *)
Theorem operation_on_no_service
    (ctx : Context) (services : option (list string)) (show_status : bool)
    (w : world)
    (Hempty : chosen ctx services = []) :
  start_project TAB str status_project ctx services show_status w
  = (Raise (ValueError "max() arg is an empty sequence"),
     put_all [Echoed "Starting services..."; Echoed ""] w) /\
  stop_project TAB str status_project ctx services show_status w
  = (Raise (ValueError "max() arg is an empty sequence"),
     put_all [Echoed "Stopping services..."; Echoed ""] w).
Proof.
  rewrite start_project_run, stop_project_run, Hempty.
  rewrite !run_operation_empty. split; f_equal; same_screen.
Qed.

(** X14.  When the generator ends without raising and all its events were
    among those of [handled], [start_project] and [stop_project] go on to
    the end: every bar of the dictionary is closed, once, from the last
    entry to the first with an empty line after each, so that for names
    given once each the rows closed are these alone; then the summary of
    the errors is written, which are the finished failures of the run in
    the order of arrival; and the status report, if it is asked for, runs
    last, in that world. *)
Theorem operation_completes
    (ctx : Context) (services : option (list string)) (show_status : bool)
    (w : world)
    (Hne : chosen ctx services <> []) :
  (raised (engine_start_project (engine ctx) (chosen ctx services)) = None ->
   forallb (handled (chosen ctx services))
     (yielded (engine_start_project (engine ctx) (chosen ctx services))) = true ->
   exists w',
     start_project TAB str status_project ctx services show_status w
     = (if show_status then status_project ctx w' else (Ok tt, w')) /\
     errors w'
     = failures (yielded (engine_start_project (engine ctx) (chosen ctx services))) /\
     (forall name bar, od_get name (progress_bars w') = Some bar ->
                       Tqdm.closed bar = true) /\
     (NoDup (chosen ctx services) ->
      closed_rows (screen w')
      = (closed_rows (screen w)
         ++ rev (map Tqdm.position (od_values (progress_bars w'))))%list) /\
     exists before,
       screen w'
       = (before
          ++ closing (rev (map Tqdm.position (od_values (progress_bars w'))))
          ++ error_lines TAB str
               (failures (yielded (engine_start_project (engine ctx)
                                     (chosen ctx services)))))%list) /\
  (raised (engine_stop_project (engine ctx) (chosen ctx services)) = None ->
   forallb (handled (chosen ctx services))
     (yielded (engine_stop_project (engine ctx) (chosen ctx services))) = true ->
   exists w',
     stop_project TAB str status_project ctx services show_status w
     = (if show_status then status_project ctx w' else (Ok tt, w')) /\
     errors w'
     = failures (yielded (engine_stop_project (engine ctx) (chosen ctx services))) /\
     (forall name bar, od_get name (progress_bars w') = Some bar ->
                       Tqdm.closed bar = true) /\
     (NoDup (chosen ctx services) ->
      closed_rows (screen w')
      = (closed_rows (screen w)
         ++ rev (map Tqdm.position (od_values (progress_bars w'))))%list) /\
     exists before,
       screen w'
       = (before
          ++ closing (rev (map Tqdm.position (od_values (progress_bars w'))))
          ++ error_lines TAB str
               (failures (yielded (engine_stop_project (engine ctx)
                                     (chosen ctx services)))))%list).
Proof.
  split; intros Hraised Hall.
  - rewrite start_project_run.
    destruct (run_operation_completes ctx _ _ "Error starting the services"
                show_status
                (put_drawn (Echoed "") (put_drawn (Echoed "Starting services...") w))
                Hne Hraised Hall)
      as (w' & Hrun & Herr & _ & Hclosed & Hrows & Hscreen).
    exists w'. split; [assumption|]. split; [assumption|].
    split; [assumption|]. split; [|assumption].
    intros Hnd. rewrite Hrows. now rewrite closed_rows_announced.
  - rewrite stop_project_run.
    destruct (run_operation_completes ctx _ _ "Error stopping the services"
                show_status
                (put_drawn (Echoed "") (put_drawn (Echoed "Stopping services...") w))
                Hne Hraised Hall)
      as (w' & Hrun & Herr & _ & Hclosed & Hrows & Hscreen).
    exists w'. split; [assumption|]. split; [assumption|].
    split; [assumption|]. split; [|assumption].
    intros Hnd. rewrite Hrows. now rewrite closed_rows_announced.
Qed.

(** An event of [rejected] raises before any bar is touched. *)
Lemma rejected_event_run w service_name status finished :
  rejected (od_keys (progress_bars w)) (service_name, status, finished) = true ->
  exists e,
    fst (_handle_progress_bar service_name status finished w) = Raise e /\
    (e = KeyError service_name \/ exists attr, e = AttributeError attr) /\
    screen (snd (_handle_progress_bar service_name status finished w))
    = screen w /\
    errors (snd (_handle_progress_bar service_name status finished w))
    = (errors w ++ match status, finished with
                   | Some st, true => [{| service := service_name; error := st |}]
                   | _, _ => []
                   end)%list.
Proof.
  intros Hh. unfold rejected in Hh.
  destruct finished, status as [[text current_step steps|message]|];
    try discriminate;
    try (eexists; cbn; rewrite ?app_nil_r; repeat split; eauto; fail);
    apply negb_true_iff in Hh;
    (destruct (od_get service_name (progress_bars w)) as [bar|] eqn:Hget;
     [ assert (registered service_name (od_keys (progress_bars w)) = true)
         by (apply registered_get; eauto); congruence |]).
  - rewrite (handle_failure_unregistered _ _ _ Hget).
    eexists. cbn. repeat split; eauto.
  - rewrite (handle_progress_unregistered _ _ _ _ _ Hget).
    eexists. cbn. rewrite app_nil_r. repeat split; eauto.
Qed.

Lemma rejected_same keys keys' ev :
  (forall x, In x keys <-> In x keys') -> rejected keys ev = rejected keys' ev.
Proof.
  intros H. destruct ev as [[name [[t c s|m]|]] [|]]; simpl; auto;
    now rewrite (registered_same name keys keys' H).
Qed.

Lemma run_operation_rejected ctx events services failure_message
    show_status w service_name status finished pre post :
  services <> [] ->
  yielded events = (pre ++ (service_name, status, finished) :: post)%list ->
  forallb (handled services) pre = true ->
  rejected services (service_name, status, finished) = true ->
  exists e w',
    run_operation TAB str status_project ctx events services failure_message
                  show_status w
    = (Raise (RiptideCliError failure_message e), w') /\
    (e = KeyError service_name \/ exists attr, e = AttributeError attr) /\
    closed_rows (screen w') = closed_rows (screen (started services w)) /\
    errors w'
    = (failures pre ++ match status, finished with
                       | Some st, true => [{| service := service_name;
                                              error := st |}]
                       | _, _ => []
                       end)%list.
Proof.
  intros Hne Hyield Hpre Hev.
  destruct (handle_events_started services pre w Hne Hpre)
    as (w1 & Hrun & Hframe & _).
  pose proof (started_footers services w Hne) as Hboard0.
  pose proof (started_formats services w Hne) as Hformats0.
  assert (rejected (od_keys (progress_bars w1)) (service_name, status, finished)
          = true) as Hev1.
  { rewrite (rejected_same _ services); [assumption|].
    intros x. rewrite (frame_keys _ _ Hframe). now apply started_keys. }
  destruct (rejected_event_run w1 service_name status finished Hev1)
    as (e & He & Hkind & Hscreen & Herrors).
  assert (errors w1 = failures pre) as Herr1.
  { pose proof (errors_after_events_run pre _ Hboard0 Hformats0) as H.
    rewrite Hrun, (started_errors services w Hne) in H. apply H.
    rewrite (all_handled_same _ services); [assumption|].
    intros x. now apply started_keys. }
  destruct (_handle_progress_bar service_name status finished w1) as [r w2] eqn:Hh.
  cbn [fst snd] in *. subst r.
  exists e, w2. split; [|split; [assumption|split]].
  - apply run_operation_raises; [assumption|].
    unfold async_for, bind. rewrite Hyield, handle_events_app, Hrun.
    cbn [handle_events]. unfold bind. now rewrite Hh.
  - rewrite Hscreen. apply (frame_closed _ _ Hframe).
  - now rewrite Herrors, Herr1.
Qed.

(** X15.  After events of [handled], an event of [rejected] (a status of
    the wrong kind for its flag, or a status for a service without a bar)
    ends the operation: [start_project] and [stop_project] raise their
    [RiptideCliError] with the [KeyError] or [AttributeError] of the handler
    as its cause, whatever the generator would have yielded or raised
    afterwards; no bar is closed from the moment the bars are built, and
    the errors hold the failures handled before, and the record of the
    raising event itself when it is finished and has a status. *)
Theorem rejected_event_aborts
    (ctx : Context) (services : option (list string)) (show_status : bool)
    (w : world) (service_name : string) (status : option status)
    (finished : bool) (pre post : list event)
    (Hne : chosen ctx services <> [])
    (Hpre : forallb (handled (chosen ctx services)) pre = true)
    (Hev : rejected (chosen ctx services) (service_name, status, finished)
           = true) :
  (yielded (engine_start_project (engine ctx) (chosen ctx services))
   = (pre ++ (service_name, status, finished) :: post)%list ->
   exists e w',
     start_project TAB str status_project ctx services show_status w
     = (Raise (RiptideCliError "Error starting the services" e), w') /\
     (e = KeyError service_name \/ exists attr, e = AttributeError attr) /\
     (NoDup (chosen ctx services) ->
      closed_rows (screen w') = closed_rows (screen w)) /\
     errors w'
     = (failures pre ++ match status, finished with
                        | Some st, true => [{| service := service_name;
                                               error := st |}]
                        | _, _ => []
                        end)%list) /\
  (yielded (engine_stop_project (engine ctx) (chosen ctx services))
   = (pre ++ (service_name, status, finished) :: post)%list ->
   exists e w',
     stop_project TAB str status_project ctx services show_status w
     = (Raise (RiptideCliError "Error stopping the services" e), w') /\
     (e = KeyError service_name \/ exists attr, e = AttributeError attr) /\
     (NoDup (chosen ctx services) ->
      closed_rows (screen w') = closed_rows (screen w)) /\
     errors w'
     = (failures pre ++ match status, finished with
                        | Some st, true => [{| service := service_name;
                                               error := st |}]
                        | _, _ => []
                        end)%list).
Proof.
  split; intros Hyield.
  - rewrite start_project_run.
    destruct (run_operation_rejected ctx _ _ "Error starting the services"
                show_status
                (put_drawn (Echoed "") (put_drawn (Echoed "Starting services...") w))
                _ _ _ _ _ Hne Hyield Hpre Hev)
      as (e & w' & Hrun & Hkind & Hclosed & Herrors).
    exists e, w'. split; [assumption|]. split; [assumption|].
    split; [|assumption].
    intros Hnd. rewrite Hclosed. now apply closed_rows_announced.
  - rewrite stop_project_run.
    destruct (run_operation_rejected ctx _ _ "Error stopping the services"
                show_status
                (put_drawn (Echoed "") (put_drawn (Echoed "Stopping services...") w))
                _ _ _ _ _ Hne Hyield Hpre Hev)
      as (e & w' & Hrun & Hkind & Hclosed & Herrors).
    exists e, w'. split; [assumption|]. split; [assumption|].
    split; [|assumption].
    intros Hnd. rewrite Hclosed. now apply closed_rows_announced.
Qed.

(** A failure with a brace in its message, from a service that has a bar,
    ends the operation too: the exception that formatting the line raises
    is wrapped like any other. *)
Lemma run_operation_format_error ctx events services failure_message
    show_status w service_name message pre post w1 bar e :
  services <> [] ->
  yielded events
  = (pre ++ (service_name, Some (Failure message), true) :: post)%list ->
  handle_events pre (started services w) = (Ok tt, w1) ->
  od_get service_name (progress_bars w1) = Some bar ->
  format_error (tqdm_field w1)
    (after_failure (bound message (error_budget w1)) bar) = Some e ->
  exists w',
    run_operation TAB str status_project ctx events services failure_message
                  show_status w
    = (Raise (RiptideCliError failure_message e), w') /\
    screen w' = screen w1 /\
    errors w' = (errors w1 ++ [{| service := service_name;
                                  error := Failure message |}])%list.
Proof.
  intros Hne Hyield Hrun Hget Hfmt.
  eexists. split; [|split].
  - apply run_operation_raises; [assumption|].
    unfold async_for, bind. rewrite Hyield, handle_events_app, Hrun.
    cbn [handle_events]. unfold bind.
    rewrite (handle_failure _ _ _ _ Hget), Hfmt. reflexivity.
  - cbn. now rewrite app_nil_r.
  - reflexivity.
Qed.

(** X17.  A failure of a service that has a bar, whose line does not
    format, ends the operation like any other exception of the handler:
    after events for which the handler returned, [start_project] and
    [stop_project] raise their [RiptideCliError] with the exception of the
    format as its cause; the record of the failure is in the errors,
    nothing more is drawn, and what the generator would have yielded or
    raised afterwards is not reached. *)
Theorem failure_that_does_not_format_aborts
    (ctx : Context) (services : option (list string)) (show_status : bool)
    (w w1 : world) (service_name message : string) (pre post : list event)
    (bar : Tqdm.t) (e : exn)
    (Hne : chosen ctx services <> [])
    (Hreg : od_get service_name (progress_bars w1) = Some bar)
    (Hformat : format_error (tqdm_field w1)
                 (after_failure (bound message (error_budget w1)) bar)
               = Some e) :
  (yielded (engine_start_project (engine ctx) (chosen ctx services))
   = (pre ++ (service_name, Some (Failure message), true) :: post)%list ->
   handle_events pre
     (started (chosen ctx services)
        (put_drawn (Echoed "") (put_drawn (Echoed "Starting services...") w)))
   = (Ok tt, w1) ->
   exists w',
     start_project TAB str status_project ctx services show_status w
     = (Raise (RiptideCliError "Error starting the services" e), w') /\
     screen w' = screen w1 /\
     errors w' = (errors w1 ++ [{| service := service_name;
                                   error := Failure message |}])%list) /\
  (yielded (engine_stop_project (engine ctx) (chosen ctx services))
   = (pre ++ (service_name, Some (Failure message), true) :: post)%list ->
   handle_events pre
     (started (chosen ctx services)
        (put_drawn (Echoed "") (put_drawn (Echoed "Stopping services...") w)))
   = (Ok tt, w1) ->
   exists w',
     stop_project TAB str status_project ctx services show_status w
     = (Raise (RiptideCliError "Error stopping the services" e), w') /\
     screen w' = screen w1 /\
     errors w' = (errors w1 ++ [{| service := service_name;
                                   error := Failure message |}])%list).
Proof.
  split; intros Hyield Hrun.
  - rewrite start_project_run.
    apply (run_operation_format_error ctx _ _ "Error starting the services"
             show_status _ _ _ _ _ _ _ _ Hne Hyield Hrun Hreg Hformat).
  - rewrite stop_project_run.
    apply (run_operation_format_error ctx _ _ "Error stopping the services"
             show_status _ _ _ _ _ _ _ _ Hne Hyield Hrun Hreg Hformat).
Qed.

End DispatcherRuns.

(** ** The further properties at concrete inputs *)

(** The port line of the example. *)
Example port_line_debug :
  Status.port_line four_spaces
    {| Status.title := "debug"; Status.container := 9229; Status.host := 19229 |}
  = "            Port debug (9229) reachable on localhost:19229".
Proof. by_evaluation. Qed.

Lemma handler_keeps_the_board_witness :
  footers_ready (progress_bars web_db) = true /\
  terminal (snd (_handle_progress_bar "web"
                   (Some (InProgress "starting" 2 (Some 3))) false web_db))
  = terminal web_db /\
  layout (progress_bars
            (snd (_handle_progress_bar "web"
                    (Some (InProgress "starting" 2 (Some 3))) false web_db)))
  = layout (progress_bars web_db) /\
  footers_ready
    (progress_bars
       (snd (_handle_progress_bar "web"
               (Some (InProgress "starting" 2 (Some 3))) false web_db)))
  = true /\
  closed_rows
    (screen (snd (_handle_progress_bar "web"
                    (Some (InProgress "starting" 2 (Some 3))) false web_db)))
  = closed_rows (screen web_db) /\
  exists more,
    errors (snd (_handle_progress_bar "web"
                   (Some (InProgress "starting" 2 (Some 3))) false web_db))
    = (errors web_db ++ more)%list.
Proof.
  split; [by_evaluation|].
  apply (handler_keeps_the_board "web"
           (Some (InProgress "starting" 2 (Some 3))) false web_db).
  by_evaluation.
Defined.

Lemma handler_returns_iff_witness :
  footers_ready (progress_bars web_db) = true /\
  (fst (_handle_progress_bar "db" (Some (Failure "bad {x} value")) true web_db)
   = Ok tt
   <-> (Some (Failure "bad {x} value") = None /\ true = true)
       \/ (exists message bar,
              Some (Failure "bad {x} value") = Some (Failure message) /\
              true = true /\
              od_get "db" (progress_bars web_db) = Some bar /\
              format_error (tqdm_field web_db)
                (after_failure (bound message (error_budget web_db)) bar)
              = None)
       \/ (exists text current_step steps bar,
              Some (Failure "bad {x} value")
              = Some (InProgress text current_step steps) /\
              true = false /\
              od_get "db" (progress_bars web_db) = Some bar /\
              format_error (tqdm_field web_db)
                (after_progress (bound text (right_budget web_db)) steps
                                current_step bar) = None)) /\
  (formats_ready (progress_bars web_db) = true ->
   handled (od_keys (progress_bars web_db))
     ("db", Some (Failure "bad {x} value"), true) = true ->
   fst (_handle_progress_bar "db" (Some (Failure "bad {x} value")) true web_db)
   = Ok tt) /\
  (rejected (od_keys (progress_bars web_db))
     ("db", Some (Failure "bad {x} value"), true) = true ->
   exists e,
     fst (_handle_progress_bar "db" (Some (Failure "bad {x} value")) true web_db)
     = Raise e).
Proof.
  split; [by_evaluation|].
  apply (handler_returns_iff "db" (Some (Failure "bad {x} value")) true web_db).
  by_evaluation.
Defined.

Lemma raising_event_leaves_the_screen_witness :
  footers_ready (progress_bars web_db) = true /\
  fst (_handle_progress_bar "db" (Some (Failure "bad {x} value")) true web_db)
  = Raise (KeyError "x") /\
  screen (snd (_handle_progress_bar "db" (Some (Failure "bad {x} value")) true
                 web_db))
  = screen web_db /\
  errors (snd (_handle_progress_bar "db" (Some (Failure "bad {x} value")) true
                 web_db))
  = (errors web_db
     ++ [{| service := "db"; error := Failure "bad {x} value" |}])%list /\
  ((progress_bars
      (snd (_handle_progress_bar "db" (Some (Failure "bad {x} value")) true
              web_db))
    = progress_bars web_db /\
    (KeyError "x" = KeyError "db" \/
     exists attr, KeyError "x" = AttributeError attr))
   \/ exists bar bar',
        od_get "db" (progress_bars web_db) = Some bar /\
        carries_payload (Some (Failure "bad {x} value")) true = true /\
        progress_bars
          (snd (_handle_progress_bar "db" (Some (Failure "bad {x} value")) true
                  web_db))
        = od_set "db" bar' (progress_bars web_db) /\
        bar' = after_failure (bound "bad {x} value" (error_budget web_db)) bar /\
        format_error (tqdm_field web_db) bar' = Some (KeyError "x")).
Proof.
  split; [by_evaluation|]. split; [by_evaluation|].
  apply (raising_event_leaves_the_screen "db" (Some (Failure "bad {x} value"))
           true web_db (KeyError "x")); by_evaluation.
Defined.

Lemma failure_event_appends_record_witness :
  od_get "db" (progress_bars web_db) = Some (initial_bar 45 3 1 "db") /\
  exists r w',
    _handle_progress_bar "db" (Some (Failure "connection refused")) true web_db
    = (r, w') /\
    r = outcome (format_error (tqdm_field web_db)
                   (after_failure
                      (bound "connection refused" (error_budget web_db))
                      (initial_bar 45 3 1 "db"))) /\
    (Format.brace_free "connection refused" = true -> r = Ok tt) /\
    errors w' = (errors web_db
                 ++ [{| service := "db";
                        error := Failure "connection refused" |}])%list /\
    od_get "db" (progress_bars w')
    = Some (after_failure (bound "connection refused" (error_budget web_db))
                          (initial_bar 45 3 1 "db")) /\
    Tqdm.bar_format
      (after_failure (bound "connection refused" (error_budget web_db))
                     (initial_bar 45 3 1 "db"))
    = "{desc}" ++ bound "connection refused" (error_budget web_db).
Proof.
  split; [by_evaluation|].
  apply (failure_event_appends_record "db" "connection refused" web_db
           (initial_bar 45 3 1 "db")).
  by_evaluation.
Defined.

Lemma counter_after_events_witness :
  footers_ready (progress_bars web_db) = true /\
  formats_ready (progress_bars web_db) = true /\
  forallb (handled (od_keys (progress_bars web_db))) (yielded mixed_stream)
  = true /\
  od_get "web" (progress_bars web_db) = Some (initial_bar 45 3 0 "web") /\
  last_step "web" (yielded mixed_stream) 0 = 3 /\
  last_total "web" (yielded mixed_stream) (Some 1) = Some 3 /\
  fst (handle_events (yielded mixed_stream) web_db) = Ok tt /\
  exists bar',
    od_get "web"
      (progress_bars (snd (handle_events (yielded mixed_stream) web_db)))
    = Some bar' /\
    Tqdm.n bar'
    = last_step "web" (yielded mixed_stream) (Tqdm.n (initial_bar 45 3 0 "web")) /\
    Tqdm.total bar'
    = last_total "web" (yielded mixed_stream)
        (Tqdm.total (initial_bar 45 3 0 "web")) /\
    Tqdm.position bar' = Tqdm.position (initial_bar 45 3 0 "web") /\
    Tqdm.description bar' = Tqdm.description (initial_bar 45 3 0 "web").
Proof.
  split; [by_evaluation|]. split; [by_evaluation|]. split; [by_evaluation|].
  split; [by_evaluation|]. split; [by_evaluation|]. split; [by_evaluation|].
  apply (counter_after_events (yielded mixed_stream) web_db "web"
           (initial_bar 45 3 0 "web")); by_evaluation.
Defined.

Lemma errors_after_events_witness :
  footers_ready (progress_bars web_db) = true /\
  formats_ready (progress_bars web_db) = true /\
  forallb (handled (od_keys (progress_bars web_db))) (yielded mixed_stream)
  = true /\
  failures (yielded mixed_stream)
  = [{| service := "db"; error := Failure "connection refused" |}] /\
  fst (handle_events (yielded mixed_stream) web_db) = Ok tt /\
  errors (snd (handle_events (yielded mixed_stream) web_db))
  = (errors web_db ++ failures (yielded mixed_stream))%list.
Proof.
  split; [by_evaluation|]. split; [by_evaluation|]. split; [by_evaluation|].
  split; [by_evaluation|].
  apply (errors_after_events (yielded mixed_stream) web_db); by_evaluation.
Defined.

Lemma build_any_sequence_witness :
  ["a"; "b"; "a"] <> [] /\
  exists d w' closed,
    _build_progress_bars ["a"; "b"; "a"] no_terminal = (Ok d, w') /\
    NoDup (od_keys d) /\
    (forall name, In name (od_keys d) <-> In name ["a"; "b"; "a"]) /\
    footers_ready d = true /\
    formats_ready d = true /\
    created_rows (screen w')
    = (created_rows (screen no_terminal)
       ++ rows (List.length ["a"; "b"; "a"]))%list /\
    closed_rows (screen w') = (closed_rows (screen no_terminal) ++ closed)%list /\
    Permutation (closed ++ map Tqdm.position (od_values d))
                (rows (List.length ["a"; "b"; "a"])) /\
    (NoDup ["a"; "b"; "a"] ->
     screen w'
     = (screen no_terminal
        ++ flat_map (fun r => [Created r; Refreshed r])
                    (rows (List.length ["a"; "b"; "a"])))%list) /\
    terminal w' = terminal no_terminal /\
    progress_bars w' = progress_bars no_terminal /\
    errors w' = errors no_terminal.
Proof.
  split; [discriminate|].
  apply (build_any_sequence ["a"; "b"; "a"] no_terminal). discriminate.
Defined.

(** When a name occurs twice, here [a] in [a, b, a], three bars are
    created on rows 0, 1, 2 and the dictionary keeps two entries, [a] with
    the bar of row 2 and [b] with the bar of row 1.  The bar of row 0 is
    closed as soon as the dictionary drops it, between the creation of the
    bar of row 2 and its redraw; closing the bars then closes row 1 and
    row 2. *)
Example repeated_name_screen :
  exists d w1 w3,
    _build_progress_bars ["a"; "b"; "a"] no_terminal = (Ok d, w1) /\
    screen w1 = [Created 0; Refreshed 0; Created 1; Refreshed 1;
                 Created 2; Closed 0; Refreshed 2] /\
    od_keys d = ["a"; "b"] /\
    map Tqdm.position (od_values d) = [2; 1] /\
    close_bars (put_progress_bars d w1) = (Ok tt, w3) /\
    closed_rows (screen w3) = [0; 1; 2].
Proof.
  exists (fill 45 1 ["a"; "b"; "a"] 0 []).
  exists (snd (_build_progress_bars ["a"; "b"; "a"] no_terminal)).
  exists (snd (close_bars (started ["a"; "b"; "a"] no_terminal))).
  evaluate.
Qed.

Lemma status_report_stops_early_witness :
  (Status.system_config
     {| Status.system_config := None;
        Status.project_is_set_up := true;
        Status.status_for := Status.status_for example_parent |}
   <> Some true \/
   Status.project_is_set_up
     {| Status.system_config := None;
        Status.project_is_set_up := true;
        Status.status_for := Status.status_for example_parent |} = false) /\
  Status.status_project four_spaces
    {| Status.system_config := None;
       Status.project_is_set_up := true;
       Status.status_for := Status.status_for example_parent |}
    (Some ["web"]) no_terminal
  = (Ok tt,
     put_all [Echoed "Status:";
              Echoed (four_spaces ++ "No system configuration found.");
              Echoed (four_spaces ++ "No project found.")] no_terminal).
Proof.
  assert (Status.system_config
            {| Status.system_config := None;
               Status.project_is_set_up := true;
               Status.status_for := Status.status_for example_parent |}
          <> Some true \/
          Status.project_is_set_up
            {| Status.system_config := None;
               Status.project_is_set_up := true;
               Status.status_for := Status.status_for example_parent |} = false)
    as Hearly by (left; discriminate).
  split; [exact Hearly|].
  exact (status_report_stops_early four_spaces
           {| Status.system_config := None;
              Status.project_is_set_up := true;
              Status.status_for := Status.status_for example_parent |}
           (Some ["web"]) no_terminal Hearly).
Defined.

Lemma status_report_lists_services_witness :
  Status.system_config example_parent = Some true /\
  Status.project_is_set_up example_parent = true /\
  Status.listed (Some ["db"]) (Status.status_for example_parent)
  = [("db", {| Status.running := false; Status.web := None;
               Status.additional_ports := [] |})] /\
  Status.status_project four_spaces example_parent (Some ["db"]) no_terminal
  = (Ok tt,
     put_all
       (Echoed "Status:"
        :: map Echoed
             (flat_map (fun item =>
                          Status.service_lines four_spaces (fst item) (snd item))
                       (Status.listed (Some ["db"])
                                      (Status.status_for example_parent))))
       no_terminal).
Proof.
  split; [by_evaluation|]. split; [by_evaluation|]. split; [by_evaluation|].
  apply (status_report_lists_services four_spaces example_parent (Some ["db"])
           no_terminal); by_evaluation.
Defined.

Lemma operation_on_no_service_witness :
  chosen (project_on mixed_stream) (Some []) = [] /\
  start_project four_spaces str_of_status no_report (project_on mixed_stream)
    (Some []) true no_terminal
  = (Raise (ValueError "max() arg is an empty sequence"),
     put_all [Echoed "Starting services..."; Echoed ""] no_terminal) /\
  stop_project four_spaces str_of_status no_report (project_on mixed_stream)
    (Some []) true no_terminal
  = (Raise (ValueError "max() arg is an empty sequence"),
     put_all [Echoed "Stopping services..."; Echoed ""] no_terminal).
Proof.
  split; [by_evaluation|].
  apply (operation_on_no_service four_spaces str_of_status no_report
           (project_on mixed_stream) (Some []) true no_terminal).
  by_evaluation.
Defined.

Lemma operation_completes_witness :
  chosen (project_on mixed_stream) None <> [] /\
  raised mixed_stream = None /\
  forallb (handled ["web"; "db"]) (yielded mixed_stream) = true /\
  (exists w',
      start_project four_spaces str_of_status
        (fun _ => Status.status_project four_spaces example_parent None)
        (project_on mixed_stream) None true no_terminal
      = Status.status_project four_spaces example_parent None w' /\
      errors w' = failures (yielded mixed_stream) /\
      (forall name bar, od_get name (progress_bars w') = Some bar ->
                        Tqdm.closed bar = true) /\
      (NoDup ["web"; "db"] ->
       closed_rows (screen w')
       = (closed_rows (screen no_terminal)
          ++ rev (map Tqdm.position (od_values (progress_bars w'))))%list) /\
      exists before,
        screen w'
        = (before
           ++ closing (rev (map Tqdm.position (od_values (progress_bars w'))))
           ++ error_lines four_spaces str_of_status
                (failures (yielded mixed_stream)))%list) /\
  (exists w',
      stop_project four_spaces str_of_status
        (fun _ => Status.status_project four_spaces example_parent None)
        (project_on mixed_stream) None true no_terminal
      = Status.status_project four_spaces example_parent None w' /\
      errors w' = failures (yielded mixed_stream) /\
      (forall name bar, od_get name (progress_bars w') = Some bar ->
                        Tqdm.closed bar = true) /\
      (NoDup ["web"; "db"] ->
       closed_rows (screen w')
       = (closed_rows (screen no_terminal)
          ++ rev (map Tqdm.position (od_values (progress_bars w'))))%list) /\
      exists before,
        screen w'
        = (before
           ++ closing (rev (map Tqdm.position (od_values (progress_bars w'))))
           ++ error_lines four_spaces str_of_status
                (failures (yielded mixed_stream)))%list).
Proof.
  assert (chosen (project_on mixed_stream) None <> []) as Hne by discriminate.
  split; [exact Hne|]. split; [by_evaluation|]. split; [by_evaluation|].
  destruct (operation_completes four_spaces str_of_status
              (fun _ => Status.status_project four_spaces example_parent None)
              (project_on mixed_stream) None true no_terminal Hne)
    as [Hstart Hstop].
  split; [apply Hstart | apply Hstop]; by_evaluation.
Defined.

(** The whole of the example operation, as the terminal sees it. *)
Example start_project_screen :
  screen
    (snd (start_project four_spaces str_of_status
            (fun _ => Status.status_project four_spaces example_parent None)
            (project_on mixed_stream) None true no_terminal))
  = [Echoed "Starting services..."; Echoed "";
     Created 0; Refreshed 0; Created 1; Refreshed 1;
     Refreshed 0; Refreshed 1; Refreshed 0;
     Closed 1; Echoed ""; Closed 0; Echoed "";
     Echoed "There were errors while starting some of the services: ";
     Echoed "    db:"; Echoed "    connection refused"; Echoed "";
     Echoed "Status:";
     Echoed "    web:"; Echoed "        Running.";
     Echoed "        Access via https://web.riptide.local";
     Echoed "        Additional Ports:";
     Echoed "            Port debug (9229) reachable on localhost:19229";
     Echoed "";
     Echoed "    db:"; Echoed "        Not running."; Echoed ""].
Proof. by_evaluation. Qed.

Lemma rejected_event_aborts_witness :
  chosen (project_on malformed_stream) None <> [] /\
  forallb (handled ["web"; "db"])
    [("db", Some (Failure "connection refused"), true)] = true /\
  rejected ["web"; "db"] ("web", None, false) = true /\
  (exists e w',
      start_project four_spaces str_of_status no_report
        (project_on malformed_stream) None true no_terminal
      = (Raise (RiptideCliError "Error starting the services" e), w') /\
      (e = KeyError "web" \/ exists attr, e = AttributeError attr) /\
      (NoDup ["web"; "db"] ->
       closed_rows (screen w') = closed_rows (screen no_terminal)) /\
      errors w'
      = (failures [("db", Some (Failure "connection refused"), true)] ++ [])%list) /\
  (exists e w',
      stop_project four_spaces str_of_status no_report
        (project_on malformed_stream) None true no_terminal
      = (Raise (RiptideCliError "Error stopping the services" e), w') /\
      (e = KeyError "web" \/ exists attr, e = AttributeError attr) /\
      (NoDup ["web"; "db"] ->
       closed_rows (screen w') = closed_rows (screen no_terminal)) /\
      errors w'
      = (failures [("db", Some (Failure "connection refused"), true)] ++ [])%list).
Proof.
  assert (chosen (project_on malformed_stream) None <> []) as Hne
    by discriminate.
  split; [exact Hne|]. split; [by_evaluation|]. split; [by_evaluation|].
  destruct (rejected_event_aborts four_spaces str_of_status no_report
              (project_on malformed_stream) None true no_terminal
              "web" None false
              [("db", Some (Failure "connection refused"), true)]
              [("web", None, true)] Hne eq_refl eq_refl)
    as [Hstart Hstop].
  split; [apply Hstart | apply Hstop]; by_evaluation.
Defined.

(** The failure of [db] whose message reads as a format with the field
    [x]: tqdm knows no variable of that name, the redraw raises
    [KeyError], and the operation ends with it as the cause, before the
    second step of [web] and before the generator raises. *)
Lemma failure_that_does_not_format_aborts_witness :
  chosen (project_on braces_stream) None <> [] /\
  (exists w1 w2 bar,
      od_get "db" (progress_bars w1) = Some bar /\
      format_error (tqdm_field w1)
        (after_failure (bound "bad {x} value" (error_budget w1)) bar)
      = Some (KeyError "x") /\
      handle_events [("web", Some (InProgress "starting" 1 (Some 3)), false)]
        (started ["web"; "db"]
           (put_drawn (Echoed "")
              (put_drawn (Echoed "Starting services...") no_terminal)))
      = (Ok tt, w1) /\
      od_get "db" (progress_bars w2) = Some bar /\
      format_error (tqdm_field w2)
        (after_failure (bound "bad {x} value" (error_budget w2)) bar)
      = Some (KeyError "x") /\
      handle_events [("web", Some (InProgress "starting" 1 (Some 3)), false)]
        (started ["web"; "db"]
           (put_drawn (Echoed "")
              (put_drawn (Echoed "Stopping services...") no_terminal)))
      = (Ok tt, w2) /\
      (exists w',
          start_project four_spaces str_of_status no_report
            (project_on braces_stream) None true no_terminal
          = (Raise (RiptideCliError "Error starting the services"
                                    (KeyError "x")), w') /\
          screen w' = screen w1 /\
          errors w' = (errors w1 ++ [{| service := "db";
                                        error := Failure "bad {x} value" |}])%list) /\
      (exists w',
          stop_project four_spaces str_of_status no_report
            (project_on braces_stream) None true no_terminal
          = (Raise (RiptideCliError "Error stopping the services"
                                    (KeyError "x")), w') /\
          screen w' = screen w2 /\
          errors w' = (errors w2 ++ [{| service := "db";
                                        error := Failure "bad {x} value" |}])%list)).
Proof.
  assert (chosen (project_on braces_stream) None <> []) as Hne by discriminate.
  split; [exact Hne|].
  exists (snd (handle_events
                 [("web", Some (InProgress "starting" 1 (Some 3)), false)]
                 (started ["web"; "db"]
                    (put_drawn (Echoed "")
                       (put_drawn (Echoed "Starting services...")
                                  no_terminal))))).
  exists (snd (handle_events
                 [("web", Some (InProgress "starting" 1 (Some 3)), false)]
                 (started ["web"; "db"]
                    (put_drawn (Echoed "")
                       (put_drawn (Echoed "Stopping services...")
                                  no_terminal))))).
  exists (initial_bar 45 3 1 "db").
  split; [by_evaluation|]. split; [by_evaluation|]. split; [by_evaluation|].
  split; [by_evaluation|]. split; [by_evaluation|]. split; [by_evaluation|].
  split.
  - apply (failure_that_does_not_format_aborts four_spaces str_of_status
             no_report (project_on braces_stream) None true no_terminal _
             "db" "bad {x} value"
             [("web", Some (InProgress "starting" 1 (Some 3)), false)]
             [("web", Some (InProgress "started" 2 (Some 3)), false)]
             (initial_bar 45 3 1 "db") (KeyError "x") Hne);
      by_evaluation.
  - apply (failure_that_does_not_format_aborts four_spaces str_of_status
             no_report (project_on braces_stream) None true no_terminal _
             "db" "bad {x} value"
             [("web", Some (InProgress "starting" 1 (Some 3)), false)]
             [("web", Some (InProgress "started" 2 (Some 3)), false)]
             (initial_bar 45 3 1 "db") (KeyError "x") Hne);
      by_evaluation.
Defined.
